(** * InteraktywnyGrafikPlaner: board model, column validation and history

    A shallow embedding of the domain model of the planner and of its
    undo/redo engine, followed by the properties stated about them.

    Sources embedded here:
    - [models/TileState.js], [models/Tile.js], [models/Row.js],
      [models/Column.js], [models/Board.js]: the class based model;
    - [services/HistoryManager.js] (the renderer carries a copy of it);
    - [renderer/renderer.js]: [BoardStateManager], the plain-object variant
      of the board.  Two copies of the renderer exist; the later one adds
      [year]/[weekNumber] to the state and the methods [moveRowUp],
      [moveRowDown], [_swapRows]; everything else is identical.  The later
      one is the one embedded.

    Conventions.  A JavaScript array is a [list] in array order (index 0 is
    the head).  Positions handed to the model are integers ([Z]): the source
    guards them with [>= 0] and [< length], so negative positions are inputs
    the code really sees.  [undefined] results of an array read are [None].
    The [year] and [weekNumber] of the state come from [parseInt] of an
    input field and may be [NaN]; they are [JS.number]s.
    Objects are mutated in place by the source; here every method returns the
    object after the call next to its JavaScript return value. *)

From Stdlib Require Import ZArith NArith List Lia DecimalString DecimalN.
From stdpp Require Import base option list strings.

Set Default Proof Using "Type".

(* ===================================================================== *)
(** ** JavaScript primitives used by the model                            *)
(* ===================================================================== *)

Module JS.

(** [arr[i]]: the element at an integer position, [undefined] ([None])
    when the position is negative or past the end. *)
Definition at_index {A : Type} (arr : list A) (i : Z) : option A :=
  if decide (0 <= i)%Z then arr !! Z.to_nat i else None.

(** [arr.length] as a JavaScript number. *)
Definition length {A : Type} (arr : list A) : Z := Z.of_nat (List.length arr).

(** A number as the clock and [parseInt] give it: an integer, or [NaN]
    when the text starts with no digit (an empty input field).  It is the
    type of the [year] and [weekNumber] of the state, which the input
    handlers fill with [parseInt(input.value)]. *)
Inductive number : Type :=
| Int (n : Z)
| NaN.

(** [Math.min(a, b)] and [Math.max(a, b)]: [NaN] as soon as an argument is
    [NaN]. *)
Definition Math_min (a b : number) : number :=
  match a, b with
  | Int x, Int y => Int (Z.min x y)
  | _, _ => NaN
  end.

Definition Math_max (a b : number) : number :=
  match a, b with
  | Int x, Int y => Int (Z.max x y)
  | _, _ => NaN
  end.

(** [arr.indexOf(x)]: first position holding a value strictly equal to
    [x], [-1] when there is none. *)
Fixpoint indexOf_from (arr : list string) (x : string) (k : Z) : Z :=
  match arr with
  | [] => (-1)%Z
  | y :: rest => if decide (y = x) then k else indexOf_from rest x (k + 1)%Z
  end.

Definition indexOf (arr : list string) (x : string) : Z := indexOf_from arr x 0%Z.

(** [arr.pop()]: the array without its last element, and that element
    ([undefined] on an empty array). *)
Definition pop {A : Type} (arr : list A) : list A * option A :=
  (removelast arr, last arr).

(** [arr.shift()] drops the first element; only the remaining array is
    used by the callers. *)
Definition shift {A : Type} (arr : list A) : list A := tail arr.

(** [arr.push(x)] appends at the end. *)
Definition push {A : Type} (arr : list A) (x : A) : list A := arr ++ [x].

(** [arr.splice(i, 1)] for an integer [i] with [0 <= i]: removes the
    element at [i] (nothing when [i] is past the end). *)
Definition splice1 {A : Type} (arr : list A) (i : Z) : list A :=
  delete (Z.to_nat i) arr.

(** The plain nested values a board serializes to. *)
#[local] Unset Elimination Schemes.
Inductive value : Type :=
| Undefined
| Null
| Bool (b : bool)
| Num (n : Z)
| Str (s : string)
| Arr (items : list value)
| Obj (props : list (string * value)).
#[local] Set Elimination Schemes.

Fixpoint assoc (k : string) (props : list (string * value)) : option value :=
  match props with
  | [] => None
  | (k', v) :: rest => if decide (k' = k) then Some v else assoc k rest
  end.

(** [data.k] on an object: the property, [undefined] when the object has
    no such key.  Reading a property of [undefined] or [null] throws; of
    the other values only objects are accepted by the readers below, so
    [None] stands for "throws, or is not data of the model". *)
Definition prop (data : value) (k : string) : option value :=
  match data with
  | Obj props => Some (default Undefined (assoc k props))
  | _ => None
  end.

(** Readers for the typed fields of the model.  A parameter with a default
    ([state = TileState.A]) takes the default exactly when the argument is
    [undefined]: the [_opt] readers return [Some None] for it. *)
Definition as_num (v : value) : option Z :=
  match v with Num n => Some n | _ => None end.

Definition as_num_opt (v : value) : option (option Z) :=
  match v with Undefined => Some None | Num n => Some (Some n) | _ => None end.

Definition as_str_opt (v : value) : option (option string) :=
  match v with Undefined => Some None | Str s => Some (Some s) | _ => None end.

Definition as_bool_opt (v : value) : option (option bool) :=
  match v with Undefined => Some None | Bool b => Some (Some b) | _ => None end.

(** [data.map(f)] where [f] may fail: defined on arrays only. *)
Definition map_arr {A : Type} (f : value -> option A) (v : value) : option (list A) :=
  match v with
  | Arr items => mapM f items
  | _ => None
  end.

End JS.

(** An integer literal stands for the number it denotes. *)
Coercion JS.Int : Z >-> JS.number.
Bind Scope Z_scope with JS.number.

(* ===================================================================== *)
(** ** models/TileState.js                                                *)
(* ===================================================================== *)

Module TileState.
Definition A : string := "A".
Definition PRACA : string := "Praca".
Definition U : string := "U".
End TileState.

(** Order of the states for switching. *)
Definition TILE_STATE_ORDER : list string :=
  [TileState.A; TileState.PRACA; TileState.U].

(** [(currentIndex + 1) % TILE_STATE_ORDER.length]; JavaScript's [%] takes
    the sign of the dividend, which is [Z.rem]. *)
Definition nextIndex (currentState : string) : Z :=
  let currentIndex := JS.indexOf TILE_STATE_ORDER currentState in
  Z.rem (currentIndex + 1) (JS.length TILE_STATE_ORDER).

(** [getNextTileState].  The array read [TILE_STATE_ORDER[nextIndex]] is
    never [undefined] (lemma [getNextTileState_in_order] below), so the
    fallback string is never produced. *)
Definition getNextTileState (currentState : string) : string :=
  default "undefined" (JS.at_index TILE_STATE_ORDER (nextIndex currentState)).

(* ===================================================================== *)
(** ** models/Tile.js                                                     *)
(* ===================================================================== *)

Module Tile.

Record t : Type := mk {
  rowIndex : Z;
  columnIndex : Z;
  state : string
}.

(** [constructor(rowIndex, columnIndex, state = TileState.A)]. *)
Definition new (rowIndex columnIndex : Z) (state : option string) : t :=
  mk rowIndex columnIndex (default TileState.A state).

(** [toggleState()]: stores the next state and returns it. *)
Definition toggleState (tile : t) : t * string :=
  let next := getNextTileState (state tile) in
  (mk (rowIndex tile) (columnIndex tile) next, next).

(** [setState(newState)]: writes only one of the three enumerated values. *)
Definition setState (tile : t) (newState : string) : t :=
  if decide (newState ∈ [TileState.A; TileState.PRACA; TileState.U])
  then mk (rowIndex tile) (columnIndex tile) newState
  else tile.

Definition isPraca (tile : t) : bool :=
  bool_decide (state tile = TileState.PRACA).

Definition toJSON (tile : t) : JS.value :=
  JS.Obj [("rowIndex", JS.Num (rowIndex tile));
          ("columnIndex", JS.Num (columnIndex tile));
          ("state", JS.Str (state tile))].

Definition fromJSON (data : JS.value) : option t :=
  r ← JS.prop data "rowIndex" ≫= JS.as_num;
  c ← JS.prop data "columnIndex" ≫= JS.as_num;
  s ← JS.prop data "state" ≫= JS.as_str_opt;
  Some (new r c s).

End Tile.

(* ===================================================================== *)
(** ** models/Row.js                                                      *)
(* ===================================================================== *)

Module Row.

Record t : Type := mk {
  index : Z;
  header : string;
  includedInCalculations : bool;
  tiles : list Tile.t
}.

(** [Array.from({ length: 7 }, (_, colIndex) => new Tile(index, colIndex,
    TileState.A))]. *)
Definition _createDefaultTiles (index : Z) : list Tile.t :=
  (fun colIndex : nat => Tile.new index (Z.of_nat colIndex) (Some TileState.A))
    <$> seq 0 7.

(** [constructor(index, header = '', includedInCalculations = true,
    tiles = null)] with [this.tiles = tiles || this._createDefaultTiles()];
    an array, even an empty one, is truthy. *)
Definition new (index : Z) (header : option string)
    (includedInCalculations : option bool) (tiles : option (list Tile.t)) : t :=
  mk index (default "" header) (default true includedInCalculations)
     (default (_createDefaultTiles index) tiles).

Definition getTile (row : t) (dayIndex : Z) : option Tile.t :=
  JS.at_index (tiles row) dayIndex.

Definition setHeader (row : t) (h : string) : t :=
  mk (index row) h (includedInCalculations row) (tiles row).

Definition setIncludedInCalculations (row : t) (included : bool) : t :=
  mk (index row) (header row) included (tiles row).

(** [updateIndex(newIndex)]: the row's index and the back-reference of
    every tile of the row. *)
Definition updateIndex (row : t) (newIndex : Z) : t :=
  mk newIndex (header row) (includedInCalculations row)
     ((fun tile => Tile.mk newIndex (Tile.columnIndex tile) (Tile.state tile))
        <$> tiles row).

Definition toJSON (row : t) : JS.value :=
  JS.Obj [("index", JS.Num (index row));
          ("header", JS.Str (header row));
          ("includedInCalculations", JS.Bool (includedInCalculations row));
          ("tiles", JS.Arr (Tile.toJSON <$> tiles row))].

Definition fromJSON (data : JS.value) : option t :=
  tiles ← JS.prop data "tiles" ≫= JS.map_arr Tile.fromJSON;
  i ← JS.prop data "index" ≫= JS.as_num;
  h ← JS.prop data "header" ≫= JS.as_str_opt;
  inc ← JS.prop data "includedInCalculations" ≫= JS.as_bool_opt;
  Some (new i h inc (Some tiles)).

End Row.

(* ===================================================================== *)
(** ** models/Column.js                                                   *)
(* ===================================================================== *)

Module Column.

Definition DAYS_OF_WEEK : list string :=
  ["Poniedziałek"; "Wtorek"; "Środa"; "Czwartek"; "Piątek"; "Sobota";
   "Niedziela"].

Record t : Type := mk {
  index : Z;
  name : option string;
  requiredWorkers : Z
}.

(** [constructor(index, requiredWorkers = 1)]; the name is read from
    [DAYS_OF_WEEK] and is [undefined] for an index outside [0..6]. *)
Definition new (index : Z) (requiredWorkers : option Z) : t :=
  mk index (JS.at_index DAYS_OF_WEEK index) (default 1%Z requiredWorkers).

Definition isSunday (column : t) : bool :=
  bool_decide (index column = 6%Z).

Definition setRequiredWorkers (column : t) (count : Z) : t :=
  if decide (count > 0)%Z
  then mk (index column) (name column) count
  else column.

Definition toJSON (column : t) : JS.value :=
  JS.Obj [("index", JS.Num (index column));
          ("requiredWorkers", JS.Num (requiredWorkers column))].

Definition fromJSON (data : JS.value) : option t :=
  i ← JS.prop data "index" ≫= JS.as_num;
  r ← JS.prop data "requiredWorkers" ≫= JS.as_num_opt;
  Some (new i r).

End Column.

(* ===================================================================== *)
(** ** models/Board.js                                                    *)
(* ===================================================================== *)

Module Board.

Record t : Type := mk {
  columns : list Column.t;
  rows : list Row.t
}.

(** [Array.from({ length: 7 }, (_, index) => new Column(index, 1))]. *)
Definition _createDefaultColumns : list Column.t :=
  (fun index : nat => Column.new (Z.of_nat index) (Some 1%Z)) <$> seq 0 7.

(** [constructor(columns = null, rows = null)]. *)
Definition new (columns : option (list Column.t)) (rows : option (list Row.t)) : t :=
  mk (default _createDefaultColumns columns) (default [] rows).

(** [addRow(header = '')]: the board after the push, and the new row. *)
Definition addRow (board : t) (header : option string) : t * Row.t :=
  let header := default "" header in
  let newRow := Row.new (JS.length (rows board)) (Some header) (Some true) None in
  (mk (columns board) (JS.push (rows board) newRow), newRow).

(** [this.rows.forEach((row, index) => row.updateIndex(index))]. *)
Definition reindex (rows : list Row.t) : list Row.t :=
  imap (fun (index : nat) row => Row.updateIndex row (Z.of_nat index)) rows.

Definition removeRow (board : t) (rowIndex : Z) : t * bool :=
  if decide (rowIndex >= 0 /\ rowIndex < JS.length (rows board))%Z
  then (mk (columns board) (reindex (JS.splice1 (rows board) rowIndex)), true)
  else (board, false).

(** [this.rows[rowIndex] || null]: a row object is truthy, so [null] is
    returned exactly when the read is [undefined]. *)
Definition getRow (board : t) (rowIndex : Z) : option Row.t :=
  JS.at_index (rows board) rowIndex.

Definition getColumn (board : t) (columnIndex : Z) : option Column.t :=
  JS.at_index (columns board) columnIndex.

Definition getTile (board : t) (rowIndex columnIndex : Z) : option Tile.t :=
  row ← getRow board rowIndex; Row.getTile row columnIndex.

(** The callback of [reduce]: [count + (tile && tile.isPraca() ? 1 : 0)]. *)
Definition countStep (columnIndex : Z) (count : Z) (row : Row.t) : Z :=
  (count + match Row.getTile row columnIndex with
           | Some tile => if Tile.isPraca tile then 1 else 0
           | None => 0
           end)%Z.

Definition countPracaInColumn (board : t) (columnIndex : Z) : Z :=
  foldl (countStep columnIndex) 0%Z
        (List.filter Row.includedInCalculations (rows board)).

Definition isColumnValid (board : t) (columnIndex : Z) : bool :=
  match getColumn board columnIndex with
  | None => false
  | Some column =>
      let pracaCount := countPracaInColumn board columnIndex in
      let required := Column.requiredWorkers column in
      if Column.isSunday column
      then bool_decide (pracaCount = required)
      else bool_decide (pracaCount = required) || bool_decide (pracaCount = required + 1)%Z
  end.

Definition toJSON (board : t) : JS.value :=
  JS.Obj [("columns", JS.Arr (Column.toJSON <$> columns board));
          ("rows", JS.Arr (Row.toJSON <$> rows board))].

Definition fromJSON (data : JS.value) : option t :=
  columns ← JS.prop data "columns" ≫= JS.map_arr Column.fromJSON;
  rows ← JS.prop data "rows" ≫= JS.map_arr Row.fromJSON;
  Some (new (Some columns) (Some rows)).

(** One entry of [getColumnsStatus()] of the class model. *)
Record columnStatus : Type := mkStatus {
  statusIndex : Z;
  statusName : option string;
  statusRequiredWorkers : Z;
  pracaCount : Z;
  isValid : bool;
  isSunday : bool
}.

Definition getColumnsStatus (board : t) : list columnStatus :=
  imap (fun (index : nat) (column : Column.t) =>
          mkStatus (Z.of_nat index) (Column.name column)
                   (Column.requiredWorkers column)
                   (countPracaInColumn board (Z.of_nat index))
                   (isColumnValid board (Z.of_nat index))
                   (Column.isSunday column))
       (columns board).

End Board.

(* ===================================================================== *)
(** ** renderer/renderer.js: BoardStateManager                            *)
(* ===================================================================== *)

Module BoardStateManager.

(** The state is a plain object:
    [{ year, weekNumber, columns: [{index, requiredWorkers}],
       rows: [{index, header, includedInCalculations,
               tiles: [{rowIndex, columnIndex, state}]}] }].
    Every row object is created by [addRow] or by the JSON copy of
    [setState], so no row or tile object occurs twice in the state and the
    in-place writes of the source are updates of one position of a list. *)
Record tile : Type := mkTile {
  rowIndex : Z;
  columnIndex : Z;
  state : string
}.

Record row : Type := mkRow {
  index : Z;
  header : string;
  includedInCalculations : bool;
  tiles : list tile
}.

Record column : Type := mkColumn {
  colIndex : Z;
  requiredWorkers : Z
}.

Record t : Type := mk {
  year : JS.number;
  weekNumber : JS.number;
  columns : list column;
  rows : list row
}.

(** The renderer's [DAYS_OF_WEEK]; only its length and positions are used
    by the state manager. *)
Definition DAYS_OF_WEEK : list string :=
  ["Montag"; "Dienstag"; "Mittwoch"; "Donnerstag"; "Freitag"; "Samstag";
   "Sonntag"].

(** [createEmptyState()]; the current year and ISO week come from the
    clock and are taken as arguments. *)
Definition createEmptyState (currentYear currentWeek : Z) : t :=
  mk (JS.Int currentYear) (JS.Int currentWeek)
     (imap (fun (index : nat) (_ : string) => mkColumn (Z.of_nat index) 1%Z) DAYS_OF_WEEK)
     [].

Definition addRow (st : t) (header : option string) : t * row :=
  let header := default "" header in
  let newRow :=
    mkRow (JS.length (rows st)) header true
          (imap (fun (colIndex : nat) (_ : string) =>
                   mkTile (JS.length (rows st)) (Z.of_nat colIndex) TileState.A)
                DAYS_OF_WEEK) in
  (mk (year st) (weekNumber st) (columns st) (JS.push (rows st) newRow), newRow).

(** [_reindexRows()] on the rows array. *)
Definition reindex (rows : list row) : list row :=
  imap (fun (index : nat) r =>
          mkRow (Z.of_nat index) (header r) (includedInCalculations r)
                ((fun tl => mkTile (Z.of_nat index) (columnIndex tl) (state tl))
                   <$> tiles r))
       rows.

Definition _reindexRows (st : t) : t :=
  mk (year st) (weekNumber st) (columns st) (reindex (rows st)).

Definition removeRow (st : t) (rowIndex : Z) : t * bool :=
  if decide (rowIndex >= 0 /\ rowIndex < JS.length (rows st))%Z
  then (_reindexRows (mk (year st) (weekNumber st) (columns st)
                         (JS.splice1 (rows st) rowIndex)), true)
  else (st, false).

Definition setRowHeader (st : t) (rowIndex : Z) (h : string) : t :=
  match JS.at_index (rows st) rowIndex with
  | Some r =>
      mk (year st) (weekNumber st) (columns st)
         (<[Z.to_nat rowIndex := mkRow (index r) h (includedInCalculations r) (tiles r)]>
            (rows st))
  | None => st
  end.

Definition setRowIncluded (st : t) (rowIndex : Z) (included : bool) : t :=
  match JS.at_index (rows st) rowIndex with
  | Some r =>
      mk (year st) (weekNumber st) (columns st)
         (<[Z.to_nat rowIndex := mkRow (index r) (header r) included (tiles r)]>
            (rows st))
  | None => st
  end.

(** [_swapRows(indexA, indexB)].  Both reads are defined whenever it is
    called ([moveRowUp], [moveRowDown] check the positions first); with a
    position off the array the source would store [undefined] in [rows],
    which is no row: [None]. *)
Definition _swapRows (st : t) (indexA indexB : Z) : option t :=
  temp ← JS.at_index (rows st) indexA;
  other ← JS.at_index (rows st) indexB;
  Some (_reindexRows
          (mk (year st) (weekNumber st) (columns st)
              (<[Z.to_nat indexB := temp]> (<[Z.to_nat indexA := other]> (rows st))))).

(** [moveRowUp] and [moveRowDown] call [_swapRows] inside their guard,
    where it is defined (lemma [_swapRows_defined] below). *)
Definition moveRowUp (st : t) (rowIndex : Z) : t * bool :=
  if decide (rowIndex > 0 /\ rowIndex < JS.length (rows st))%Z
  then (default st (_swapRows st rowIndex (rowIndex - 1)), true)
  else (st, false).

Definition moveRowDown (st : t) (rowIndex : Z) : t * bool :=
  if decide (rowIndex >= 0 /\ rowIndex < JS.length (rows st) - 1)%Z
  then (default st (_swapRows st rowIndex (rowIndex + 1)), true)
  else (st, false).

(** The next state computed inline, as [getNextTileState] does. *)
Definition nextState (currentState : string) : string :=
  let currentIdx := JS.indexOf TILE_STATE_ORDER currentState in
  let nextIdx := Z.rem (currentIdx + 1) (JS.length TILE_STATE_ORDER) in
  default "undefined" (JS.at_index TILE_STATE_ORDER nextIdx).

(** [toggleTileState(rowIndex, columnIndex)]: the new state of the tile, or
    [null] ([None]) when there is no such row or tile. *)
Definition toggleTileState (st : t) (rowIndex columnIndex : Z) : t * option string :=
  match JS.at_index (rows st) rowIndex with
  | Some r =>
      match JS.at_index (tiles r) columnIndex with
      | Some tl =>
          let next := nextState (state tl) in
          let r' := mkRow (index r) (header r) (includedInCalculations r)
                          (<[Z.to_nat columnIndex :=
                               mkTile (BoardStateManager.rowIndex tl)
                                      (BoardStateManager.columnIndex tl) next]>
                             (tiles r)) in
          (mk (year st) (weekNumber st) (columns st)
              (<[Z.to_nat rowIndex := r']> (rows st)), Some next)
      | None => (st, None)
      end
  | None => (st, None)
  end.

Definition setColumnRequiredWorkers (st : t) (columnIndex count : Z) : t :=
  match JS.at_index (columns st) columnIndex with
  | Some col =>
      if decide (count > 0)%Z
      then mk (year st) (weekNumber st)
              (<[Z.to_nat columnIndex := mkColumn (colIndex col) count]> (columns st))
              (rows st)
      else st
  | None => st
  end.

Definition countStep (columnIndex : Z) (count : Z) (r : row) : Z :=
  (count + match JS.at_index (tiles r) columnIndex with
           | Some tl => if bool_decide (state tl = TileState.PRACA) then 1 else 0
           | None => 0
           end)%Z.

Definition countPracaInColumn (st : t) (columnIndex : Z) : Z :=
  foldl (countStep columnIndex) 0%Z (List.filter includedInCalculations (rows st)).

Definition isColumnValid (st : t) (columnIndex : Z) : bool :=
  match JS.at_index (columns st) columnIndex with
  | None => false
  | Some col =>
      let pracaCount := countPracaInColumn st columnIndex in
      let required := requiredWorkers col in
      let isSunday := bool_decide (columnIndex = 6%Z) in
      if isSunday
      then bool_decide (pracaCount = required)
      else bool_decide (pracaCount = required) || bool_decide (pracaCount = required + 1)%Z
  end.

(** [setYearAndWeek(year, weekNumber)]:
    [weekNumber = Math.max(1, Math.min(53, weekNumber))]. *)
Definition setYearAndWeek (st : t) (year weekNumber : JS.number) : t :=
  mk year (JS.Math_max (JS.Int 1) (JS.Math_min (JS.Int 53) weekNumber))
     (columns st) (rows st).

(** One entry of [getColumnsStatus()]. *)
Record columnStatus : Type := mkStatus {
  statusIndex : Z;
  statusName : option string;
  statusRequiredWorkers : Z;
  pracaCount : Z;
  isValid : bool;
  isSunday : bool;
  hasExtraOne : bool
}.

Definition getColumnsStatus (st : t) : list columnStatus :=
  imap (fun (index : nat) (col : column) =>
          let pracaCount := countPracaInColumn st (Z.of_nat index) in
          let required := requiredWorkers col in
          let isSunday := bool_decide (Z.of_nat index = 6%Z) in
          let isValid := isColumnValid st (Z.of_nat index) in
          let hasExtraOne :=
            negb isSunday && bool_decide (pracaCount = required + 1)%Z in
          mkStatus (Z.of_nat index) (JS.at_index DAYS_OF_WEEK (Z.of_nat index))
                   required pracaCount isValid isSunday hasExtraOne)
       (columns st).

End BoardStateManager.

(* ===================================================================== *)
(** ** services/HistoryManager.js                                         *)
(* ===================================================================== *)

Module HistoryManager.

(** What a call does: it returns a value or it throws. *)
Inductive outcome (A : Type) : Type :=
| Return (a : A)
| Throw.
Arguments Return {A} a.
Arguments Throw {A}.

(** The two stacks hold JSON texts, oldest entry first (array order).
    [maxHistorySize] is the maximal number of actions kept, a count; the
    application constructs the manager with the default. *)
Record t (JsonText : Type) : Type := mk {
  undoStack : list JsonText;
  redoStack : list JsonText;
  maxHistorySize : nat
}.
Arguments mk {JsonText} _ _ _.
Arguments undoStack {JsonText} _.
Arguments redoStack {JsonText} _.
Arguments maxHistorySize {JsonText} _.

Section Methods.

Context {Snapshot JsonText : Type}.

(** [JSON.stringify] on a snapshot, and [JSON.parse] on a text: [None] when
    the text denotes no snapshot ([JSON.parse] throws a [SyntaxError]). *)
Variable stringify : Snapshot -> JsonText.
Variable parse : JsonText -> option Snapshot.

(** [JSON.parse(x)] where [x] is the result of [pop()]: [undefined] is not
    JSON, the call throws. *)
Definition JSON_parse (x : option JsonText) : outcome (option Snapshot) :=
  match x ≫= parse with
  | Some snapshot => Return (Some snapshot)
  | None => Throw
  end.

(** [constructor(maxHistorySize = 100)]. *)
Definition new (maxHistorySize : option nat) : t JsonText :=
  mk [] [] (default 100 maxHistorySize).

Definition pushState (h : t JsonText) (stateSnapshot : Snapshot) : t JsonText :=
  let undoStack' := JS.push (undoStack h) (stringify stateSnapshot) in
  if decide (maxHistorySize h < length undoStack')
  then mk (JS.shift undoStack') [] (maxHistorySize h)
  else mk undoStack' [] (maxHistorySize h).

(** [undo(currentState)]: [Return None] is the JavaScript [null]. *)
Definition undo (h : t JsonText) (currentState : Snapshot)
    : t JsonText * outcome (option Snapshot) :=
  if decide (length (undoStack h) = 0)
  then (h, Return None)
  else
    let redoStack' := JS.push (redoStack h) (stringify currentState) in
    let '(undoStack', previousStateJson) := JS.pop (undoStack h) in
    (mk undoStack' redoStack' (maxHistorySize h), JSON_parse previousStateJson).

Definition redo (h : t JsonText) (currentState : Snapshot)
    : t JsonText * outcome (option Snapshot) :=
  if decide (length (redoStack h) = 0)
  then (h, Return None)
  else
    let undoStack' := JS.push (undoStack h) (stringify currentState) in
    let '(redoStack', nextStateJson) := JS.pop (redoStack h) in
    (mk undoStack' redoStack' (maxHistorySize h), JSON_parse nextStateJson).

Definition canUndo (h : t JsonText) : bool := bool_decide (0 < length (undoStack h)).
Definition canRedo (h : t JsonText) : bool := bool_decide (0 < length (redoStack h)).

Definition clear (h : t JsonText) : t JsonText := mk [] [] (maxHistorySize h).

(** [getStatus()] of services/HistoryManager.js:
    [{ canUndo, canRedo, undoCount, redoCount }]. *)
Definition getStatus (h : t JsonText) : bool * bool * nat * nat :=
  (canUndo h, canRedo h, length (undoStack h), length (redoStack h)).

(** A call of one of the methods that change the stacks. *)
Inductive call : Type :=
| PushState (stateSnapshot : Snapshot)
| Undo (currentState : Snapshot)
| Redo (currentState : Snapshot)
| Clear.

Definition perform (h : t JsonText) (c : call) : t JsonText :=
  match c with
  | PushState s => pushState h s
  | Undo cur => fst (undo h cur)
  | Redo cur => fst (redo h cur)
  | Clear => clear h
  end.

(** The manager after a sequence of calls. *)
Definition performAll (h : t JsonText) (calls : list call) : t JsonText :=
  foldl perform h calls.

(** [undo] called once per element of [currentStates], in order: the
    manager afterwards and the results of the calls. *)
Fixpoint undoEach (h : t JsonText) (currentStates : list Snapshot)
    : t JsonText * list (outcome (option Snapshot)) :=
  match currentStates with
  | [] => (h, [])
  | cur :: rest =>
      let '(h1, r) := undo h cur in
      let '(h2, rs) := undoEach h1 rest in
      (h2, r :: rs)
  end.

End Methods.

End HistoryManager.

(* ===================================================================== *)
(** ** renderer/renderer.js: AppController                                *)
(* ===================================================================== *)

Module AppController.

(** The controller owns the state manager and the history manager.  The
    renderer, the undo/redo buttons and the debounced save are calls into
    the DOM and timers that read the state and never write it; they are
    left out. *)
Record t (JsonText : Type) : Type := mk {
  boardManager : BoardStateManager.t;
  historyManager : HistoryManager.t JsonText;
  isLoading : bool
}.
Arguments mk {JsonText} _ _ _.
Arguments boardManager {JsonText} _.
Arguments historyManager {JsonText} _.
Arguments isLoading {JsonText} _.

(** The intents of [handleStateChange(action, data)] with the fields of
    [data] each case reads; [Unknown] is any other action name. *)
Inductive action : Type :=
| AddRow (header : option string)
| RemoveRow (rowIndex : Z)
| SetRowHeader (rowIndex : Z) (value : string)
| SetRowIncluded (rowIndex : Z) (value : bool)
| ToggleTile (rowIndex columnIndex : Z)
| SetColumnRequired (columnIndex value : Z)
| MoveRowUp (rowIndex : Z)
| MoveRowDown (rowIndex : Z)
| SetYearAndWeek (year weekNumber : JS.number)
| Unknown (name : string).

Section Methods.

Context {JsonText : Type}.
Variable stringify : BoardStateManager.t -> JsonText.
Variable parse : JsonText -> option BoardStateManager.t.

(** [JSON.parse(JSON.stringify(x))], the copy made by [getState()] and by
    [setState(newState)] of the state manager. *)
Definition copy (st : BoardStateManager.t) : HistoryManager.outcome BoardStateManager.t :=
  match parse (stringify st) with
  | Some st' => HistoryManager.Return st'
  | None => HistoryManager.Throw
  end.

Definition getState (st : BoardStateManager.t) := copy st.
Definition setState (newState : BoardStateManager.t) := copy newState.

(** [constructor()]: an empty state (year and week from the clock), a
    history manager of the default size, [isLoading = true]. *)
Definition new (currentYear currentWeek : Z) : t JsonText :=
  mk (BoardStateManager.createEmptyState currentYear currentWeek)
     (HistoryManager.new None) true.

(** [initialize()]: [loadState()] replaces the state by a copy of the saved
    one when there is one (an exception of [setState] is caught and
    logged), then [isLoading = false]. *)
Definition initialize (c : t JsonText) (savedState : option BoardStateManager.t)
    : t JsonText :=
  let loaded :=
    match savedState with
    | Some saved =>
        match setState saved with
        | HistoryManager.Return st => st
        | HistoryManager.Throw => boardManager c
        end
    | None => boardManager c
    end in
  mk loaded (historyManager c) false.

(** The [switch] of [handleStateChange]: the state after the mutation,
    [None] for the [default] case. *)
Definition applyAction (st : BoardStateManager.t) (a : action)
    : option BoardStateManager.t :=
  match a with
  | AddRow header =>
      Some (fst (BoardStateManager.addRow st (Some (default "" header))))
  | RemoveRow rowIndex => Some (fst (BoardStateManager.removeRow st rowIndex))
  | SetRowHeader rowIndex value => Some (BoardStateManager.setRowHeader st rowIndex value)
  | SetRowIncluded rowIndex value =>
      Some (BoardStateManager.setRowIncluded st rowIndex value)
  | ToggleTile rowIndex columnIndex =>
      Some (fst (BoardStateManager.toggleTileState st rowIndex columnIndex))
  | SetColumnRequired columnIndex value =>
      Some (BoardStateManager.setColumnRequiredWorkers st columnIndex value)
  | MoveRowUp rowIndex => Some (fst (BoardStateManager.moveRowUp st rowIndex))
  | MoveRowDown rowIndex => Some (fst (BoardStateManager.moveRowDown st rowIndex))
  | SetYearAndWeek year weekNumber =>
      Some (BoardStateManager.setYearAndWeek st year weekNumber)
  | Unknown _ => None
  end.

(** [handleStateChange(action, data)]: the controller afterwards, and
    whether the call returned or threw. *)
Definition handleStateChange (c : t JsonText) (a : action)
    : t JsonText * HistoryManager.outcome unit :=
  if isLoading c then (c, HistoryManager.Return tt)
  else
    match getState (boardManager c) with
    | HistoryManager.Throw => (c, HistoryManager.Throw)
    | HistoryManager.Return previousState =>
        match applyAction (boardManager c) a with
        | None => (c, HistoryManager.Return tt)
        | Some st' =>
            (mk st' (HistoryManager.pushState stringify (historyManager c) previousState)
                (isLoading c),
             HistoryManager.Return tt)
        end
    end.

(** The tail shared by [undo()] and [redo()]: [if (state)
    this.boardManager.setState(state)]. *)
Definition restore (c : t JsonText)
    (r : HistoryManager.t JsonText * HistoryManager.outcome (option BoardStateManager.t))
    : t JsonText * HistoryManager.outcome unit :=
  let '(h, result) := r in
  match result with
  | HistoryManager.Throw => (mk (boardManager c) h (isLoading c), HistoryManager.Throw)
  | HistoryManager.Return None =>
      (mk (boardManager c) h (isLoading c), HistoryManager.Return tt)
  | HistoryManager.Return (Some st) =>
      match setState st with
      | HistoryManager.Throw => (mk (boardManager c) h (isLoading c), HistoryManager.Throw)
      | HistoryManager.Return st' => (mk st' h (isLoading c), HistoryManager.Return tt)
      end
  end.

Definition undo (c : t JsonText) : t JsonText * HistoryManager.outcome unit :=
  match getState (boardManager c) with
  | HistoryManager.Throw => (c, HistoryManager.Throw)
  | HistoryManager.Return current =>
      restore c (HistoryManager.undo stringify parse (historyManager c) current)
  end.

Definition redo (c : t JsonText) : t JsonText * HistoryManager.outcome unit :=
  match getState (boardManager c) with
  | HistoryManager.Throw => (c, HistoryManager.Throw)
  | HistoryManager.Return current =>
      restore c (HistoryManager.redo stringify parse (historyManager c) current)
  end.

(** One user event. *)
Inductive event : Type :=
| Change (a : action)
| UndoEvent
| RedoEvent.

Definition handle (c : t JsonText) (e : event) : t JsonText :=
  match e with
  | Change a => fst (handleStateChange c a)
  | UndoEvent => fst (undo c)
  | RedoEvent => fst (redo c)
  end.

End Methods.

End AppController.

(* ===================================================================== *)
(** ** services/ExcelGenerator.js                                         *)
(* ===================================================================== *)

Module ExcelGenerator.

(** [getTileValue(tileState)]. *)
Definition getTileValue (tileState : string) : string :=
  if decide (tileState = "A") then "A"
  else if decide (tileState = "Praca") then "9.00-17.30"
  else if decide (tileState = "U") then "U"
  else "".

(** An assignment [worksheet.getCell(row, column).value = value]. *)
Record write : Type := mkWrite {
  cellRow : Z;
  cellColumn : Z;
  cellValue : string
}.

Definition FIRST_SECTION_START_ROW : Z := 4.
Definition SECTION_HEIGHT : Z := 3.
Definition NAME_COLUMN : Z := 1.
Definition DAYS_START_COLUMN : Z := 3.

(** The assignments of one iteration of [rows.forEach((employee,
    employeeIndex) => ...)], in the order they are made; [employee.header
    || ''] is the header itself for a string. *)
Definition employeeWrites (employeeIndex : nat) (employee : BoardStateManager.row)
    : list write :=
  let sectionStartRow :=
    (FIRST_SECTION_START_ROW + Z.of_nat employeeIndex * SECTION_HEIGHT)%Z in
  mkWrite sectionStartRow NAME_COLUMN (BoardStateManager.header employee)
  :: imap (fun (dayIndex : nat) (tl : BoardStateManager.tile) =>
             mkWrite sectionStartRow (DAYS_START_COLUMN + Z.of_nat dayIndex)%Z
                     (getTileValue (BoardStateManager.state tl)))
          (BoardStateManager.tiles employee).

(** All assignments of [fillEmployeeSections(worksheet, rows)], in order. *)
Definition fillEmployeeSections (rows : list BoardStateManager.row) : list write :=
  concat (imap employeeWrites rows).

End ExcelGenerator.

(* ===================================================================== *)
(** ** Observations used in the statements                                *)
(* ===================================================================== *)

Module Observe.

(** [state.rows[ri].tiles[ci]] of the state manager, when both reads are
    defined. *)
Definition tileAt (st : BoardStateManager.t) (ri ci : Z) : option BoardStateManager.tile :=
  r ← JS.at_index (BoardStateManager.rows st) ri;
  JS.at_index (BoardStateManager.tiles r) ci.

(** A plain row counts for column [c]: it is included in the calculations
    and its tile at [c] exists and is in state 'Praca'. *)
Definition countsFor (c : Z) (r : BoardStateManager.row) : bool :=
  BoardStateManager.includedInCalculations r &&
  match JS.at_index (BoardStateManager.tiles r) c with
  | Some tl => bool_decide (BoardStateManager.state tl = TileState.PRACA)
  | None => false
  end.

(** The same for a [Row] of the class model. *)
Definition rowCountsFor (c : Z) (r : Row.t) : bool :=
  Row.includedInCalculations r &&
  match Row.getTile r c with
  | Some tile => Tile.isPraca tile
  | None => false
  end.

(** A week of tiles of one row, all in the same state. *)
Definition weekOf (rowIndex : Z) (s : string) : list BoardStateManager.tile :=
  (fun c : nat => BoardStateManager.mkTile rowIndex (Z.of_nat c) s) <$> seq 0 7.

(** A state with [n] included rows working every day and the same
    required count on every day. *)
Definition staffed (n : nat) (required : Z) : BoardStateManager.t :=
  BoardStateManager.mk 2026 45
    ((fun c : nat => BoardStateManager.mkColumn (Z.of_nat c) required) <$> seq 0 7)
    ((fun i : nat => BoardStateManager.mkRow (Z.of_nat i) "" true
                       (weekOf (Z.of_nat i) TileState.PRACA)) <$> seq 0 n).

(** The same board in the class model. *)
Definition staffedBoard (n : nat) (required : Z) : Board.t :=
  Board.mk
    ((fun c : nat => Column.new (Z.of_nat c) (Some required)) <$> seq 0 7)
    ((fun i : nat => Row.mk (Z.of_nat i) "" true
                       ((fun c : nat => Tile.mk (Z.of_nat i) (Z.of_nat c) TileState.PRACA)
                          <$> seq 0 7)) <$> seq 0 n).

(** An [undo]/[redo] call succeeded when it returned a snapshot (neither
    [null] nor an exception). *)
Definition succeeded {Snapshot : Type}
    (r : HistoryManager.outcome (option Snapshot)) : bool :=
  match r with
  | HistoryManager.Return (Some _) => true
  | _ => false
  end.

(** The last [n] elements of an array. *)
Definition lastN {A : Type} (n : nat) (l : list A) : list A :=
  drop (length l - n) l.

(** The columns of the class model are positional when the column at
    position [c] carries index [c]; the default columns are, and no method
    of [Board] replaces or re-indexes a column. *)
Definition columnsPositional (b : Board.t) : Prop :=
  forall (c : Z) (col : Column.t), Board.getColumn b c = Some col -> Column.index col = c.

(** The two stacks of a history manager together hold at most
    [maxHistorySize] entries. *)
Definition bounded {JsonText : Type} (h : HistoryManager.t JsonText) : Prop :=
  length (HistoryManager.undoStack h) + length (HistoryManager.redoStack h)
  <= HistoryManager.maxHistorySize h.

(** Every stored entry is a text that [JSON.parse] accepts. *)
Definition parseable {Snapshot JsonText : Type} (parse : JsonText -> option Snapshot)
    (h : HistoryManager.t JsonText) : Prop :=
  Forall (fun j => is_Some (parse j)) (HistoryManager.undoStack h) /\
  Forall (fun j => is_Some (parse j)) (HistoryManager.redoStack h).

(** Dense indexing of the rows of the state manager: the row at position
    [i] has index [i], every tile of it refers back to [i], and its tiles
    are seven with column positions [0..6] in order. *)
Definition wellIndexed (rows : list BoardStateManager.row) : Prop :=
  forall (i : nat) (r : BoardStateManager.row),
    rows !! i = Some r ->
    BoardStateManager.index r = Z.of_nat i /\
    (forall tl, tl ∈ BoardStateManager.tiles r ->
                BoardStateManager.rowIndex tl = Z.of_nat i) /\
    BoardStateManager.columnIndex <$> BoardStateManager.tiles r = Z.of_nat <$> seq 0 7.

(** The same for the rows of the class model. *)
Definition rowsWellIndexed (rows : list Row.t) : Prop :=
  forall (i : nat) (r : Row.t),
    rows !! i = Some r ->
    Row.index r = Z.of_nat i /\
    (forall tile, tile ∈ Row.tiles r -> Tile.rowIndex tile = Z.of_nat i) /\
    Tile.columnIndex <$> Row.tiles r = Z.of_nat <$> seq 0 7.

(** What a renumbering keeps of a row: label, inclusion flag, and the
    column position and state of every tile. *)
Definition content (r : BoardStateManager.row)
    : string * bool * list (Z * string) :=
  (BoardStateManager.header r, BoardStateManager.includedInCalculations r,
   (fun tl => (BoardStateManager.columnIndex tl, BoardStateManager.state tl))
     <$> BoardStateManager.tiles r).

Definition rowContent (r : Row.t) : string * bool * list (Z * string) :=
  (Row.header r, Row.includedInCalculations r,
   (fun tile => (Tile.columnIndex tile, Tile.state tile)) <$> Row.tiles r).

(** The columns of a board carry the name their index derives, as every
    column built by the [Column] constructor does. *)
Definition namesDerived (b : Board.t) : Prop :=
  Forall (fun col => Column.name col
                     = JS.at_index Column.DAYS_OF_WEEK (Column.index col))
         (Board.columns b).

(** A concrete serialization for examples: snapshots are numbered, the
    JSON text of a number is its decimal numeral. *)
Definition numeral (n : N) : string :=
  NilEmpty.string_of_uint (N.to_uint n).

Definition readNumeral (text : string) : option N :=
  N.of_uint <$> NilEmpty.uint_of_string text.

(** Whether a row content counts for column [c]: what [countsFor] reads of
    a row. *)
Definition contentCounts (c : Z) (x : string * bool * list (Z * string)) : bool :=
  snd (fst x) &&
  match JS.at_index (snd x) c with
  | Some cell => bool_decide (snd cell = TileState.PRACA)
  | None => false
  end.

(** One for a row that counts for column [c], zero otherwise. *)
Definition contribution (c : Z) (r : BoardStateManager.row) : Z :=
  if countsFor c r then 1%Z else 0%Z.

Definition rowContribution (c : Z) (r : Row.t) : Z :=
  if rowCountsFor c r then 1%Z else 0%Z.

(** The week of a state is an integer of 1..53. *)
Definition weekInRange (st : BoardStateManager.t) : Prop :=
  exists k : Z, BoardStateManager.weekNumber st = JS.Int k /\ (1 <= k <= 53)%Z.

(** A state of the state manager as the application builds it: rows
    densely indexed, seven columns whose index is their position, every
    required count positive. *)
Definition healthy (st : BoardStateManager.t) : Prop :=
  wellIndexed (BoardStateManager.rows st) /\
  BoardStateManager.colIndex <$> BoardStateManager.columns st = Z.of_nat <$> seq 0 7 /\
  Forall (fun col => (0 < BoardStateManager.requiredWorkers col)%Z)
         (BoardStateManager.columns st).

(** A call of one of the two methods of [Tile] that write the state. *)
Inductive tileCall : Type :=
| ToggleState
| SetState (newState : string).

Definition tilePerform (tile : Tile.t) (c : tileCall) : Tile.t :=
  match c with
  | ToggleState => fst (Tile.toggleState tile)
  | SetState s => Tile.setState tile s
  end.

(** The tile of a plain row at a column is in state 'Praca'. *)
Definition worksAt (c : Z) (r : BoardStateManager.row) : bool :=
  match JS.at_index (BoardStateManager.tiles r) c with
  | Some tl => bool_decide (BoardStateManager.state tl = TileState.PRACA)
  | None => false
  end.

(** Every snapshot stored in a history manager parses to a state of the
    application's shape. *)
Definition snapshotsHealthy {JsonText : Type}
    (parse : JsonText -> option BoardStateManager.t)
    (h : HistoryManager.t JsonText) : Prop :=
  Forall (fun j => exists st, parse j = Some st /\ healthy st) (HistoryManager.undoStack h) /\
  Forall (fun j => exists st, parse j = Some st /\ healthy st) (HistoryManager.redoStack h).

(** The controller's board and all its checkpoints have that shape. *)
Definition controllerHealthy {JsonText : Type}
    (parse : JsonText -> option BoardStateManager.t)
    (c : AppController.t JsonText) : Prop :=
  healthy (AppController.boardManager c) /\
  snapshotsHealthy parse (AppController.historyManager c).

(** The cell an assignment of the export targets. *)
Definition cell (w : ExcelGenerator.write) : Z * Z :=
  (ExcelGenerator.cellRow w, ExcelGenerator.cellColumn w).

(** The first line of the section of employee [i]. *)
Definition sectionRow (i : nat) : Z := (4 + 3 * Z.of_nat i)%Z.

End Observe.

(* ===================================================================== *)
(** * Properties                                                          *)
(* ===================================================================== *)

(** ** Array reads *)

Lemma at_index_Some {A : Type} (arr : list A) (i : Z) (x : A) :
  JS.at_index arr i = Some x <-> (0 <= i)%Z /\ arr !! Z.to_nat i = Some x.
Proof.
  unfold JS.at_index. case_decide; [tauto|].
  split; [done|]. intros [? _]. lia.
Qed.

Lemma at_index_None {A : Type} (arr : list A) (i : Z) :
  JS.at_index arr i = None <-> (i < 0 \/ JS.length arr <= i)%Z.
Proof.
  unfold JS.at_index, JS.length. case_decide.
  - rewrite lookup_ge_None. lia.
  - split; [lia | done].
Qed.

Lemma at_index_is_Some {A : Type} (arr : list A) (i : Z) :
  is_Some (JS.at_index arr i) <-> (0 <= i < JS.length arr)%Z.
Proof.
  rewrite <- not_eq_None_Some, at_index_None. lia.
Qed.

Lemma at_index_of_nat {A : Type} (arr : list A) (n : nat) :
  JS.at_index arr (Z.of_nat n) = arr !! n.
Proof.
  unfold JS.at_index. case_decide; [|lia]. by rewrite Nat2Z.id.
Qed.

(** ** TileState cycling *)

Section TileStateCycle.

Lemma nextIndex_A : nextIndex TileState.A = 1%Z.
Proof. reflexivity. Qed.

Lemma nextIndex_PRACA : nextIndex TileState.PRACA = 2%Z.
Proof. reflexivity. Qed.

Lemma nextIndex_U : nextIndex TileState.U = 0%Z.
Proof. reflexivity. Qed.

(** A state that is none of the three is at no position of the order. *)
Lemma indexOf_unknown (s : string) :
  s ∉ TILE_STATE_ORDER -> JS.indexOf TILE_STATE_ORDER s = (-1)%Z.
Proof.
  intros Hs. unfold JS.indexOf, TILE_STATE_ORDER. simpl.
  repeat case_decide; try reflexivity; exfalso; apply Hs; subst s;
    unfold TILE_STATE_ORDER; rewrite !elem_of_cons; tauto.
Qed.

Lemma known_state_cases (s : string) :
  s ∈ TILE_STATE_ORDER -> s = TileState.A \/ s = TileState.PRACA \/ s = TileState.U.
Proof.
  unfold TILE_STATE_ORDER. rewrite !elem_of_cons, elem_of_nil. tauto.
Qed.

(** The read of [TILE_STATE_ORDER] in [getNextTileState] is always
    defined: the fallback of the model is dead. *)
Lemma getNextTileState_in_order (s : string) :
  JS.at_index TILE_STATE_ORDER (nextIndex s) = Some (getNextTileState s).
Proof.
  unfold getNextTileState.
  destruct (decide (s ∈ TILE_STATE_ORDER)) as [Hin|Hout].
  - destruct (known_state_cases s Hin) as [->|[->| ->]]; reflexivity.
  - unfold nextIndex. rewrite (indexOf_unknown s Hout). reflexivity.
Qed.

(** The state manager computes the next state by the same expression. *)
Lemma nextState_eq (s : string) :
  BoardStateManager.nextState s = getNextTileState s.
Proof. reflexivity. Qed.

Lemma getNextTileState_unknown (s : string) :
  s ∉ TILE_STATE_ORDER -> getNextTileState s = TileState.A.
Proof.
  intros Hs. unfold getNextTileState, nextIndex.
  rewrite (indexOf_unknown s Hs). reflexivity.
Qed.

Lemma getNextTileState_thrice (s : string) :
  s ∈ TILE_STATE_ORDER ->
  getNextTileState (getNextTileState (getNextTileState s)) = s.
Proof.
  intros Hin. destruct (known_state_cases s Hin) as [->|[->| ->]]; reflexivity.
Qed.

End TileStateCycle.

(** ** toggleTileState of the state manager *)

Section Toggle.

Import BoardStateManager.

(** The tile of a row with its state replaced. *)
Let withState (tl : tile) (s : string) : tile :=
  mkTile (rowIndex tl) (columnIndex tl) s.

Let withTiles (r : row) (tls : list tile) : row :=
  mkRow (index r) (header r) (includedInCalculations r) tls.

Let withRows (st : t) (rs : list row) : t :=
  mk (year st) (weekNumber st) (columns st) rs.

Lemma toggleTileState_valid (st : t) (ri ci : Z) (r : row) (tl : tile) :
  JS.at_index (rows st) ri = Some r ->
  JS.at_index (tiles r) ci = Some tl ->
  toggleTileState st ri ci =
    (withRows st (<[Z.to_nat ri :=
                     withTiles r (<[Z.to_nat ci := withState tl (getNextTileState (state tl))]>
                                    (tiles r))]> (rows st)),
     Some (getNextTileState (state tl))).
Proof.
  intros Hr Htl. unfold toggleTileState. rewrite Hr, Htl. reflexivity.
Qed.

Lemma toggleTileState_invalid (st : t) (ri ci : Z) :
  (forall r, JS.at_index (rows st) ri = Some r -> JS.at_index (tiles r) ci = None) ->
  toggleTileState st ri ci = (st, None).
Proof.
  intros H. unfold toggleTileState.
  destruct (JS.at_index (rows st) ri) as [r|] eqn:Hr; [|done].
  by rewrite (H r eq_refl).
Qed.

(** After a write at a valid position the same position reads the value
    written. *)
Lemma at_index_insert {A : Type} (arr : list A) (i : Z) (x y : A) :
  JS.at_index arr i = Some x ->
  JS.at_index (<[Z.to_nat i := y]> arr) i = Some y.
Proof.
  intros [Hi Hx]%at_index_Some. apply at_index_Some. split; [done|].
  apply list_lookup_insert_eq. by eapply lookup_lt_Some.
Qed.

Lemma toggleTileState_thrice (st : t) (ri ci : Z) (r : row) (tl : tile) :
  JS.at_index (rows st) ri = Some r ->
  JS.at_index (tiles r) ci = Some tl ->
  state tl ∈ TILE_STATE_ORDER ->
  toggleTileState (fst (toggleTileState (fst (toggleTileState st ri ci)) ri ci)) ri ci
  = (st, Some (state tl)).
Proof.
  intros Hr Htl Hs.
  rewrite (toggleTileState_valid st ri ci r tl Hr Htl). cbn [fst].
  set (tl1 := withState tl (getNextTileState (state tl))).
  set (r1 := withTiles r (<[Z.to_nat ci := tl1]> (tiles r))).
  set (st1 := withRows st (<[Z.to_nat ri := r1]> (rows st))).
  assert (Hr1 : JS.at_index (rows st1) ri = Some r1)
    by (eapply at_index_insert, Hr).
  assert (Htl1 : JS.at_index (tiles r1) ci = Some tl1)
    by (eapply at_index_insert, Htl).
  rewrite (toggleTileState_valid st1 ri ci r1 tl1 Hr1 Htl1). cbn [fst].
  set (tl2 := withState tl1 (getNextTileState (state tl1))).
  set (r2 := withTiles r1 (<[Z.to_nat ci := tl2]> (tiles r1))).
  set (st2 := withRows st1 (<[Z.to_nat ri := r2]> (rows st1))).
  assert (Hr2 : JS.at_index (rows st2) ri = Some r2)
    by (eapply at_index_insert, Hr1).
  assert (Htl2 : JS.at_index (tiles r2) ci = Some tl2)
    by (eapply at_index_insert, Htl1).
  rewrite (toggleTileState_valid st2 ri ci r2 tl2 Hr2 Htl2).
  assert (Hcycle : getNextTileState (state tl2) = state tl)
    by (apply (getNextTileState_thrice _ Hs)).
  rewrite Hcycle. f_equal.
  apply at_index_Some in Hr as [_ Hr]. apply at_index_Some in Htl as [_ Htl].
  destruct st as [y w cs rs], r as [i h inc tls], tl as [tr tc ts].
  subst st2 r2 tl2 st1 r1 tl1. unfold withRows, withTiles, withState.
  simpl in *. rewrite !list_insert_insert_eq. f_equal.
  apply list_insert_id. rewrite Hr. do 2 f_equal.
  symmetry. by apply list_insert_id.
Qed.

Lemma toggleTileState_tileAt (st : t) (ri ci : Z) (r : row) (tl : tile) :
  JS.at_index (rows st) ri = Some r ->
  JS.at_index (tiles r) ci = Some tl ->
  Observe.tileAt (fst (toggleTileState st ri ci)) ri ci
  = Some (mkTile (rowIndex tl) (columnIndex tl) (getNextTileState (state tl))).
Proof.
  intros Hr Htl. rewrite (toggleTileState_valid st ri ci r tl Hr Htl).
  unfold Observe.tileAt. cbn [fst]. unfold withRows at 1. cbn [rows].
  rewrite (at_index_insert _ _ _ _ Hr). cbn [mbind option_bind].
  unfold withTiles at 1. cbn [tiles].
  by rewrite (at_index_insert _ _ _ _ Htl).
Qed.

(** A toggle leaves every other tile of the board as it was. *)
Lemma toggleTileState_tileAt_other (st : t) (ri ci : Z) (r : row) (tl : tile)
    (ri' ci' : Z) :
  JS.at_index (rows st) ri = Some r ->
  JS.at_index (tiles r) ci = Some tl ->
  (ri', ci') <> (ri, ci) ->
  Observe.tileAt (fst (toggleTileState st ri ci)) ri' ci' = Observe.tileAt st ri' ci'.
Proof.
  intros Hr Htl Hne. rewrite (toggleTileState_valid st ri ci r tl Hr Htl).
  unfold Observe.tileAt. cbn [fst]. unfold withRows at 1. cbn [rows].
  destruct (decide (ri' = ri)) as [->|Hri].
  - rewrite (at_index_insert _ _ _ _ Hr), Hr. cbn [mbind option_bind].
    unfold withTiles at 1. cbn [tiles].
    assert (Hci : ci' <> ci) by congruence.
    unfold JS.at_index. case_decide as Hc; [|done].
    apply at_index_Some in Htl as [Hci0 _].
    apply list_lookup_insert_ne. lia.
  - apply at_index_Some in Hr as [Hri0 _].
    match goal with
    | |- JS.at_index (<[_ := ?x]> _) _ ≫= _ = _ =>
        assert (E : JS.at_index (<[Z.to_nat ri := x]> (rows st)) ri'
                    = JS.at_index (rows st) ri')
    end.
    { unfold JS.at_index. case_decide as Hc; [|done].
      apply list_lookup_insert_ne. lia. }
    by rewrite E.
Qed.

End Toggle.

(** C3: the cycling function moves one position forward in the order
    Available ('A'), Work ('Praca'), Leave ('U') and wraps from the last
    position to the first; for each of the three known states three
    toggles, through [getNextTileState], through [Tile.toggleState], or
    through [toggleTileState] of the state manager at valid coordinates,
    give back the original state (and the whole board state).  A single
    toggle of a tile whose state is at position [i] of the order, through
    [Tile.toggleState] or through [toggleTileState] at valid coordinates,
    returns the state at position [(i + 1) mod 3] and stores it in that
    tile, leaving the positions of the tile and everything else on the
    board as they were. *)
Theorem tile_state_cycling :
  (forall (i : nat) (s : string),
      TILE_STATE_ORDER !! i = Some s ->
      TILE_STATE_ORDER !! ((i + 1) mod 3) = Some (getNextTileState s)) /\
  (forall s : string,
      s ∈ TILE_STATE_ORDER ->
      getNextTileState (getNextTileState (getNextTileState s)) = s) /\
  (forall tile : Tile.t,
      Tile.state tile ∈ TILE_STATE_ORDER ->
      Tile.toggleState (fst (Tile.toggleState (fst (Tile.toggleState tile))))
      = (tile, Tile.state tile)) /\
  (forall (st : BoardStateManager.t) (ri ci : Z) r tl,
      JS.at_index (BoardStateManager.rows st) ri = Some r ->
      JS.at_index (BoardStateManager.tiles r) ci = Some tl ->
      BoardStateManager.state tl ∈ TILE_STATE_ORDER ->
      BoardStateManager.toggleTileState
        (fst (BoardStateManager.toggleTileState
                (fst (BoardStateManager.toggleTileState st ri ci)) ri ci)) ri ci
      = (st, Some (BoardStateManager.state tl))) /\
  (forall (tile : Tile.t) (i : nat),
      TILE_STATE_ORDER !! i = Some (Tile.state tile) ->
      exists next : string,
        TILE_STATE_ORDER !! ((i + 1) mod 3) = Some next /\
        Tile.toggleState tile
        = (Tile.mk (Tile.rowIndex tile) (Tile.columnIndex tile) next, next)) /\
  (forall (st : BoardStateManager.t) (ri ci : Z) r tl (i : nat),
      JS.at_index (BoardStateManager.rows st) ri = Some r ->
      JS.at_index (BoardStateManager.tiles r) ci = Some tl ->
      TILE_STATE_ORDER !! i = Some (BoardStateManager.state tl) ->
      exists next : string,
        TILE_STATE_ORDER !! ((i + 1) mod 3) = Some next /\
        BoardStateManager.toggleTileState st ri ci
        = (BoardStateManager.mk (BoardStateManager.year st) (BoardStateManager.weekNumber st)
             (BoardStateManager.columns st)
             (<[Z.to_nat ri :=
                  BoardStateManager.mkRow (BoardStateManager.index r)
                    (BoardStateManager.header r) (BoardStateManager.includedInCalculations r)
                    (<[Z.to_nat ci :=
                         BoardStateManager.mkTile (BoardStateManager.rowIndex tl)
                           (BoardStateManager.columnIndex tl) next]>
                       (BoardStateManager.tiles r))]>
                (BoardStateManager.rows st)),
           Some next) /\
        Observe.tileAt (fst (BoardStateManager.toggleTileState st ri ci)) ri ci
        = Some (BoardStateManager.mkTile (BoardStateManager.rowIndex tl)
                  (BoardStateManager.columnIndex tl) next) /\
        (forall ri' ci' : Z,
            (ri', ci') <> (ri, ci) ->
            Observe.tileAt (fst (BoardStateManager.toggleTileState st ri ci)) ri' ci'
            = Observe.tileAt st ri' ci')).
Proof.
  assert (Hstep : forall (i : nat) (s : string),
             TILE_STATE_ORDER !! i = Some s ->
             TILE_STATE_ORDER !! ((i + 1) mod 3) = Some (getNextTileState s)).
  { intros i s Hi.
    destruct i as [|[|[|i]]]; simpl in Hi; [| | |by rewrite lookup_nil in Hi];
      injection Hi as <-; reflexivity. }
  split; [exact Hstep|]. split; [|split; [|split; [|split]]].
  - apply getNextTileState_thrice.
  - intros [r c s] Hs. unfold Tile.toggleState. cbn [fst Tile.state Tile.rowIndex Tile.columnIndex].
    simpl in Hs. by rewrite (getNextTileState_thrice s Hs).
  - apply toggleTileState_thrice.
  - intros tile i Hi. exists (getNextTileState (Tile.state tile)).
    split; [by apply Hstep | reflexivity].
  - intros st ri ci r tl i Hr Htl Hi.
    exists (getNextTileState (BoardStateManager.state tl)).
    split; [by apply Hstep|]. split; [by apply toggleTileState_valid|].
    split; [by apply (toggleTileState_tileAt st ri ci r tl)|].
    intros ri' ci' Hne. by apply (toggleTileState_tileAt_other st ri ci r tl).
Qed.

Lemma tile_state_cycling_witness :
  TILE_STATE_ORDER !! ((2 + 1) mod 3) = Some (getNextTileState "U") /\
  getNextTileState (getNextTileState (getNextTileState "Praca")) = "Praca" /\
  Tile.toggleState (fst (Tile.toggleState (fst (Tile.toggleState (Tile.mk 0 3 "U")))))
  = (Tile.mk 0 3 "U", "U") /\
  BoardStateManager.toggleTileState
    (fst (BoardStateManager.toggleTileState
       (fst (BoardStateManager.toggleTileState
          (fst (BoardStateManager.addRow (BoardStateManager.createEmptyState 2026 45)
                                         (Some "Anna"))) 0 2)) 0 2)) 0 2
  = (fst (BoardStateManager.addRow (BoardStateManager.createEmptyState 2026 45)
                                   (Some "Anna")), Some "A") /\
  Tile.toggleState (Tile.mk 0 3 "Praca") = (Tile.mk 0 3 "U", "U") /\
  snd (BoardStateManager.toggleTileState
         (fst (BoardStateManager.addRow (BoardStateManager.createEmptyState 2026 45)
                                        (Some "Anna"))) 0 2) = Some "Praca".
Proof.
  destruct tile_state_cycling as (Hstep & Hthree & Htile & Hboard & Hone & Hboard1).
  split; [|split; [|split; [|split; [|split]]]].
  - apply (Hstep 2 "U"). reflexivity.
  - apply (Hthree "Praca"). unfold TILE_STATE_ORDER. rewrite !elem_of_cons. tauto.
  - apply (Htile (Tile.mk 0 3 "U")). unfold TILE_STATE_ORDER. simpl.
    rewrite !elem_of_cons. tauto.
  - eapply (Hboard _ 0%Z 2%Z _ (BoardStateManager.mkTile 0 2 "A")).
    + reflexivity.
    + reflexivity.
    + unfold TILE_STATE_ORDER. simpl. rewrite !elem_of_cons. tauto.
  - destruct (Hone (Tile.mk 0 3 "Praca") 1 eq_refl) as (next & Hnext & ->).
    injection Hnext as <-. reflexivity.
  - destruct (Hboard1 (fst (BoardStateManager.addRow
                              (BoardStateManager.createEmptyState 2026 45) (Some "Anna")))
                0%Z 2%Z _ (BoardStateManager.mkTile 0 2 "A") 0 eq_refl eq_refl eq_refl)
      as (next & Hnext & -> & _).
    injection Hnext as <-. reflexivity.
Defined.

(** C10: a stored state that is none of 'A', 'Praca', 'U' has index -1 in
    the order, so the next index is (-1 + 1) rem 3 = 0 and toggling gives
    'A', the first value of the order: through [getNextTileState], through
    [Tile.toggleState], and through [toggleTileState] of the state manager
    at valid coordinates, which returns 'A' and stores it in the tile. *)
Theorem unknown_state_toggles_to_first (s : string) :
  s <> TileState.A -> s <> TileState.PRACA -> s <> TileState.U ->
  JS.indexOf TILE_STATE_ORDER s = (-1)%Z /\
  nextIndex s = 0%Z /\
  JS.at_index TILE_STATE_ORDER (nextIndex s) = Some TileState.A /\
  getNextTileState s = TileState.A /\
  (forall r c : Z,
      Tile.toggleState (Tile.mk r c s) = (Tile.mk r c TileState.A, TileState.A)) /\
  (forall (st : BoardStateManager.t) (ri ci : Z) r tl,
      JS.at_index (BoardStateManager.rows st) ri = Some r ->
      JS.at_index (BoardStateManager.tiles r) ci = Some tl ->
      BoardStateManager.state tl = s ->
      snd (BoardStateManager.toggleTileState st ri ci) = Some TileState.A /\
      Observe.tileAt (fst (BoardStateManager.toggleTileState st ri ci)) ri ci
      = Some (BoardStateManager.mkTile (BoardStateManager.rowIndex tl)
                                       (BoardStateManager.columnIndex tl) TileState.A)).
Proof.
  intros HA HP HU.
  assert (Hs : s ∉ TILE_STATE_ORDER).
  { unfold TILE_STATE_ORDER. rewrite !not_elem_of_cons. repeat split; try done.
    apply not_elem_of_nil. }
  pose proof (indexOf_unknown s Hs) as Hidx.
  pose proof (getNextTileState_unknown s Hs) as Hnext.
  assert (Hni : nextIndex s = 0%Z) by (unfold nextIndex; rewrite Hidx; reflexivity).
  split; [exact Hidx|]. split; [exact Hni|].
  split; [rewrite Hni; reflexivity|]. split; [exact Hnext|]. split.
  - intros r c. unfold Tile.toggleState. simpl. by rewrite Hnext.
  - intros st ri ci r tl Hr Htl Hstate. split.
    + rewrite (toggleTileState_valid st ri ci r tl Hr Htl). simpl.
      by rewrite Hstate, Hnext.
    + rewrite (toggleTileState_tileAt st ri ci r tl Hr Htl).
      by rewrite Hstate, Hnext.
Qed.

Lemma unknown_state_toggles_to_first_witness :
  getNextTileState "Urlop" = "A" /\
  Tile.toggleState (Tile.mk 1 4 "Urlop") = (Tile.mk 1 4 "A", "A") /\
  snd (BoardStateManager.toggleTileState
         (BoardStateManager.mk 2026 45 []
            [BoardStateManager.mkRow 0 "Anna" true [BoardStateManager.mkTile 0 0 "Urlop"]])
         0 0) = Some "A".
Proof.
  destruct (unknown_state_toggles_to_first "Urlop") as (_ & _ & _ & Hn & Ht & Hb);
    [discriminate | discriminate | discriminate |].
  split; [exact Hn|]. split; [apply Ht|].
  eapply (Hb _ 0%Z 0%Z); reflexivity.
Defined.

(** ** Work count and column validity *)

Section Counting.

(** A [reduce] that adds one for every element passing a test counts the
    elements passing it. *)
Lemma foldl_count {A : Type} (step : Z -> A -> Z) (test : A -> bool) :
  (forall k x, step k x = (k + if test x then 1 else 0)%Z) ->
  forall (l : list A) (k : Z),
    foldl step k l = (k + Z.of_nat (length (List.filter test l)))%Z.
Proof.
  intros Hstep l. induction l as [|x l IH]; intros k; simpl.
  - lia.
  - rewrite IH, Hstep. destruct (test x); simpl; lia.
Qed.

Lemma filter_filter_andb {A : Type} (f g : A -> bool) (l : list A) :
  List.filter f (List.filter g l) = List.filter (fun x => g x && f x) l.
Proof.
  induction l as [|x l IH]; simpl; [done|].
  destruct (g x); simpl; [destruct (f x)|]; by rewrite ?IH.
Qed.

Lemma countPracaInColumn_filter (st : BoardStateManager.t) (c : Z) :
  BoardStateManager.countPracaInColumn st c
  = Z.of_nat (length (List.filter (Observe.countsFor c) (BoardStateManager.rows st))).
Proof.
  unfold BoardStateManager.countPracaInColumn.
  rewrite (foldl_count _ (fun r =>
             match JS.at_index (BoardStateManager.tiles r) c with
             | Some tl => bool_decide (BoardStateManager.state tl = TileState.PRACA)
             | None => false
             end)).
  - by rewrite filter_filter_andb.
  - intros k r. unfold BoardStateManager.countStep.
    by destruct (JS.at_index _ c).
Qed.

Lemma Board_countPracaInColumn_filter (b : Board.t) (c : Z) :
  Board.countPracaInColumn b c
  = Z.of_nat (length (List.filter (Observe.rowCountsFor c) (Board.rows b))).
Proof.
  unfold Board.countPracaInColumn.
  rewrite (foldl_count _ (fun r =>
             match Row.getTile r c with
             | Some tile => Tile.isPraca tile
             | None => false
             end)).
  - by rewrite filter_filter_andb.
  - intros k r. unfold Board.countStep. by destruct (Row.getTile r c).
Qed.

Lemma filter_skip_failing {A : Type} (f : A -> bool) (before after : list A) (x : A) :
  f x = false ->
  List.filter f (before ++ x :: after) = List.filter f (before ++ after).
Proof.
  intros Hx. rewrite !List.filter_app. simpl. by rewrite Hx.
Qed.

End Counting.

(** C2: the work count of a column is the number of rows whose inclusion
    flag is true and whose tile at that column is in state 'Praca', in the
    state manager and in the class model; a row whose flag is false adds
    nothing whatever its tiles hold; and a board of one included row
    working at a weekday column and one excluded row, with one worker
    required there, has work count 1 and a valid column. *)
Theorem countPracaInColumn_counts_included_work :
  (forall (st : BoardStateManager.t) (c : Z),
      BoardStateManager.countPracaInColumn st c
      = Z.of_nat (length (List.filter (Observe.countsFor c) (BoardStateManager.rows st)))) /\
  (forall (b : Board.t) (c : Z),
      Board.countPracaInColumn b c
      = Z.of_nat (length (List.filter (Observe.rowCountsFor c) (Board.rows b)))) /\
  (forall y w cols before after (r : BoardStateManager.row) (c : Z),
      BoardStateManager.includedInCalculations r = false ->
      BoardStateManager.countPracaInColumn (BoardStateManager.mk y w cols (before ++ r :: after)) c
      = BoardStateManager.countPracaInColumn (BoardStateManager.mk y w cols (before ++ after)) c) /\
  (forall cols before after (r : Row.t) (c : Z),
      Row.includedInCalculations r = false ->
      Board.countPracaInColumn (Board.mk cols (before ++ r :: after)) c
      = Board.countPracaInColumn (Board.mk cols (before ++ after)) c) /\
  (forall y w cols (r1 r2 : BoardStateManager.row) (c : Z) col tl,
      JS.at_index cols c = Some col ->
      BoardStateManager.requiredWorkers col = 1%Z ->
      c <> 6%Z ->
      BoardStateManager.includedInCalculations r1 = true ->
      JS.at_index (BoardStateManager.tiles r1) c = Some tl ->
      BoardStateManager.state tl = TileState.PRACA ->
      BoardStateManager.includedInCalculations r2 = false ->
      let st := BoardStateManager.mk y w cols [r1; r2] in
      BoardStateManager.countPracaInColumn st c = 1%Z /\
      BoardStateManager.isColumnValid st c = true) /\
  (forall cols (r1 r2 : Row.t) (c : Z) col tile,
      JS.at_index cols c = Some col ->
      Column.requiredWorkers col = 1%Z ->
      Column.isSunday col = false ->
      Row.includedInCalculations r1 = true ->
      Row.getTile r1 c = Some tile ->
      Tile.state tile = TileState.PRACA ->
      Row.includedInCalculations r2 = false ->
      let b := Board.mk cols [r1; r2] in
      Board.countPracaInColumn b c = 1%Z /\
      Board.isColumnValid b c = true).
Proof.
  split; [exact countPracaInColumn_filter|].
  split; [exact Board_countPracaInColumn_filter|].
  split; [|split; [|split]].
  - intros y w cols before after r c Hr.
    rewrite !countPracaInColumn_filter. cbn [BoardStateManager.rows].
    rewrite (filter_skip_failing (Observe.countsFor c)); [done|].
    unfold Observe.countsFor. by rewrite Hr.
  - intros cols before after r c Hr.
    rewrite !Board_countPracaInColumn_filter. cbn [Board.rows].
    rewrite (filter_skip_failing (Observe.rowCountsFor c)); [done|].
    unfold Observe.rowCountsFor. by rewrite Hr.
  - intros y w cols r1 r2 c col tl Hcol Hreq Hc Hinc1 Htl Hst Hinc2 st.
    assert (Hcount : BoardStateManager.countPracaInColumn st c = 1%Z).
    { rewrite countPracaInColumn_filter. subst st. cbn [BoardStateManager.rows List.filter].
      unfold Observe.countsFor. rewrite Hinc1, Hinc2, Htl, Hst. reflexivity. }
    split; [exact Hcount|].
    unfold BoardStateManager.isColumnValid. subst st. cbn [BoardStateManager.columns].
    rewrite Hcol. cbv zeta. rewrite Hcount, Hreq.
    rewrite (bool_decide_eq_false_2 (c = 6%Z)) by done. reflexivity.
  - intros cols r1 r2 c col tile Hcol Hreq Hsun Hinc1 Htile Hst Hinc2 b.
    assert (Hcount : Board.countPracaInColumn b c = 1%Z).
    { rewrite Board_countPracaInColumn_filter. subst b. cbn [Board.rows List.filter].
      unfold Observe.rowCountsFor, Tile.isPraca. rewrite Hinc1, Hinc2, Htile, Hst.
      reflexivity. }
    split; [exact Hcount|].
    unfold Board.isColumnValid, Board.getColumn. subst b. cbn [Board.columns].
    rewrite Hcol. cbv zeta. rewrite Hcount, Hreq, Hsun. reflexivity.
Qed.

Lemma countPracaInColumn_counts_included_work_witness :
  BoardStateManager.countPracaInColumn
    (BoardStateManager.mk 2026 45
       (BoardStateManager.columns (Observe.staffed 0 1))
       [BoardStateManager.mkRow 0 "Anna" true (Observe.weekOf 0 "Praca");
        BoardStateManager.mkRow 1 "Bob" false (Observe.weekOf 1 "Praca")]) 2 = 1%Z /\
  BoardStateManager.isColumnValid
    (BoardStateManager.mk 2026 45
       (BoardStateManager.columns (Observe.staffed 0 1))
       [BoardStateManager.mkRow 0 "Anna" true (Observe.weekOf 0 "Praca");
        BoardStateManager.mkRow 1 "Bob" false (Observe.weekOf 1 "Praca")]) 2 = true /\
  Board.countPracaInColumn
    (Board.mk Board._createDefaultColumns
       [Row.mk 0 "Anna" true [Tile.mk 0 0 "Praca"];
        Row.mk 1 "Bob" false [Tile.mk 1 0 "Praca"]]) 0 = 1%Z.
Proof.
  destruct countPracaInColumn_counts_included_work as (_ & _ & _ & _ & Hplain & Hclass).
  split; [|split].
  - eapply (Hplain 2026%Z 45%Z _ _ _ 2%Z); [reflexivity | reflexivity | lia
      | reflexivity | reflexivity | reflexivity | reflexivity].
  - eapply (Hplain 2026%Z 45%Z _ _ _ 2%Z); [reflexivity | reflexivity | lia
      | reflexivity | reflexivity | reflexivity | reflexivity].
  - eapply (Hclass _ _ _ 0%Z); [reflexivity | reflexivity | reflexivity
      | reflexivity | reflexivity | reflexivity | reflexivity].
Defined.

Section Validity.

Local Abbreviation columnsPositional := Observe.columnsPositional.

Lemma default_columns_positional (rows : option (list Row.t)) :
  columnsPositional (Board.new None rows).
Proof.
  intros c col [Hc Hcol]%at_index_Some. simpl in Hcol.
  unfold Board._createDefaultColumns in Hcol.
  apply list_lookup_fmap_Some in Hcol as (i & -> & Hi).
  apply lookup_seq in Hi as [-> _]. simpl. lia.
Qed.

Lemma addRow_columns (b : Board.t) (header : option string) :
  Board.columns (fst (Board.addRow b header)) = Board.columns b.
Proof. reflexivity. Qed.

Lemma removeRow_columns (b : Board.t) (rowIndex : Z) :
  Board.columns (fst (Board.removeRow b rowIndex)) = Board.columns b.
Proof. unfold Board.removeRow. by case_decide. Qed.

Lemma setRequiredWorkers_index (col : Column.t) (count : Z) :
  Column.index (Column.setRequiredWorkers col count) = Column.index col.
Proof. unfold Column.setRequiredWorkers. by case_decide. Qed.

Lemma isColumnValid_sunday (st : BoardStateManager.t) (col : BoardStateManager.column) :
  JS.at_index (BoardStateManager.columns st) 6 = Some col ->
  BoardStateManager.isColumnValid st 6 = true
  <-> BoardStateManager.countPracaInColumn st 6 = BoardStateManager.requiredWorkers col.
Proof.
  intros Hcol. unfold BoardStateManager.isColumnValid. rewrite Hcol. cbv zeta.
  rewrite bool_decide_eq_true_2 by done. apply bool_decide_eq_true.
Qed.

Lemma isColumnValid_weekday (st : BoardStateManager.t) (c : Z)
    (col : BoardStateManager.column) :
  JS.at_index (BoardStateManager.columns st) c = Some col ->
  c <> 6%Z ->
  BoardStateManager.isColumnValid st c = true
  <-> BoardStateManager.countPracaInColumn st c = BoardStateManager.requiredWorkers col
      \/ BoardStateManager.countPracaInColumn st c
         = (BoardStateManager.requiredWorkers col + 1)%Z.
Proof.
  intros Hcol Hc. unfold BoardStateManager.isColumnValid. rewrite Hcol. cbv zeta.
  rewrite (bool_decide_eq_false_2 (c = 6%Z)) by done.
  rewrite orb_true_iff, !bool_decide_eq_true. done.
Qed.

Lemma Board_isColumnValid_iff (b : Board.t) (c : Z) (col : Column.t) :
  Board.getColumn b c = Some col ->
  Board.isColumnValid b c = true
  <-> if Column.isSunday col
      then Board.countPracaInColumn b c = Column.requiredWorkers col
      else Board.countPracaInColumn b c = Column.requiredWorkers col
           \/ Board.countPracaInColumn b c = (Column.requiredWorkers col + 1)%Z.
Proof.
  intros Hcol. unfold Board.isColumnValid. rewrite Hcol. cbv zeta.
  destruct (Column.isSunday col).
  - apply bool_decide_eq_true.
  - rewrite orb_true_iff, !bool_decide_eq_true. done.
Qed.

End Validity.

(** C1: for a column present at position [c], [isColumnValid c] is true
    exactly when, for Sunday (position 6), the work count equals the
    required count, and for the other days, the work count equals the
    required count or the required count plus one.  The state manager
    decides Sunday by the position; the class model decides it by the index
    stored in the column, which is the position on every board whose
    columns are positional, the default board among them. *)
Theorem isColumnValid_rule :
  (forall (st : BoardStateManager.t) (c : Z) (col : BoardStateManager.column),
      JS.at_index (BoardStateManager.columns st) c = Some col ->
      let pracaCount := BoardStateManager.countPracaInColumn st c in
      let required := BoardStateManager.requiredWorkers col in
      (c = 6%Z ->
       (BoardStateManager.isColumnValid st c = true <-> pracaCount = required)) /\
      (c <> 6%Z ->
       (BoardStateManager.isColumnValid st c = true
        <-> pracaCount = required \/ pracaCount = (required + 1)%Z))) /\
  (forall (b : Board.t) (c : Z) (col : Column.t),
      Board.getColumn b c = Some col ->
      let pracaCount := Board.countPracaInColumn b c in
      let required := Column.requiredWorkers col in
      (Column.index col = 6%Z ->
       (Board.isColumnValid b c = true <-> pracaCount = required)) /\
      (Column.index col <> 6%Z ->
       (Board.isColumnValid b c = true
        <-> pracaCount = required \/ pracaCount = (required + 1)%Z))) /\
  (forall (b : Board.t) (c : Z) (col : Column.t),
      Observe.columnsPositional b ->
      Board.getColumn b c = Some col ->
      let pracaCount := Board.countPracaInColumn b c in
      let required := Column.requiredWorkers col in
      (c = 6%Z ->
       (Board.isColumnValid b c = true <-> pracaCount = required)) /\
      (c <> 6%Z ->
       (Board.isColumnValid b c = true
        <-> pracaCount = required \/ pracaCount = (required + 1)%Z))) /\
  (forall rows : option (list Row.t), Observe.columnsPositional (Board.new None rows)) /\
  (forall (b : Board.t) (h : option string) (p : Z),
      Observe.columnsPositional b ->
      Observe.columnsPositional (fst (Board.addRow b h)) /\
      Observe.columnsPositional (fst (Board.removeRow b p))).
Proof.
  assert (Hclass : forall (b : Board.t) (c : Z) (col : Column.t),
      Board.getColumn b c = Some col ->
      (Column.index col = 6%Z ->
       (Board.isColumnValid b c = true
        <-> Board.countPracaInColumn b c = Column.requiredWorkers col)) /\
      (Column.index col <> 6%Z ->
       (Board.isColumnValid b c = true
        <-> Board.countPracaInColumn b c = Column.requiredWorkers col
            \/ Board.countPracaInColumn b c = (Column.requiredWorkers col + 1)%Z))).
  { intros b c col Hcol.
    pose proof (Board_isColumnValid_iff b c col Hcol) as Hiff.
    unfold Column.isSunday in Hiff. split; intros Hidx.
    - by rewrite bool_decide_eq_true_2 in Hiff.
    - by rewrite bool_decide_eq_false_2 in Hiff. }
  split; [|split; [|split; [|split]]].
  - intros st c col Hcol pracaCount required. split.
    + intros ->. by apply isColumnValid_sunday.
    + intros Hc. by apply isColumnValid_weekday.
  - intros b c col Hcol pracaCount required. by apply Hclass.
  - intros b c col Hpos Hcol pracaCount required.
    destruct (Hclass b c col Hcol) as [Hsun Hweek].
    rewrite (Hpos c col Hcol) in Hsun, Hweek. by split.
  - exact default_columns_positional.
  - intros b h p Hpos. split; intros c col Hcol; apply Hpos; revert Hcol;
      unfold Board.getColumn; by rewrite ?addRow_columns, ?removeRow_columns.
Qed.

(** Required 3 on a weekday: 3 and 4 workers are valid, 2 and 5 are not;
    on Sunday 3 is valid and 4 is not. *)
Lemma isColumnValid_rule_witness :
  (BoardStateManager.isColumnValid (Observe.staffed 3 3) 0 = true /\
   BoardStateManager.isColumnValid (Observe.staffed 4 3) 0 = true /\
   BoardStateManager.isColumnValid (Observe.staffed 2 3) 0 = false /\
   BoardStateManager.isColumnValid (Observe.staffed 5 3) 0 = false) /\
  (BoardStateManager.isColumnValid (Observe.staffed 3 3) 6 = true /\
   BoardStateManager.isColumnValid (Observe.staffed 4 3) 6 = false) /\
  (Board.isColumnValid (Observe.staffedBoard 4 3) 5 = true /\
   Board.isColumnValid (Observe.staffedBoard 4 3) 6 = false).
Proof.
  destruct isColumnValid_rule as (Hplain & _ & Hpos & _).
  assert (Hclass : forall c col,
            Board.getColumn (Observe.staffedBoard 4 3) c = Some col -> Column.index col = c).
  { intros c col [Hc Hcol]%at_index_Some.
    unfold Observe.staffedBoard in Hcol. cbn [Board.columns] in Hcol.
    apply list_lookup_fmap_Some in Hcol as (i & -> & Hi).
    apply lookup_seq in Hi as [-> _]. simpl. lia. }
  assert (Hno : forall b : bool, (b = true <-> False) -> b = false).
  { intros [|] Hb; [exfalso; by apply Hb | done]. }
  split; [|split].
  - destruct (Hplain (Observe.staffed 3 3) 0%Z (BoardStateManager.mkColumn 0 3)
                eq_refl) as [_ H3].
    destruct (Hplain (Observe.staffed 4 3) 0%Z (BoardStateManager.mkColumn 0 3)
                eq_refl) as [_ H4].
    destruct (Hplain (Observe.staffed 2 3) 0%Z (BoardStateManager.mkColumn 0 3)
                eq_refl) as [_ H2].
    destruct (Hplain (Observe.staffed 5 3) 0%Z (BoardStateManager.mkColumn 0 3)
                eq_refl) as [_ H5].
    split; [apply H3; [lia | left; reflexivity]|].
    split; [apply H4; [lia | right; reflexivity]|].
    split; apply Hno.
    + rewrite H2 by lia. vm_compute. split; [intros [?|?]; discriminate | done].
    + rewrite H5 by lia. vm_compute. split; [intros [?|?]; discriminate | done].
  - destruct (Hplain (Observe.staffed 3 3) 6%Z (BoardStateManager.mkColumn 6 3)
                eq_refl) as [H3 _].
    destruct (Hplain (Observe.staffed 4 3) 6%Z (BoardStateManager.mkColumn 6 3)
                eq_refl) as [H4 _].
    split; [apply H3; reflexivity|].
    apply Hno. rewrite H4 by reflexivity. vm_compute. split; [discriminate | done].
  - destruct (Hpos (Observe.staffedBoard 4 3) 5%Z (Column.new 5 (Some 3%Z))
                Hclass eq_refl) as [_ H5].
    destruct (Hpos (Observe.staffedBoard 4 3) 6%Z (Column.new 6 (Some 3%Z))
                Hclass eq_refl) as [H6 _].
    split; [apply H5; [lia | right; reflexivity]|].
    apply Hno. rewrite H6 by reflexivity. vm_compute. split; [discriminate | done].
Defined.

(** ** HistoryManager *)

Section History.

Import HistoryManager.

Context {Snapshot JsonText : Type}.
Variable stringify : Snapshot -> JsonText.
Variable parse : JsonText -> option Snapshot.

Local Abbreviation hm := (HistoryManager.t JsonText).
Local Abbreviation pushState := (HistoryManager.pushState stringify).
Local Abbreviation undo := (HistoryManager.undo stringify parse).
Local Abbreviation redo := (HistoryManager.redo stringify parse).
Local Abbreviation perform := (HistoryManager.perform stringify parse).
Local Abbreviation performAll := (HistoryManager.performAll stringify parse).
Local Abbreviation undoEach := (HistoryManager.undoEach stringify parse).

(** An array is empty or ends in a last element. *)
Lemma snoc_cases {A : Type} (l : list A) :
  l = [] \/ exists older top, l = older ++ [top].
Proof.
  destruct l as [|x l] using rev_ind; [by left | right; eauto].
Qed.

Lemma pop_snoc {A : Type} (older : list A) (top : A) :
  JS.pop (older ++ [top]) = (older, Some top).
Proof.
  unfold JS.pop. by rewrite removelast_last, last_snoc.
Qed.

Lemma pushState_stacks (h : hm) (s : Snapshot) :
  undoStack (pushState h s)
  = (if decide (maxHistorySize h < length (undoStack h ++ [stringify s]))
     then tail (undoStack h ++ [stringify s])
     else undoStack h ++ [stringify s]) /\
  redoStack (pushState h s) = [] /\
  maxHistorySize (pushState h s) = maxHistorySize h.
Proof.
  unfold HistoryManager.pushState, JS.push, JS.shift. cbv zeta.
  by case_decide.
Qed.

Lemma undo_empty (h : hm) (cur : Snapshot) :
  undoStack h = [] -> undo h cur = (h, Return None).
Proof. intros E. unfold HistoryManager.undo. by rewrite E. Qed.

Lemma redo_empty (h : hm) (cur : Snapshot) :
  redoStack h = [] -> redo h cur = (h, Return None).
Proof. intros E. unfold HistoryManager.redo. by rewrite E. Qed.

Lemma undo_snoc (h : hm) (cur : Snapshot) (older : list JsonText) (top : JsonText) :
  undoStack h = older ++ [top] ->
  undo h cur = (mk older (redoStack h ++ [stringify cur]) (maxHistorySize h),
                JSON_parse parse (Some top)).
Proof.
  intros E. unfold HistoryManager.undo. rewrite E, pop_snoc.
  case_decide as Hlen; [|done].
  rewrite length_app in Hlen. simpl in Hlen. lia.
Qed.

Lemma redo_snoc (h : hm) (cur : Snapshot) (older : list JsonText) (top : JsonText) :
  redoStack h = older ++ [top] ->
  redo h cur = (mk (undoStack h ++ [stringify cur]) older (maxHistorySize h),
                JSON_parse parse (Some top)).
Proof.
  intros E. unfold HistoryManager.redo. rewrite E, pop_snoc.
  case_decide as Hlen; [|done].
  rewrite length_app in Hlen. simpl in Hlen. lia.
Qed.

Lemma redo_after_pushState (h : hm) (s cur : Snapshot) :
  redo (pushState h s) cur = (pushState h s, Return None).
Proof. apply redo_empty. apply pushState_stacks. Qed.

(** *** The capacity bound *)

Local Abbreviation bounded := (@Observe.bounded JsonText).

Lemma new_bounded (m : option nat) : bounded (new m).
Proof. unfold Observe.bounded. simpl. lia. Qed.

Lemma pushState_bounded (h : hm) (s : Snapshot) :
  length (undoStack h) <= maxHistorySize h -> bounded (pushState h s).
Proof.
  intros Hu. unfold Observe.bounded.
  destruct (pushState_stacks h s) as (-> & -> & ->).
  simpl. case_decide as Hlen; rewrite length_app in Hlen; simpl in Hlen.
  - destruct (undoStack h); simpl in *; [lia|]. rewrite length_app. simpl. lia.
  - rewrite length_app. simpl. lia.
Qed.

Lemma undo_total_length (h : hm) (cur : Snapshot) :
  length (undoStack (fst (undo h cur))) + length (redoStack (fst (undo h cur)))
  = length (undoStack h) + length (redoStack h) /\
  maxHistorySize (fst (undo h cur)) = maxHistorySize h.
Proof.
  destruct (snoc_cases (undoStack h)) as [E|(older & top & E)].
  - by rewrite (undo_empty h cur E).
  - rewrite (undo_snoc h cur older top E). simpl. rewrite E, !length_app. simpl.
    split; [lia|done].
Qed.

Lemma redo_total_length (h : hm) (cur : Snapshot) :
  length (undoStack (fst (redo h cur))) + length (redoStack (fst (redo h cur)))
  = length (undoStack h) + length (redoStack h) /\
  maxHistorySize (fst (redo h cur)) = maxHistorySize h.
Proof.
  destruct (snoc_cases (redoStack h)) as [E|(older & top & E)].
  - by rewrite (redo_empty h cur E).
  - rewrite (redo_snoc h cur older top E). simpl. rewrite E, !length_app. simpl.
    split; [lia|done].
Qed.

Lemma perform_bounded (h : hm) (c : call (Snapshot := Snapshot)) :
  bounded h -> bounded (perform h c).
Proof.
  intros Hb. destruct c as [s|cur|cur|]; simpl.
  - apply pushState_bounded. unfold Observe.bounded in Hb. lia.
  - unfold Observe.bounded in *. destruct (undo_total_length h cur) as [-> ->]. done.
  - unfold Observe.bounded in *. destruct (redo_total_length h cur) as [-> ->]. done.
  - unfold Observe.bounded. simpl. lia.
Qed.

Lemma perform_maxHistorySize (h : hm) (c : call (Snapshot := Snapshot)) :
  maxHistorySize (perform h c) = maxHistorySize h.
Proof.
  destruct c as [s|cur|cur|]; simpl.
  - apply pushState_stacks.
  - apply undo_total_length.
  - apply redo_total_length.
  - reflexivity.
Qed.

Lemma performAll_bounded (h : hm) (calls : list (call (Snapshot := Snapshot))) :
  bounded h ->
  bounded (performAll h calls) /\
  maxHistorySize (performAll h calls) = maxHistorySize h.
Proof.
  revert h. induction calls as [|c calls IH]; intros h Hb; [done|].
  unfold HistoryManager.performAll in *. simpl.
  destruct (IH (perform h c) (perform_bounded h c Hb)) as [IHb IHm].
  split; [done|]. by rewrite IHm, perform_maxHistorySize.
Qed.

(** *** Sequences of checkpoints *)

Lemma lastN_snoc_full {A : Type} (n : nat) (l : list A) (x : A) :
  n <= length l ->
  tail (Observe.lastN n l ++ [x]) = Observe.lastN n (l ++ [x]).
Proof.
  intros Hn. unfold Observe.lastN. rewrite length_app. simpl.
  replace (length l + 1 - n) with (S (length l - n)) by lia.
  rewrite <- (drop_app_le l [x]) by lia.
  generalize (length l - n) (l ++ [x]). clear.
  intros k l. revert k. induction l as [|y l IH]; intros [|k]; simpl; done.
Qed.

Lemma lastN_short {A : Type} (n : nat) (l : list A) :
  length l <= n -> Observe.lastN n l = l.
Proof.
  intros Hn. unfold Observe.lastN.
  replace (length l - n) with 0 by lia. apply drop_0.
Qed.

Lemma length_lastN {A : Type} (n : nat) (l : list A) :
  length (Observe.lastN n l) = min n (length l).
Proof. unfold Observe.lastN. rewrite length_drop. lia. Qed.

(** After any number of checkpoints the undo stack holds the last
    [maxHistorySize] entries of what was there followed by the pushed
    snapshots. *)
Lemma pushState_all (h : hm) (snaps : list Snapshot) :
  length (undoStack h) <= maxHistorySize h ->
  undoStack (foldl pushState h snaps)
  = Observe.lastN (maxHistorySize h) (undoStack h ++ (stringify <$> snaps)) /\
  maxHistorySize (foldl pushState h snaps) = maxHistorySize h.
Proof.
  intros Hu. induction snaps as [|s snaps [IHu IHm]] using rev_ind.
  - simpl. rewrite app_nil_r. by rewrite lastN_short.
  - rewrite foldl_app. simpl.
    destruct (pushState_stacks (foldl pushState h snaps) s) as (Eu & _ & Em).
    rewrite Em, IHm. split; [|done].
    rewrite Eu, IHm, IHu. clear Eu. rewrite fmap_app, app_assoc. simpl.
    set (l := undoStack h ++ (stringify <$> snaps)).
    rewrite length_app, length_lastN. simpl.
    case_decide as Hfull.
    + apply lastN_snoc_full. lia.
    + rewrite !lastN_short; [done | rewrite length_app; simpl; lia | lia].
Qed.

Lemma lastN_app_cover {A : Type} (n : nat) (l k : list A) :
  n <= length k -> Observe.lastN n (l ++ k) = Observe.lastN n k.
Proof.
  intros Hn. unfold Observe.lastN. rewrite length_app.
  rewrite drop_app_ge by lia. f_equal. lia.
Qed.

(** *** Consecutive undo calls *)

Lemma undoEach_cons (h : hm) (cur : Snapshot) (rest : list Snapshot) :
  undoEach h (cur :: rest)
  = (fst (undoEach (fst (undo h cur)) rest),
     snd (undo h cur) :: snd (undoEach (fst (undo h cur)) rest)).
Proof.
  simpl. destruct (undo h cur) as [h1 r]. simpl.
  by destruct (HistoryManager.undoEach stringify parse h1 rest).
Qed.

Lemma undoEach_successes (h : hm) (curs : list Snapshot) :
  length (List.filter Observe.succeeded (snd (undoEach h curs))) <= length (undoStack h).
Proof.
  revert h. induction curs as [|cur rest IH]; intros h.
  - simpl. lia.
  - rewrite undoEach_cons. cbn [snd List.filter].
    destruct (snoc_cases (undoStack h)) as [E|(older & top & E)].
    + rewrite (undo_empty h cur E). simpl. apply IH.
    + rewrite (undo_snoc h cur older top E). cbn [fst snd].
      specialize (IH (mk older (redoStack h ++ [stringify cur]) (maxHistorySize h))).
      simpl in IH. rewrite E, length_app. simpl.
      destruct (Observe.succeeded _); simpl; lia.
Qed.

Lemma undoEach_results (h : hm) (l curs : list Snapshot) :
  (forall s, parse (stringify s) = Some s) ->
  undoStack h = stringify <$> l ->
  snd (undoEach h curs)
  = ((fun s => Return (Some s)) <$> take (length curs) (reverse l))
    ++ replicate (length curs - length l) (Return None).
Proof.
  intros Hrt. revert h l. induction curs as [|cur rest IH]; intros h l E.
  - reflexivity.
  - rewrite undoEach_cons. cbn [snd].
    destruct (snoc_cases l) as [->|(l' & x & ->)].
    + rewrite (undo_empty h cur E). cbn [fst snd].
      rewrite (IH h [] E). change (reverse (@nil Snapshot)) with (@nil Snapshot).
      rewrite !take_nil. cbn [length]. rewrite !Nat.sub_0_r. reflexivity.
    + rewrite fmap_app in E. simpl in E.
      rewrite (undo_snoc h cur _ _ E). cbn [fst snd].
      rewrite (IH (mk (stringify <$> l') (redoStack h ++ [stringify cur])
                      (maxHistorySize h)) l' eq_refl).
      rewrite reverse_snoc, length_app. simpl.
      unfold JSON_parse. simpl. rewrite Hrt.
      do 2 f_equal. f_equal. lia.
Qed.

(** *** No exception on a manager reached from a fresh one *)

Local Abbreviation parseable := (Observe.parseable parse).

Lemma perform_parseable (h : hm) (c : call (Snapshot := Snapshot)) :
  (forall s, is_Some (parse (stringify s))) ->
  parseable h -> parseable (perform h c).
Proof.
  intros Hp [Hu Hr]. destruct c as [s|cur|cur|]; simpl; [| | |split; constructor].
  - unfold Observe.parseable. destruct (pushState_stacks h s) as (-> & -> & _).
    split; [|constructor].
    assert (Forall (fun j => is_Some (parse j)) (undoStack h ++ [stringify s]))
      by (apply Forall_app; split; [done | by repeat constructor]).
    case_decide; [by apply Forall_tail | done].
  - destruct (snoc_cases (undoStack h)) as [E|(older & top & E)].
    + by rewrite (undo_empty h cur E).
    + rewrite (undo_snoc h cur older top E). rewrite E in Hu.
      apply Forall_app in Hu as [Hu _]. split; simpl; [done|].
      apply Forall_app; split; [done | by repeat constructor].
  - destruct (snoc_cases (redoStack h)) as [E|(older & top & E)].
    + by rewrite (redo_empty h cur E).
    + rewrite (redo_snoc h cur older top E). rewrite E in Hr.
      apply Forall_app in Hr as [Hr _]. split; simpl; [|done].
      apply Forall_app; split; [done | by repeat constructor].
Qed.

Lemma performAll_parseable (m : option nat) (calls : list (call (Snapshot := Snapshot))) :
  (forall s, is_Some (parse (stringify s))) ->
  parseable (performAll (new m) calls).
Proof.
  intros Hp. unfold HistoryManager.performAll.
  induction calls as [|c calls IH] using rev_ind.
  - split; constructor.
  - rewrite foldl_app. simpl. by apply perform_parseable.
Qed.

Lemma parseable_no_throw (h : hm) (cur : Snapshot) :
  parseable h ->
  snd (undo h cur) <> Throw /\ snd (redo h cur) <> Throw.
Proof.
  intros [Hu Hr]. split.
  - destruct (snoc_cases (undoStack h)) as [E|(older & top & E)].
    + by rewrite (undo_empty h cur E).
    + rewrite (undo_snoc h cur older top E). rewrite E in Hu.
      apply Forall_app in Hu as [_ Htop]. apply Forall_singleton in Htop as [s Hs].
      unfold JSON_parse. simpl. by rewrite Hs.
  - destruct (snoc_cases (redoStack h)) as [E|(older & top & E)].
    + by rewrite (redo_empty h cur E).
    + rewrite (redo_snoc h cur older top E). rewrite E in Hr.
      apply Forall_app in Hr as [_ Htop]. apply Forall_singleton in Htop as [s Hs].
      unfold JSON_parse. simpl. by rewrite Hs.
Qed.

(** C4: [pushState] appends the snapshot to the undo stack, empties the
    redo stack (a [redo] right after it returns null and changes nothing),
    and drops the oldest entry when the undo stack has grown past
    [maxHistorySize].  Hence on a manager reached from a fresh one, after
    more checkpoints than the capacity the undo stack holds exactly the
    most recent [maxHistorySize] snapshots, at most [maxHistorySize]
    consecutive undo calls return a snapshot, and, when parsing undoes
    stringifying, they return these snapshots newest first and null from
    then on. *)
Theorem pushState_checkpoint :
  (forall (h : hm) (s : Snapshot),
      undoStack (pushState h s)
      = (if decide (maxHistorySize h < length (undoStack h ++ [stringify s]))
         then tail (undoStack h ++ [stringify s])
         else undoStack h ++ [stringify s]) /\
      redoStack (pushState h s) = [] /\
      maxHistorySize (pushState h s) = maxHistorySize h) /\
  (forall (h : hm) (s cur : Snapshot),
      redo (pushState h s) cur = (pushState h s, Return None)) /\
  (forall (m : option nat) (calls : list call) (snaps : list Snapshot),
      let h0 := performAll (new m) calls in
      let capacity := default 100 m in
      let h := foldl pushState h0 snaps in
      capacity < length snaps ->
      undoStack h = (stringify <$> Observe.lastN capacity snaps) /\
      length (undoStack h) = capacity /\
      redoStack h = [] /\
      (forall curs : list Snapshot,
          length (List.filter Observe.succeeded (snd (undoEach h curs))) <= capacity) /\
      ((forall s, parse (stringify s) = Some s) ->
       forall curs : list Snapshot,
         snd (undoEach h curs)
         = ((fun s => Return (Some s))
              <$> take (length curs) (reverse (Observe.lastN capacity snaps)))
           ++ replicate (length curs - capacity) (Return None))).
Proof.
  split; [exact pushState_stacks|]. split; [exact redo_after_pushState|].
  intros m calls snaps h0 capacity h Hn.
  destruct (performAll_bounded (new m) calls (new_bounded m)) as [Hb Hm].
  fold h0 in Hb, Hm. simpl in Hm. fold capacity in Hm.
  assert (Hu0 : length (undoStack h0) <= maxHistorySize h0)
    by (unfold Observe.bounded in Hb; lia).
  destruct (pushState_all h0 snaps Hu0) as [Eu Em]. fold h in Eu, Em.
  assert (Eu' : undoStack h = stringify <$> Observe.lastN capacity snaps).
  { rewrite Eu, Hm. rewrite lastN_app_cover by (rewrite length_fmap; lia).
    unfold Observe.lastN. by rewrite fmap_drop, length_fmap. }
  assert (Hlen : length (undoStack h) = capacity).
  { rewrite Eu', length_fmap, length_lastN. lia. }
  split; [exact Eu'|]. split; [exact Hlen|]. split; [|split].
  - destruct snaps as [|s snaps _] using rev_ind; [simpl in Hn; lia|].
    subst h. rewrite foldl_app. simpl. apply pushState_stacks.
  - intros curs. rewrite <- Hlen. apply undoEach_successes.
  - intros Hrt curs. rewrite (undoEach_results h _ curs Hrt Eu').
    by rewrite length_lastN, Nat.min_l by lia.
Qed.

(** C5: [undo] on an empty undo stack and [redo] on an empty redo stack
    return null and leave both stacks as they are.  On a non-empty stack
    [undo] pushes the current state onto the redo stack and pops the
    newest undo entry, whose parse is the result; [redo] is symmetric.  A
    snapshot that was stringified onto the stack is what comes back, and
    on a manager reached from a fresh one neither call throws. *)
Theorem undo_redo_exhaustion :
  (forall (h : hm) (cur : Snapshot),
      undoStack h = [] -> undo h cur = (h, Return None)) /\
  (forall (h : hm) (cur : Snapshot),
      redoStack h = [] -> redo h cur = (h, Return None)) /\
  (forall (h : hm) (cur : Snapshot) (older : list JsonText) (top : JsonText),
      undoStack h = older ++ [top] ->
      undo h cur = (mk older (redoStack h ++ [stringify cur]) (maxHistorySize h),
                    JSON_parse parse (Some top))) /\
  (forall (h : hm) (cur : Snapshot) (older : list JsonText) (top : JsonText),
      redoStack h = older ++ [top] ->
      redo h cur = (mk (undoStack h ++ [stringify cur]) older (maxHistorySize h),
                    JSON_parse parse (Some top))) /\
  ((forall s, parse (stringify s) = Some s) ->
   (forall (h : hm) (cur s : Snapshot) (older : list JsonText),
       undoStack h = older ++ [stringify s] -> snd (undo h cur) = Return (Some s)) /\
   (forall (h : hm) (cur s : Snapshot) (older : list JsonText),
       redoStack h = older ++ [stringify s] -> snd (redo h cur) = Return (Some s)) /\
   (forall (m : option nat) (calls : list call) (cur : Snapshot),
       snd (undo (performAll (new m) calls) cur) <> Throw /\
       snd (redo (performAll (new m) calls) cur) <> Throw)).
Proof.
  split; [exact undo_empty|]. split; [exact redo_empty|].
  split; [exact undo_snoc|]. split; [exact redo_snoc|].
  intros Hrt. split; [|split].
  - intros h cur s older E. rewrite (undo_snoc h cur older _ E).
    unfold JSON_parse. simpl. by rewrite Hrt.
  - intros h cur s older E. rewrite (redo_snoc h cur older _ E).
    unfold JSON_parse. simpl. by rewrite Hrt.
  - intros m calls cur. apply parseable_no_throw, performAll_parseable.
    intros s. rewrite Hrt. by eexists.
Qed.

(** C9: on a manager reached from a freshly constructed one by any
    sequence of [pushState], [undo] and [redo] calls, neither stack is
    longer than [maxHistorySize]: the two lengths together never exceed
    it.  [pushState] establishes this from a bounded undo stack, and
    [undo] and [redo], which push without a capacity check, keep the sum
    of the two lengths. *)
Theorem stacks_bounded :
  (forall (m : option nat) (calls : list call),
      let h := performAll (new m) calls in
      maxHistorySize h = default 100 m /\
      length (undoStack h) <= maxHistorySize h /\
      length (redoStack h) <= maxHistorySize h /\
      length (undoStack h) + length (redoStack h) <= maxHistorySize h) /\
  (forall (h : hm) (s : Snapshot),
      length (undoStack h) <= maxHistorySize h ->
      length (undoStack (pushState h s)) + length (redoStack (pushState h s))
      <= maxHistorySize (pushState h s)) /\
  (forall (h : hm) (cur : Snapshot),
      length (undoStack (fst (undo h cur))) + length (redoStack (fst (undo h cur)))
      = length (undoStack h) + length (redoStack h)) /\
  (forall (h : hm) (cur : Snapshot),
      length (undoStack (fst (redo h cur))) + length (redoStack (fst (redo h cur)))
      = length (undoStack h) + length (redoStack h)).
Proof.
  split; [|split; [|split]].
  - intros m calls h.
    destruct (performAll_bounded (new m) calls (new_bounded m)) as [Hb Hm].
    fold h in Hb, Hm. unfold Observe.bounded in Hb. simpl in Hm.
    split; [done|]. lia.
  - intros h s Hu. apply (pushState_bounded h s Hu).
  - intros h cur. apply undo_total_length.
  - intros h cur. apply redo_total_length.
Qed.

End History.

(** Instances: snapshots are numbered states, the JSON text of a snapshot
    is its decimal numeral, which is parsed back digit by digit. *)
Lemma readNumeral_numeral (n : N) :
  Observe.readNumeral (Observe.numeral n) = Some n.
Proof.
  unfold Observe.readNumeral, Observe.numeral.
  rewrite NilEmpty.usu. simpl. by rewrite DecimalN.Unsigned.of_to.
Qed.

Lemma pushState_checkpoint_witness :
  let h := foldl (HistoryManager.pushState Observe.numeral)
                 (HistoryManager.new (Some 2)) [10; 11; 12; 13; 14]%N in
  HistoryManager.undoStack h = ["13"; "14"] /\
  HistoryManager.redoStack h = [] /\
  snd (HistoryManager.undoEach Observe.numeral Observe.readNumeral h [20; 21; 22; 23]%N)
  = [HistoryManager.Return (Some 14%N); HistoryManager.Return (Some 13%N);
     HistoryManager.Return None; HistoryManager.Return None].
Proof.
  destruct (pushState_checkpoint Observe.numeral Observe.readNumeral)
    as (_ & _ & Hmany).
  destruct (Hmany (Some 2) [] [10; 11; 12; 13; 14]%N) as (Hu & _ & Hr & _ & Hres).
  - simpl. lia.
  - split; [exact Hu|]. split; [exact Hr|].
    apply (Hres readNumeral_numeral [20; 21; 22; 23]%N).
Defined.

Lemma undo_redo_exhaustion_witness :
  HistoryManager.undo Observe.numeral Observe.readNumeral (HistoryManager.new (Some 3)) 7%N
  = (HistoryManager.new (Some 3), HistoryManager.Return None) /\
  HistoryManager.redo Observe.numeral Observe.readNumeral (HistoryManager.new (Some 3)) 7%N
  = (HistoryManager.new (Some 3), HistoryManager.Return None) /\
  HistoryManager.undo Observe.numeral Observe.readNumeral
    (HistoryManager.mk ["1"; "2"] [] 3) 7%N
  = (HistoryManager.mk ["1"] ["7"] 3, HistoryManager.Return (Some 2%N)) /\
  HistoryManager.redo Observe.numeral Observe.readNumeral
    (HistoryManager.mk ["1"] ["7"] 3) 2%N
  = (HistoryManager.mk ["1"; "2"] [] 3, HistoryManager.Return (Some 7%N)) /\
  snd (HistoryManager.undo Observe.numeral Observe.readNumeral
         (HistoryManager.mk ["1"; "2"] [] 3) 7%N)
  = HistoryManager.Return (Some 2%N) /\
  snd (HistoryManager.redo Observe.numeral Observe.readNumeral
         (HistoryManager.performAll Observe.numeral Observe.readNumeral
            (HistoryManager.new None)
            [HistoryManager.PushState 1%N; HistoryManager.Undo 2%N;
             HistoryManager.Undo 3%N; HistoryManager.Redo 4%N]) 5%N)
  <> HistoryManager.Throw.
Proof.
  destruct (undo_redo_exhaustion Observe.numeral Observe.readNumeral)
    as (Hundo0 & Hredo0 & Hundo & Hredo & Hround).
  destruct (Hround readNumeral_numeral) as (Hback & _ & Hsafe).
  split; [apply Hundo0; reflexivity|].
  split; [apply Hredo0; reflexivity|].
  split; [exact (Hundo (HistoryManager.mk ["1"; "2"] [] 3) 7%N ["1"] "2" eq_refl)|].
  split; [exact (Hredo (HistoryManager.mk ["1"] ["7"] 3) 2%N [] "7" eq_refl)|].
  split; [exact (Hback (HistoryManager.mk ["1"; "2"] [] 3) 7%N 2%N ["1"] eq_refl)|].
  apply Hsafe.
Defined.

Lemma stacks_bounded_witness :
  length (HistoryManager.undoStack
            (HistoryManager.pushState Observe.numeral (HistoryManager.mk ["1"; "2"] [] 2) 3%N))
  + length (HistoryManager.redoStack
              (HistoryManager.pushState Observe.numeral (HistoryManager.mk ["1"; "2"] [] 2) 3%N))
  <= 2 /\
  length (HistoryManager.redoStack
            (HistoryManager.performAll Observe.numeral Observe.readNumeral
               (HistoryManager.new (Some 2))
               [HistoryManager.PushState 1%N; HistoryManager.PushState 2%N;
                HistoryManager.PushState 3%N; HistoryManager.Undo 4%N;
                HistoryManager.Undo 5%N; HistoryManager.Undo 6%N]))
  <= 2.
Proof.
  destruct (stacks_bounded Observe.numeral Observe.readNumeral) as (Hrun & Hpush & _ & _).
  split.
  - apply (Hpush (HistoryManager.mk ["1"; "2"] [] 2) 3%N). simpl. lia.
  - destruct (Hrun (Some 2)
                [HistoryManager.PushState 1%N; HistoryManager.PushState 2%N;
                 HistoryManager.PushState 3%N; HistoryManager.Undo 4%N;
                 HistoryManager.Undo 5%N; HistoryManager.Undo 6%N])
      as (Hmax & _ & Hredo & _).
    rewrite Hmax in Hredo. exact Hredo.
Defined.

(** ** Structural mutations of the state manager *)

Section StateManagerRows.

Import BoardStateManager.

Local Abbreviation wellIndexed := Observe.wellIndexed.

Lemma removeRow_valid (st : t) (p : Z) :
  (0 <= p < JS.length (rows st))%Z ->
  removeRow st p
  = (mk (year st) (weekNumber st) (columns st) (reindex (delete (Z.to_nat p) (rows st))),
     true).
Proof.
  intros Hp. unfold removeRow. case_decide; [reflexivity | lia].
Qed.

Lemma removeRow_invalid (st : t) (p : Z) :
  ~ (0 <= p < JS.length (rows st))%Z -> removeRow st p = (st, false).
Proof.
  intros Hp. unfold removeRow. case_decide; [lia | reflexivity].
Qed.

Lemma moveRowUp_invalid (st : t) (p : Z) :
  ~ (0 < p < JS.length (rows st))%Z -> moveRowUp st p = (st, false).
Proof.
  intros Hp. unfold moveRowUp. case_decide; [lia | reflexivity].
Qed.

Lemma moveRowDown_invalid (st : t) (p : Z) :
  ~ (0 <= p < JS.length (rows st) - 1)%Z -> moveRowDown st p = (st, false).
Proof.
  intros Hp. unfold moveRowDown. case_decide; [lia | reflexivity].
Qed.

(** Within the guards of [moveRowUp] and [moveRowDown] both reads of
    [_swapRows] are defined. *)
Lemma _swapRows_defined (st : t) (a b : Z) :
  (0 <= a < JS.length (rows st))%Z ->
  (0 <= b < JS.length (rows st))%Z ->
  exists ra rb,
    JS.at_index (rows st) a = Some ra /\ JS.at_index (rows st) b = Some rb /\
    _swapRows st a b
    = Some (mk (year st) (weekNumber st) (columns st)
               (reindex (<[Z.to_nat b := ra]> (<[Z.to_nat a := rb]> (rows st))))).
Proof.
  intros Ha Hb.
  destruct (proj2 (at_index_is_Some (rows st) a) Ha) as [ra Hra].
  destruct (proj2 (at_index_is_Some (rows st) b) Hb) as [rb Hrb].
  exists ra, rb. split; [done|]. split; [done|].
  unfold _swapRows. rewrite Hra, Hrb. reflexivity.
Qed.

Lemma moveRowUp_valid (st : t) (p : Z) :
  (0 < p < JS.length (rows st))%Z ->
  exists r above,
    JS.at_index (rows st) p = Some r /\ JS.at_index (rows st) (p - 1) = Some above /\
    moveRowUp st p
    = (mk (year st) (weekNumber st) (columns st)
          (reindex (<[Z.to_nat (p - 1) := r]> (<[Z.to_nat p := above]> (rows st)))),
       true).
Proof.
  intros Hp.
  destruct (_swapRows_defined st p (p - 1)) as (r & above & Hr & Ha & E); [lia | lia |].
  exists r, above. split; [done|]. split; [done|].
  unfold moveRowUp. case_decide; [|lia]. by rewrite E.
Qed.

Lemma moveRowDown_valid (st : t) (p : Z) :
  (0 <= p < JS.length (rows st) - 1)%Z ->
  exists r below,
    JS.at_index (rows st) p = Some r /\ JS.at_index (rows st) (p + 1) = Some below /\
    moveRowDown st p
    = (mk (year st) (weekNumber st) (columns st)
          (reindex (<[Z.to_nat (p + 1) := r]> (<[Z.to_nat p := below]> (rows st)))),
       true).
Proof.
  intros Hp.
  destruct (_swapRows_defined st p (p + 1)) as (r & below & Hr & Hb & E); [lia | lia |].
  exists r, below. split; [done|]. split; [done|].
  unfold moveRowDown. case_decide; [|lia]. by rewrite E.
Qed.

Lemma setColumnRequiredWorkers_valid (st : t) (c count : Z) (col : column) :
  JS.at_index (columns st) c = Some col ->
  (count > 0)%Z ->
  setColumnRequiredWorkers st c count
  = mk (year st) (weekNumber st)
       (<[Z.to_nat c := mkColumn (colIndex col) count]> (columns st)) (rows st).
Proof.
  intros Hcol Hcount. unfold setColumnRequiredWorkers. rewrite Hcol.
  case_decide; [reflexivity | lia].
Qed.

Lemma setColumnRequiredWorkers_invalid (st : t) (c count : Z) :
  JS.at_index (columns st) c = None \/ (count <= 0)%Z ->
  setColumnRequiredWorkers st c count = st.
Proof.
  intros H. unfold setColumnRequiredWorkers.
  destruct (JS.at_index (columns st) c) as [col|]; [|done].
  destruct H as [H|H]; [done|]. case_decide; [lia | reflexivity].
Qed.

Lemma setRowHeader_invalid (st : t) (p : Z) (h : string) :
  ~ (0 <= p < JS.length (rows st))%Z -> setRowHeader st p h = st.
Proof.
  intros Hp. unfold setRowHeader.
  destruct (JS.at_index (rows st) p) eqn:E; [|done].
  exfalso. apply Hp. apply at_index_is_Some. by eexists.
Qed.

Lemma setRowIncluded_invalid (st : t) (p : Z) (included : bool) :
  ~ (0 <= p < JS.length (rows st))%Z -> setRowIncluded st p included = st.
Proof.
  intros Hp. unfold setRowIncluded.
  destruct (JS.at_index (rows st) p) eqn:E; [|done].
  exfalso. apply Hp. apply at_index_is_Some. by eexists.
Qed.

Lemma toggleTileState_off_board (st : t) (ri ci : Z) :
  ~ (0 <= ri < JS.length (rows st))%Z
  \/ (forall r, JS.at_index (rows st) ri = Some r ->
                ~ (0 <= ci < JS.length (tiles r))%Z) ->
  toggleTileState st ri ci = (st, None).
Proof.
  intros H. apply toggleTileState_invalid. intros r Hr.
  destruct H as [H|H].
  - exfalso. apply H. apply at_index_is_Some. by eexists.
  - apply at_index_None. specialize (H r Hr). lia.
Qed.

(** *** What removal keeps *)

Lemma reindex_lookup (rs : list row) (i : nat) :
  reindex rs !! i
  = (fun r => mkRow (Z.of_nat i) (header r) (includedInCalculations r)
                    ((fun tl => mkTile (Z.of_nat i) (columnIndex tl) (state tl))
                       <$> tiles r))
      <$> rs !! i.
Proof. unfold reindex. by rewrite list_lookup_imap. Qed.

Lemma reindex_length (rs : list row) : length (reindex rs) = length rs.
Proof. unfold reindex. by rewrite length_imap. Qed.

Lemma reindex_content (rs : list row) :
  Observe.content <$> reindex rs = Observe.content <$> rs.
Proof.
  apply list_eq. intros i. rewrite !list_lookup_fmap, reindex_lookup.
  destruct (rs !! i) as [r|]; [|done]. simpl. f_equal.
  unfold Observe.content. simpl. f_equal.
  rewrite <- list_fmap_compose. by apply list_fmap_ext.
Qed.

End StateManagerRows.

(** ** Structural mutations of the class model *)

Section BoardRows.

Lemma Board_removeRow_valid (b : Board.t) (p : Z) :
  (0 <= p < JS.length (Board.rows b))%Z ->
  Board.removeRow b p
  = (Board.mk (Board.columns b) (Board.reindex (delete (Z.to_nat p) (Board.rows b))), true).
Proof.
  intros Hp. unfold Board.removeRow. case_decide; [reflexivity | lia].
Qed.

Lemma Board_removeRow_invalid (b : Board.t) (p : Z) :
  ~ (0 <= p < JS.length (Board.rows b))%Z -> Board.removeRow b p = (b, false).
Proof.
  intros Hp. unfold Board.removeRow. case_decide; [lia | reflexivity].
Qed.

Lemma Board_reindex_lookup (rs : list Row.t) (i : nat) :
  Board.reindex rs !! i = (fun r => Row.updateIndex r (Z.of_nat i)) <$> rs !! i.
Proof. unfold Board.reindex. by rewrite list_lookup_imap. Qed.

Lemma Board_reindex_length (rs : list Row.t) : length (Board.reindex rs) = length rs.
Proof. unfold Board.reindex. by rewrite length_imap. Qed.

Lemma Board_reindex_content (rs : list Row.t) :
  Observe.rowContent <$> Board.reindex rs = Observe.rowContent <$> rs.
Proof.
  apply list_eq. intros i. rewrite !list_lookup_fmap, Board_reindex_lookup.
  destruct (rs !! i) as [r|]; [|done]. simpl. f_equal.
  unfold Observe.rowContent. simpl. f_equal.
  rewrite <- list_fmap_compose. by apply list_fmap_ext.
Qed.

Lemma setRequiredWorkers_rejected (col : Column.t) (count : Z) :
  (count <= 0)%Z -> Column.setRequiredWorkers col count = col.
Proof.
  intros Hc. unfold Column.setRequiredWorkers. case_decide; [lia | reflexivity].
Qed.

End BoardRows.

(** C6: a positional mutation with an invalid index changes nothing and
    reports failure.  [removeRow p] returns true when [0 <= p < rowCount]
    and then removes exactly the row at [p] (one row fewer, the others in
    order with their label, flag and tile states), and otherwise returns
    false on an unchanged board, in the state manager and in the class
    model; [moveRowUp] on the first row, [moveRowDown] on the last row and
    both on any position outside their range return false on an unchanged
    board; [setRowHeader], [setRowIncluded] and [toggleTileState] off the
    board change nothing; [setColumnRequiredWorkers] writes the count when
    the column exists and the count is positive and leaves the state as it
    is otherwise. *)
Theorem positional_mutations_guarded :
  (forall (st : BoardStateManager.t) (p : Z),
      (0 <= p < JS.length (BoardStateManager.rows st))%Z ->
      let st' := fst (BoardStateManager.removeRow st p) in
      snd (BoardStateManager.removeRow st p) = true /\
      BoardStateManager.columns st' = BoardStateManager.columns st /\
      S (length (BoardStateManager.rows st')) = length (BoardStateManager.rows st) /\
      Observe.content <$> BoardStateManager.rows st'
      = Observe.content <$> (take (Z.to_nat p) (BoardStateManager.rows st)
                             ++ drop (S (Z.to_nat p)) (BoardStateManager.rows st))) /\
  (forall (st : BoardStateManager.t) (p : Z),
      ~ (0 <= p < JS.length (BoardStateManager.rows st))%Z ->
      BoardStateManager.removeRow st p = (st, false)) /\
  (forall (b : Board.t) (p : Z),
      (0 <= p < JS.length (Board.rows b))%Z ->
      let b' := fst (Board.removeRow b p) in
      snd (Board.removeRow b p) = true /\
      Board.columns b' = Board.columns b /\
      S (length (Board.rows b')) = length (Board.rows b) /\
      Observe.rowContent <$> Board.rows b'
      = Observe.rowContent <$> (take (Z.to_nat p) (Board.rows b)
                                ++ drop (S (Z.to_nat p)) (Board.rows b))) /\
  (forall (b : Board.t) (p : Z),
      ~ (0 <= p < JS.length (Board.rows b))%Z ->
      Board.removeRow b p = (b, false)) /\
  (forall (st : BoardStateManager.t) (p : Z),
      (p = 0%Z \/ ~ (0 < p < JS.length (BoardStateManager.rows st))%Z) ->
      BoardStateManager.moveRowUp st p = (st, false)) /\
  (forall (st : BoardStateManager.t) (p : Z),
      (p = (JS.length (BoardStateManager.rows st) - 1)%Z
       \/ ~ (0 <= p < JS.length (BoardStateManager.rows st) - 1)%Z) ->
      BoardStateManager.moveRowDown st p = (st, false)) /\
  (forall (st : BoardStateManager.t) (p : Z) (h : string) (included : bool),
      ~ (0 <= p < JS.length (BoardStateManager.rows st))%Z ->
      BoardStateManager.setRowHeader st p h = st /\
      BoardStateManager.setRowIncluded st p included = st /\
      forall ci, BoardStateManager.toggleTileState st p ci = (st, None)) /\
  (forall (st : BoardStateManager.t) (c count : Z) (col : BoardStateManager.column),
      JS.at_index (BoardStateManager.columns st) c = Some col ->
      (count > 0)%Z ->
      BoardStateManager.setColumnRequiredWorkers st c count
      = BoardStateManager.mk (BoardStateManager.year st) (BoardStateManager.weekNumber st)
          (<[Z.to_nat c := BoardStateManager.mkColumn (BoardStateManager.colIndex col) count]>
             (BoardStateManager.columns st))
          (BoardStateManager.rows st)) /\
  (forall (st : BoardStateManager.t) (c count : Z),
      (~ (0 <= c < JS.length (BoardStateManager.columns st))%Z \/ (count <= 0)%Z) ->
      BoardStateManager.setColumnRequiredWorkers st c count = st) /\
  (forall (col : Column.t) (count : Z),
      (count <= 0)%Z -> Column.setRequiredWorkers col count = col).
Proof.
  repeat apply conj.
  - intros st p Hp st'. subst st'. rewrite (removeRow_valid st p Hp). cbn [fst snd].
    cbn [BoardStateManager._reindexRows BoardStateManager.rows BoardStateManager.columns].
    split; [done|]. split; [done|].
    rewrite reindex_length, reindex_content, delete_take_drop. split; [|done].
    rewrite <- delete_take_drop, length_delete.
    + unfold JS.length in Hp. lia.
    + apply lookup_lt_is_Some. unfold JS.length in Hp. lia.
  - exact removeRow_invalid.
  - intros b p Hp b'. subst b'. rewrite (Board_removeRow_valid b p Hp). cbn [fst snd].
    cbn [Board.rows Board.columns].
    split; [done|]. split; [done|].
    rewrite Board_reindex_length, Board_reindex_content, delete_take_drop. split; [|done].
    rewrite <- delete_take_drop, length_delete.
    + unfold JS.length in Hp. lia.
    + apply lookup_lt_is_Some. unfold JS.length in Hp. lia.
  - exact Board_removeRow_invalid.
  - intros st p Hp. apply moveRowUp_invalid. lia.
  - intros st p Hp. apply moveRowDown_invalid. lia.
  - intros st p h included Hp. split; [by apply setRowHeader_invalid|].
    split; [by apply setRowIncluded_invalid|].
    intros ci. apply toggleTileState_off_board. by left.
  - exact setColumnRequiredWorkers_valid.
  - intros st c count [Hc|Hc]; apply setColumnRequiredWorkers_invalid; [left | by right].
    apply at_index_None. lia.
  - exact setRequiredWorkers_rejected.
Qed.

Lemma positional_mutations_guarded_witness :
  snd (BoardStateManager.removeRow (Observe.staffed 3 2) 1) = true /\
  S (length (BoardStateManager.rows (fst (BoardStateManager.removeRow (Observe.staffed 3 2) 1))))
  = 3 /\
  BoardStateManager.removeRow (Observe.staffed 3 2) 3 = (Observe.staffed 3 2, false) /\
  BoardStateManager.removeRow (Observe.staffed 3 2) (-1) = (Observe.staffed 3 2, false) /\
  snd (Board.removeRow (Observe.staffedBoard 3 2) 2) = true /\
  Board.removeRow (Observe.staffedBoard 3 2) 5 = (Observe.staffedBoard 3 2, false) /\
  BoardStateManager.moveRowUp (Observe.staffed 3 2) 0 = (Observe.staffed 3 2, false) /\
  BoardStateManager.moveRowDown (Observe.staffed 3 2) 2 = (Observe.staffed 3 2, false) /\
  BoardStateManager.setRowHeader (Observe.staffed 3 2) 3 "Ewa" = Observe.staffed 3 2 /\
  BoardStateManager.requiredWorkers
    <$> BoardStateManager.columns
          (BoardStateManager.setColumnRequiredWorkers (Observe.staffed 3 2) 4 5)
  = [2; 2; 2; 2; 5; 2; 2]%Z /\
  BoardStateManager.setColumnRequiredWorkers (Observe.staffed 3 2) 4 0 = Observe.staffed 3 2 /\
  BoardStateManager.setColumnRequiredWorkers (Observe.staffed 3 2) 7 5 = Observe.staffed 3 2 /\
  Column.setRequiredWorkers (Column.new 6 (Some 2%Z)) (-1) = Column.new 6 (Some 2%Z).
Proof.
  destruct positional_mutations_guarded
    as (Hrm & Hrm' & Hbrm & Hbrm' & Hup & Hdown & Hrow & Hcol & Hcol' & Hreq).
  assert (Hlen : JS.length (BoardStateManager.rows (Observe.staffed 3 2)) = 3%Z)
    by reflexivity.
  assert (Hblen : JS.length (Board.rows (Observe.staffedBoard 3 2)) = 3%Z)
    by reflexivity.
  assert (Hclen : JS.length (BoardStateManager.columns (Observe.staffed 3 2)) = 7%Z)
    by reflexivity.
  destruct (Hrm (Observe.staffed 3 2) 1%Z) as (Htrue & _ & Hless & _);
    [rewrite Hlen; lia|].
  destruct (Hbrm (Observe.staffedBoard 3 2) 2%Z) as (Hbtrue & _);
    [rewrite Hblen; lia|].
  split; [exact Htrue|]. split; [exact Hless|].
  split; [apply Hrm'; rewrite Hlen; lia|].
  split; [apply Hrm'; rewrite Hlen; lia|].
  split; [exact Hbtrue|].
  split; [apply Hbrm'; rewrite Hblen; lia|].
  split; [apply Hup; by left|].
  split; [apply Hdown; left; rewrite Hlen; lia|].
  split; [apply (Hrow (Observe.staffed 3 2) 3%Z "Ewa" true); rewrite Hlen; lia|].
  split.
  { rewrite (Hcol (Observe.staffed 3 2) 4%Z 5%Z (BoardStateManager.mkColumn 4 2));
      [reflexivity | reflexivity | lia]. }
  split; [apply Hcol'; right; lia|].
  split; [apply Hcol'; left; rewrite Hclen; lia|].
  apply Hreq. lia.
Defined.

(** ** Dense indexing is kept by the structural mutations *)

Section Dense.

Import BoardStateManager.

Local Abbreviation wellIndexed := Observe.wellIndexed.
Local Abbreviation weekColumns := (Z.of_nat <$> seq 0 7).

Lemma wellIndexed_week (rs : list row) (r : row) :
  wellIndexed rs -> r ∈ rs -> columnIndex <$> tiles r = weekColumns.
Proof.
  intros Hw [i Hi]%list_elem_of_lookup_1. by destruct (Hw i r Hi) as (_ & _ & ?).
Qed.

Lemma reindex_wellIndexed (rs : list row) :
  (forall r, r ∈ rs -> columnIndex <$> tiles r = weekColumns) ->
  wellIndexed (reindex rs).
Proof.
  intros Hweek i r' Hi. rewrite reindex_lookup in Hi.
  destruct (rs !! i) as [r|] eqn:E; simpl in Hi; [|done].
  injection Hi as <-. cbn [index tiles]. split; [done|]. split.
  - intros tl (tl0 & -> & _)%list_elem_of_fmap_1. done.
  - rewrite <- list_fmap_compose.
    rewrite <- (Hweek r (list_elem_of_lookup_2 _ _ _ E)).
    by apply list_fmap_ext.
Qed.

Lemma addRow_wellIndexed (st : t) (h : option string) :
  wellIndexed (rows st) -> wellIndexed (rows (fst (addRow st h))).
Proof.
  intros Hw i r Hi. cbn [addRow fst rows] in Hi. unfold JS.push in Hi.
  apply lookup_snoc_Some in Hi as [[_ Hi]|[-> <-]].
  - by apply Hw.
  - cbn [index tiles]. unfold JS.length. split; [done|]. split; [|reflexivity].
    intros tl Htl. simpl in Htl. rewrite !elem_of_cons, elem_of_nil in Htl.
    by destruct Htl as [->|[->|[->|[->|[->|[->|[->|[]]]]]]]].
Qed.

Lemma removeRow_wellIndexed (st : t) (p : Z) :
  wellIndexed (rows st) -> wellIndexed (rows (fst (removeRow st p))).
Proof.
  intros Hw. unfold removeRow. case_decide; [|done]. cbn [fst _reindexRows rows].
  apply reindex_wellIndexed. intros r Hr%list_elem_of_delete_inv.
  by apply (wellIndexed_week (rows st)).
Qed.

Lemma elem_of_swap (rs : list row) (a b : nat) (ra rb r : row) :
  rs !! a = Some ra -> rs !! b = Some rb ->
  r ∈ <[b := ra]> (<[a := rb]> rs) -> r ∈ rs.
Proof.
  intros Ha Hb [j Hj]%list_elem_of_lookup_1.
  apply list_lookup_insert_Some in Hj as [(-> & <- & _)|[_ Hj]].
  - by eapply list_elem_of_lookup_2.
  - apply list_lookup_insert_Some in Hj as [(-> & <- & _)|[_ Hj]];
      by eapply list_elem_of_lookup_2.
Qed.

Lemma moveRowUp_wellIndexed (st : t) (p : Z) :
  wellIndexed (rows st) -> wellIndexed (rows (fst (moveRowUp st p))).
Proof.
  intros Hw. destruct (decide (0 < p < JS.length (rows st))%Z) as [Hp|Hp].
  - destruct (moveRowUp_valid st p Hp) as (r & above & Hr & Ha & ->).
    cbn [fst rows]. apply reindex_wellIndexed. intros r0 Hr0.
    apply at_index_Some in Hr as [_ Hr]. apply at_index_Some in Ha as [_ Ha].
    apply (wellIndexed_week (rows st)); [done|].
    by eapply (elem_of_swap _ _ _ r above).
  - by rewrite (moveRowUp_invalid st p Hp).
Qed.

Lemma moveRowDown_wellIndexed (st : t) (p : Z) :
  wellIndexed (rows st) -> wellIndexed (rows (fst (moveRowDown st p))).
Proof.
  intros Hw. destruct (decide (0 <= p < JS.length (rows st) - 1)%Z) as [Hp|Hp].
  - destruct (moveRowDown_valid st p Hp) as (r & below & Hr & Hb & ->).
    cbn [fst rows]. apply reindex_wellIndexed. intros r0 Hr0.
    apply at_index_Some in Hr as [_ Hr]. apply at_index_Some in Hb as [_ Hb].
    apply (wellIndexed_week (rows st)); [done|].
    by eapply (elem_of_swap _ _ _ r below).
  - by rewrite (moveRowDown_invalid st p Hp).
Qed.

Lemma wellIndexed_positions (rs : list row) :
  wellIndexed rs -> index <$> rs = Z.of_nat <$> seq 0 (length rs).
Proof.
  intros Hw. apply list_eq. intros i. rewrite !list_lookup_fmap.
  destruct (rs !! i) as [r|] eqn:E.
  - rewrite lookup_seq_lt by (by eapply lookup_lt_Some).
    simpl. f_equal. by destruct (Hw i r E) as [-> _].
  - rewrite lookup_seq_ge; [done|]. by apply lookup_ge_None.
Qed.

End Dense.

Section DenseClass.

Local Abbreviation rowsWellIndexed := Observe.rowsWellIndexed.
Local Abbreviation weekColumns := (Z.of_nat <$> seq 0 7).

Lemma Board_reindex_wellIndexed (rs : list Row.t) :
  (forall r, r ∈ rs -> Tile.columnIndex <$> Row.tiles r = weekColumns) ->
  rowsWellIndexed (Board.reindex rs).
Proof.
  intros Hweek i r' Hi. rewrite Board_reindex_lookup in Hi.
  destruct (rs !! i) as [r|] eqn:E; simpl in Hi; [|done].
  injection Hi as <-. cbn [Row.updateIndex Row.index Row.tiles]. split; [done|]. split.
  - intros tile (tile0 & -> & _)%list_elem_of_fmap_1. done.
  - rewrite <- list_fmap_compose.
    rewrite <- (Hweek r (list_elem_of_lookup_2 _ _ _ E)).
    by apply list_fmap_ext.
Qed.

Lemma Board_addRow_wellIndexed (b : Board.t) (h : option string) :
  rowsWellIndexed (Board.rows b) -> rowsWellIndexed (Board.rows (fst (Board.addRow b h))).
Proof.
  intros Hw i r Hi. cbn [Board.addRow fst Board.rows] in Hi. unfold JS.push in Hi.
  apply lookup_snoc_Some in Hi as [[_ Hi]|[-> <-]].
  - by apply Hw.
  - cbn [Row.new Row.index Row.tiles default]. unfold JS.length.
    split; [done|]. split; [|reflexivity].
    intros tile Htile. unfold Row._createDefaultTiles in Htile. simpl in Htile.
    rewrite !elem_of_cons, elem_of_nil in Htile.
    by destruct Htile as [->|[->|[->|[->|[->|[->|[->|[]]]]]]]].
Qed.

Lemma Board_removeRow_wellIndexed (b : Board.t) (p : Z) :
  rowsWellIndexed (Board.rows b) ->
  rowsWellIndexed (Board.rows (fst (Board.removeRow b p))).
Proof.
  intros Hw. unfold Board.removeRow. case_decide; [|done]. cbn [fst Board.rows].
  apply Board_reindex_wellIndexed.
  intros r [i Hi]%list_elem_of_delete_inv%list_elem_of_lookup_1.
  by destruct (Hw i r Hi) as (_ & _ & ?).
Qed.

Lemma rowsWellIndexed_positions (rs : list Row.t) :
  rowsWellIndexed rs -> Row.index <$> rs = Z.of_nat <$> seq 0 (length rs).
Proof.
  intros Hw. apply list_eq. intros i. rewrite !list_lookup_fmap.
  destruct (rs !! i) as [r|] eqn:E.
  - rewrite lookup_seq_lt by (by eapply lookup_lt_Some).
    simpl. f_equal. by destruct (Hw i r E) as [-> _].
  - rewrite lookup_seq_ge; [done|]. by apply lookup_ge_None.
Qed.

End DenseClass.

(** C7: on a board whose rows are densely indexed, [addRow], [removeRow],
    [moveRowUp] and [moveRowDown] of the state manager and [addRow],
    [removeRow] of the class model leave the rows densely indexed: the row
    at position [i] has index [i], every tile of it refers back to [i],
    and it has seven tiles with column positions 0..6; so the row indices
    read [0..N-1] in order, also after a removal followed by an addition. *)
Theorem structural_mutations_keep_rows_dense :
  (forall (st : BoardStateManager.t) (h : option string),
      Observe.wellIndexed (BoardStateManager.rows st) ->
      Observe.wellIndexed (BoardStateManager.rows (fst (BoardStateManager.addRow st h)))) /\
  (forall (st : BoardStateManager.t) (p : Z),
      Observe.wellIndexed (BoardStateManager.rows st) ->
      Observe.wellIndexed (BoardStateManager.rows (fst (BoardStateManager.removeRow st p)))) /\
  (forall (st : BoardStateManager.t) (p : Z),
      Observe.wellIndexed (BoardStateManager.rows st) ->
      Observe.wellIndexed (BoardStateManager.rows (fst (BoardStateManager.moveRowUp st p)))) /\
  (forall (st : BoardStateManager.t) (p : Z),
      Observe.wellIndexed (BoardStateManager.rows st) ->
      Observe.wellIndexed (BoardStateManager.rows (fst (BoardStateManager.moveRowDown st p)))) /\
  (forall (b : Board.t) (h : option string),
      Observe.rowsWellIndexed (Board.rows b) ->
      Observe.rowsWellIndexed (Board.rows (fst (Board.addRow b h)))) /\
  (forall (b : Board.t) (p : Z),
      Observe.rowsWellIndexed (Board.rows b) ->
      Observe.rowsWellIndexed (Board.rows (fst (Board.removeRow b p)))) /\
  (forall rs : list BoardStateManager.row,
      Observe.wellIndexed rs ->
      BoardStateManager.index <$> rs = Z.of_nat <$> seq 0 (length rs)) /\
  (forall rs : list Row.t,
      Observe.rowsWellIndexed rs ->
      Row.index <$> rs = Z.of_nat <$> seq 0 (length rs)) /\
  (forall (st : BoardStateManager.t) (p : Z) (h : option string),
      Observe.wellIndexed (BoardStateManager.rows st) ->
      let st' := fst (BoardStateManager.addRow (fst (BoardStateManager.removeRow st p)) h) in
      Observe.wellIndexed (BoardStateManager.rows st') /\
      BoardStateManager.index <$> BoardStateManager.rows st'
      = Z.of_nat <$> seq 0 (length (BoardStateManager.rows st'))).
Proof.
  repeat apply conj.
  - exact addRow_wellIndexed.
  - exact removeRow_wellIndexed.
  - exact moveRowUp_wellIndexed.
  - exact moveRowDown_wellIndexed.
  - exact Board_addRow_wellIndexed.
  - exact Board_removeRow_wellIndexed.
  - exact wellIndexed_positions.
  - exact rowsWellIndexed_positions.
  - intros st p h Hw st'.
    assert (Hw' : Observe.wellIndexed (BoardStateManager.rows st'))
      by (by apply addRow_wellIndexed, removeRow_wellIndexed).
    split; [exact Hw' | by apply wellIndexed_positions].
Qed.

Lemma structural_mutations_keep_rows_dense_witness :
  Observe.wellIndexed
    (BoardStateManager.rows
       (fst (BoardStateManager.addRow
          (fst (BoardStateManager.moveRowUp
             (fst (BoardStateManager.removeRow
                (fst (BoardStateManager.addRow
                   (fst (BoardStateManager.addRow
                      (fst (BoardStateManager.addRow
                         (BoardStateManager.createEmptyState 2026 45) (Some "Anna")))
                      (Some "Bob"))) (Some "Ewa"))) 0)) 1)) (Some "Jan")))) /\
  BoardStateManager.index
    <$> BoardStateManager.rows
       (fst (BoardStateManager.addRow
          (fst (BoardStateManager.moveRowUp
             (fst (BoardStateManager.removeRow
                (fst (BoardStateManager.addRow
                   (fst (BoardStateManager.addRow
                      (fst (BoardStateManager.addRow
                         (BoardStateManager.createEmptyState 2026 45) (Some "Anna")))
                      (Some "Bob"))) (Some "Ewa"))) 0)) 1)) (Some "Jan")))
  = [0; 1; 2]%Z /\
  Observe.rowsWellIndexed
    (Board.rows (fst (Board.removeRow
       (fst (Board.addRow (fst (Board.addRow (Board.new None None) (Some "Anna"))) None)) 0))).
Proof.
  destruct structural_mutations_keep_rows_dense
    as (Hadd & Hrm & Hup & _ & Hbadd & Hbrm & Hpos & _ & _).
  assert (Hempty : Observe.wellIndexed
                     (BoardStateManager.rows (BoardStateManager.createEmptyState 2026 45)))
    by (intros i r Hi; simpl in Hi; by rewrite lookup_nil in Hi).
  assert (Hbempty : Observe.rowsWellIndexed (Board.rows (Board.new None None)))
    by (intros i r Hi; simpl in Hi; by rewrite lookup_nil in Hi).
  split; [|split].
  - apply Hadd, Hup, Hrm, Hadd, Hadd, Hadd, Hempty.
  - apply (Hpos _ (Hadd _ (Some "Jan")
             (Hup _ 1%Z (Hrm _ 0%Z (Hadd _ (Some "Ewa") (Hadd _ (Some "Bob")
                (Hadd _ (Some "Anna") Hempty))))))).
  - apply Hbrm, Hbadd, Hbadd, Hbempty.
Defined.

(** ** Serialization round trip of the class model *)

Section RoundTrip.

Lemma Tile_roundtrip (tile : Tile.t) : Tile.fromJSON (Tile.toJSON tile) = Some tile.
Proof. by destruct tile. Qed.

Lemma Row_roundtrip (row : Row.t) : Row.fromJSON (Row.toJSON row) = Some row.
Proof.
  destruct row as [i h inc tiles]. unfold Row.fromJSON, Row.toJSON.
  cbn [Row.index Row.header Row.includedInCalculations Row.tiles].
  change (JS.prop (JS.Obj _) "tiles") with (Some (JS.Arr (Tile.toJSON <$> tiles))).
  cbn [mbind option_bind JS.map_arr].
  rewrite (mapM_fmap_Some Tile.fromJSON Tile.toJSON tiles Tile_roundtrip).
  reflexivity.
Qed.

(** A column comes back as the constructor builds it: index and required
    count as stored, the name derived from the index. *)
Lemma Column_roundtrip (col : Column.t) :
  Column.fromJSON (Column.toJSON col)
  = Some (Column.new (Column.index col) (Some (Column.requiredWorkers col))).
Proof. by destruct col. Qed.

Lemma Column_roundtrip_derived (col : Column.t) :
  Column.name col = JS.at_index Column.DAYS_OF_WEEK (Column.index col) ->
  Column.fromJSON (Column.toJSON col) = Some col.
Proof.
  intros Hname. rewrite Column_roundtrip. destruct col as [i n r].
  simpl in Hname. unfold Column.new. simpl. by rewrite Hname.
Qed.

Lemma Board_roundtrip (b : Board.t) :
  Observe.namesDerived b -> Board.fromJSON (Board.toJSON b) = Some b.
Proof.
  intros Hnames. destruct b as [cols rows]. unfold Board.fromJSON, Board.toJSON.
  cbn [Board.columns Board.rows].
  change (JS.prop (JS.Obj _) "columns") with (Some (JS.Arr (Column.toJSON <$> cols))).
  change (JS.prop (JS.Obj _) "rows") with (Some (JS.Arr (Row.toJSON <$> rows))).
  cbn [mbind option_bind JS.map_arr].
  rewrite (mapM_fmap_Forall_Some Column.fromJSON Column.toJSON cols).
  - rewrite (mapM_fmap_Some Row.fromJSON Row.toJSON rows Row_roundtrip). reflexivity.
  - eapply Forall_impl; [exact Hnames|]. intros col. apply Column_roundtrip_derived.
Qed.

(** Every board the class builds has derived names. *)
Lemma new_namesDerived (rows : option (list Row.t)) :
  Observe.namesDerived (Board.new None rows).
Proof.
  unfold Observe.namesDerived. cbn [Board.new Board.columns default].
  unfold Board._createDefaultColumns. apply Forall_fmap, Forall_forall.
  intros i _. reflexivity.
Qed.

Lemma fromJSON_namesDerived (data : JS.value) (b : Board.t) :
  Board.fromJSON data = Some b -> Observe.namesDerived b.
Proof.
  unfold Board.fromJSON. intros H.
  destruct (JS.prop data "columns" ≫= JS.map_arr Column.fromJSON) as [cols|] eqn:Ec;
    [|done].
  destruct (JS.prop data "rows" ≫= JS.map_arr Row.fromJSON) as [rows|]; [|done].
  simpl in H. injection H as <-. unfold Observe.namesDerived. cbn [Board.new Board.columns default].
  destruct (JS.prop data "columns") as [v|]; [|done]. simpl in Ec.
  destruct v; try done. simpl in Ec. apply mapM_Some in Ec.
  apply Forall_lookup. intros i col Hi.
  destruct (Forall2_lookup_r _ _ _ _ _ Ec Hi) as (item & _ & Hitem).
  unfold Column.fromJSON in Hitem.
  destruct (JS.prop item "index" ≫= JS.as_num) as [ix|]; [|done].
  destruct (JS.prop item "requiredWorkers" ≫= JS.as_num_opt) as [req|]; [|done].
  simpl in Hitem. by injection Hitem as <-.
Qed.

Lemma addRow_namesDerived (b : Board.t) (h : option string) :
  Observe.namesDerived b -> Observe.namesDerived (fst (Board.addRow b h)).
Proof. done. Qed.

Lemma removeRow_namesDerived (b : Board.t) (p : Z) :
  Observe.namesDerived b -> Observe.namesDerived (fst (Board.removeRow b p)).
Proof. unfold Observe.namesDerived. by rewrite removeRow_columns. Qed.

Lemma setRequiredWorkers_name (col : Column.t) (count : Z) :
  Column.name col = JS.at_index Column.DAYS_OF_WEEK (Column.index col) ->
  Column.name (Column.setRequiredWorkers col count)
  = JS.at_index Column.DAYS_OF_WEEK (Column.index (Column.setRequiredWorkers col count)).
Proof. unfold Column.setRequiredWorkers. by case_decide. Qed.

End RoundTrip.

(** C8: [fromJSON] after [toJSON] gives back the board: the tiles (row
    position, column position, state), the rows (index, header, inclusion
    flag, tiles) and the columns (index, required count, and the name,
    which the constructor derives from the index), for any number of rows
    with any flags and tile states.  The name of a column is never
    serialized; every column the constructor built carries the derived
    name, which is the condition under which the board comes back equal. *)
Theorem board_json_roundtrip :
  (forall tile : Tile.t, Tile.fromJSON (Tile.toJSON tile) = Some tile) /\
  (forall row : Row.t, Row.fromJSON (Row.toJSON row) = Some row) /\
  (forall col : Column.t,
      Column.fromJSON (Column.toJSON col)
      = Some (Column.new (Column.index col) (Some (Column.requiredWorkers col)))) /\
  (forall b : Board.t,
      Observe.namesDerived b -> Board.fromJSON (Board.toJSON b) = Some b) /\
  (forall (built : list (Z * option Z)) (rows : list Row.t),
      let b := Board.mk ((fun spec => Column.new (fst spec) (snd spec)) <$> built) rows in
      Board.fromJSON (Board.toJSON b) = Some b) /\
  (forall rows : option (list Row.t),
      Board.fromJSON (Board.toJSON (Board.new None rows)) = Some (Board.new None rows)) /\
  (forall (data : JS.value) (b : Board.t),
      Board.fromJSON data = Some b -> Board.fromJSON (Board.toJSON b) = Some b).
Proof.
  repeat apply conj.
  - exact Tile_roundtrip.
  - exact Row_roundtrip.
  - exact Column_roundtrip.
  - exact Board_roundtrip.
  - intros built rows b. apply Board_roundtrip. unfold Observe.namesDerived. subst b.
    cbn [Board.columns]. apply Forall_fmap, Forall_forall. intros spec _. reflexivity.
  - intros rows. apply Board_roundtrip, new_namesDerived.
  - intros data b Hb. by eapply Board_roundtrip, fromJSON_namesDerived.
Qed.

Lemma board_json_roundtrip_witness :
  Board.fromJSON
    (Board.toJSON
       (Board.mk
          [Column.new 0 (Some 3%Z); Column.setRequiredWorkers (Column.new 6 None) 2]
          [Row.mk 0 "Anna" true [Tile.mk 0 0 "Praca"; Tile.mk 0 1 "U"];
           Row.mk 1 "" false [Tile.mk 1 0 "A"; Tile.mk 1 1 "Praca"]]))
  = Some (Board.mk
            [Column.new 0 (Some 3%Z); Column.setRequiredWorkers (Column.new 6 None) 2]
            [Row.mk 0 "Anna" true [Tile.mk 0 0 "Praca"; Tile.mk 0 1 "U"];
             Row.mk 1 "" false [Tile.mk 1 0 "A"; Tile.mk 1 1 "Praca"]]).
Proof.
  destruct board_json_roundtrip as (_ & _ & _ & Hboard & _).
  apply Hboard. unfold Observe.namesDerived. cbn [Board.columns].
  repeat constructor.
Defined.

(* ===================================================================== *)
(** * Further properties of the embedded code                             *)
(* ===================================================================== *)

(** ** Tile states stay in the enumeration *)

Section KnownStates.

Lemma getNextTileState_known (s : string) : getNextTileState s ∈ TILE_STATE_ORDER.
Proof.
  pose proof (getNextTileState_in_order s) as H.
  apply at_index_Some in H as [_ H]. by eapply list_elem_of_lookup_2.
Qed.

End KnownStates.

(** X1: whatever string a tile holds, [getNextTileState] returns one of the
    three enumerated states, never [undefined]; so one toggle brings any
    tile into the enumeration and four toggles equal one. *)
Theorem toggle_lands_in_enumeration :
  (forall s : string, getNextTileState s ∈ TILE_STATE_ORDER) /\
  (forall tile : Tile.t, Tile.state (fst (Tile.toggleState tile)) ∈ TILE_STATE_ORDER) /\
  (forall s : string,
      getNextTileState (getNextTileState (getNextTileState (getNextTileState s)))
      = getNextTileState s).
Proof.
  split; [exact getNextTileState_known|]. split.
  - intros tile. apply getNextTileState_known.
  - intros s. apply getNextTileState_thrice, getNextTileState_known.
Qed.

(** ** What the tile methods keep *)

Section TileMethods.

Import Observe.

Lemma setState_cases (tile : Tile.t) (s : string) :
  (s ∈ TILE_STATE_ORDER
   /\ (Tile.setState tile s = Tile.mk (Tile.rowIndex tile) (Tile.columnIndex tile) s))
  \/ ((s ∉ TILE_STATE_ORDER) /\ (Tile.setState tile s = tile)).
Proof.
  unfold Tile.setState, TILE_STATE_ORDER. case_decide; [left | right]; done.
Qed.

Lemma tilePerform_known (tile : Tile.t) (c : tileCall) :
  Tile.state tile ∈ TILE_STATE_ORDER ->
  Tile.state (tilePerform tile c) ∈ TILE_STATE_ORDER.
Proof.
  intros Hk. destruct c as [|s]; simpl.
  - apply getNextTileState_known.
  - by destruct (setState_cases tile s) as [[Hs ->]|[_ ->]].
Qed.

Lemma tilePerform_position (tile : Tile.t) (c : tileCall) :
  Tile.rowIndex (tilePerform tile c) = Tile.rowIndex tile /\
  Tile.columnIndex (tilePerform tile c) = Tile.columnIndex tile.
Proof.
  destruct c as [|s]; simpl; [done|].
  by destruct (setState_cases tile s) as [[_ ->]|[_ ->]].
Qed.

End TileMethods.

(** X2: [Tile.setState] writes a state of the enumeration and ignores any
    other value, so a tile created with the default state stays in the
    enumeration under every sequence of [toggleState] and [setState]
    calls, and its row and column positions never change. *)
Theorem tile_state_stays_known :
  (forall (tile : Tile.t) (s : string),
      s ∉ TILE_STATE_ORDER -> Tile.setState tile s = tile) /\
  (forall (tile : Tile.t) (s : string),
      s ∈ TILE_STATE_ORDER -> Tile.state (Tile.setState tile s) = s) /\
  (forall (r c : Z) (calls : list Observe.tileCall),
      let tile := foldl Observe.tilePerform (Tile.new r c None) calls in
      Tile.state tile ∈ TILE_STATE_ORDER /\
      Tile.rowIndex tile = r /\ Tile.columnIndex tile = c).
Proof.
  split; [|split].
  - intros tile s Hs. by destruct (setState_cases tile s) as [[? _]|[_ ->]].
  - intros tile s Hs. by destruct (setState_cases tile s) as [[_ ->]|[? _]].
  - intros r c calls. induction calls as [|call calls IH] using rev_ind.
    + simpl. split; [|done]. unfold TILE_STATE_ORDER. rewrite !elem_of_cons. tauto.
    + rewrite foldl_app. simpl. destruct IH as (Hk & Hr & Hc).
      destruct (tilePerform_position
                  (foldl Observe.tilePerform (Tile.new r c None) calls) call)
        as [-> ->].
      split; [by apply tilePerform_known | done].
Qed.

Lemma tile_state_stays_known_witness :
  Tile.setState (Tile.mk 0 2 "Praca") "urlop" = Tile.mk 0 2 "Praca" /\
  Tile.state (Tile.setState (Tile.mk 0 2 "Praca") "U") = "U".
Proof.
  destruct tile_state_stays_known as (Hreject & Haccept & _).
  split.
  - apply Hreject. unfold TILE_STATE_ORDER. rewrite !not_elem_of_cons.
    repeat split; try discriminate. apply not_elem_of_nil.
  - apply Haccept. unfold TILE_STATE_ORDER. rewrite !elem_of_cons. tauto.
Defined.

(** ** Work counts under the mutations of the state manager *)

Section CountsUnderMutation.

Import BoardStateManager.

Lemma filter_length_insert {A : Type} (f : A -> bool) (l : list A) (i : nat) (old x : A) :
  l !! i = Some old ->
  (Z.of_nat (length (List.filter f (<[i := x]> l))) + (if f old then 1 else 0)
   = Z.of_nat (length (List.filter f l)) + (if f x then 1 else 0))%Z.
Proof.
  revert i. induction l as [|y l IH]; intros [|i] Hi; simpl in *; try done.
  - injection Hi as ->. destruct (f old), (f x); simpl; lia.
  - specialize (IH i Hi). destruct (f y); simpl; lia.
Qed.

Lemma filter_length_swap {A : Type} (f : A -> bool) (l : list A) (a b : nat) (xa xb : A) :
  l !! a = Some xa -> l !! b = Some xb ->
  length (List.filter f (<[b := xa]> (<[a := xb]> l))) = length (List.filter f l).
Proof.
  intros Ha Hb.
  pose proof (filter_length_insert f l a xa xb Ha) as H1.
  assert (Hb' : <[a := xb]> l !! b = Some xb).
  { destruct (decide (a = b)) as [->|Hne].
    - apply list_lookup_insert_eq. by eapply lookup_lt_Some.
    - by rewrite list_lookup_insert_ne. }
  pose proof (filter_length_insert f (<[a := xb]> l) b xb xa Hb') as H2.
  destruct (f xa), (f xb); lia.
Qed.

Lemma filter_length_fmap {A B : Type} (f : B -> bool) (g : A -> B) (l : list A) :
  length (List.filter (fun x => f (g x)) l) = length (List.filter f (g <$> l)).
Proof.
  induction l as [|x l IH]; simpl; [done|]. destruct (f (g x)); simpl; by rewrite IH.
Qed.

Lemma countsFor_content (c : Z) (r : row) :
  Observe.countsFor c r = Observe.contentCounts c (Observe.content r).
Proof.
  unfold Observe.countsFor, Observe.contentCounts, Observe.content. simpl. f_equal.
  unfold JS.at_index. case_decide; [|done].
  rewrite list_lookup_fmap. by destruct (tiles r !! Z.to_nat c).
Qed.

Lemma count_by_content (st : t) (c : Z) :
  countPracaInColumn st c
  = Z.of_nat (length (List.filter (Observe.contentCounts c) (Observe.content <$> rows st))).
Proof.
  rewrite countPracaInColumn_filter, <- filter_length_fmap. do 2 f_equal.
  apply List.filter_ext. intros r. apply countsFor_content.
Qed.

(** The work counts read only the contents of the rows. *)
Lemma count_congr (st st' : t) (c : Z) :
  Observe.content <$> rows st' = Observe.content <$> rows st ->
  countPracaInColumn st' c = countPracaInColumn st c.
Proof. intros E. by rewrite !count_by_content, E. Qed.

(** Validity reads the columns and the work count. *)
Lemma valid_congr (st st' : t) (c : Z) :
  columns st' = columns st ->
  countPracaInColumn st' c = countPracaInColumn st c ->
  isColumnValid st' c = isColumnValid st c.
Proof. intros Ecol Ecount. unfold isColumnValid. by rewrite Ecol, Ecount. Qed.

Lemma count_insert (st : t) (p : nat) (old r' : row) (c : Z) :
  rows st !! p = Some old ->
  countPracaInColumn (mk (year st) (weekNumber st) (columns st) (<[p := r']> (rows st))) c
  = (countPracaInColumn st c - Observe.contribution c old + Observe.contribution c r')%Z.
Proof.
  intros Hp. rewrite !countPracaInColumn_filter. cbn [rows].
  pose proof (filter_length_insert (Observe.countsFor c) (rows st) p old r' Hp).
  unfold Observe.contribution. lia.
Qed.

Lemma moveRowUp_content (st : t) (p : Z) (c : Z) :
  countPracaInColumn (fst (moveRowUp st p)) c = countPracaInColumn st c /\
  columns (fst (moveRowUp st p)) = columns st.
Proof.
  destruct (decide (0 < p < JS.length (rows st))%Z) as [Hp|Hp].
  - destruct (moveRowUp_valid st p Hp) as (r & above & Hr & Ha & ->).
    cbn [fst columns]. split; [|done].
    apply at_index_Some in Hr as [_ Hr]. apply at_index_Some in Ha as [_ Ha].
    rewrite !count_by_content. cbn [rows]. rewrite reindex_content.
    rewrite <- !filter_length_fmap. f_equal. by apply filter_length_swap.
  - by rewrite (moveRowUp_invalid st p Hp).
Qed.

Lemma moveRowDown_content (st : t) (p : Z) (c : Z) :
  countPracaInColumn (fst (moveRowDown st p)) c = countPracaInColumn st c /\
  columns (fst (moveRowDown st p)) = columns st.
Proof.
  destruct (decide (0 <= p < JS.length (rows st) - 1)%Z) as [Hp|Hp].
  - destruct (moveRowDown_valid st p Hp) as (r & below & Hr & Hb & ->).
    cbn [fst columns]. split; [|done].
    apply at_index_Some in Hr as [_ Hr]. apply at_index_Some in Hb as [_ Hb].
    rewrite !count_by_content. cbn [rows]. rewrite reindex_content.
    rewrite <- !filter_length_fmap. f_equal. by apply filter_length_swap.
  - by rewrite (moveRowDown_invalid st p Hp).
Qed.

End CountsUnderMutation.

(** X3: moving a row up or down never changes the work count or the
    validity of any column, whether or not the move succeeds. *)
Theorem moving_rows_keeps_counts (st : BoardStateManager.t) (p c : Z) :
  BoardStateManager.countPracaInColumn (fst (BoardStateManager.moveRowUp st p)) c
  = BoardStateManager.countPracaInColumn st c /\
  BoardStateManager.isColumnValid (fst (BoardStateManager.moveRowUp st p)) c
  = BoardStateManager.isColumnValid st c /\
  BoardStateManager.countPracaInColumn (fst (BoardStateManager.moveRowDown st p)) c
  = BoardStateManager.countPracaInColumn st c /\
  BoardStateManager.isColumnValid (fst (BoardStateManager.moveRowDown st p)) c
  = BoardStateManager.isColumnValid st c.
Proof.
  destruct (moveRowUp_content st p c) as [Hup Hupc].
  destruct (moveRowDown_content st p c) as [Hdown Hdownc].
  split; [done|]. split; [by apply valid_congr|].
  split; [done|]. by apply valid_congr.
Qed.

Section RowEdits.

Import BoardStateManager.

Lemma setRowHeader_valid (st : t) (p : Z) (h : string) (r : row) :
  JS.at_index (rows st) p = Some r ->
  setRowHeader st p h
  = mk (year st) (weekNumber st) (columns st)
       (<[Z.to_nat p := mkRow (index r) h (includedInCalculations r) (tiles r)]> (rows st)).
Proof. intros Hr. unfold setRowHeader. by rewrite Hr. Qed.

Lemma setRowIncluded_valid (st : t) (p : Z) (included : bool) (r : row) :
  JS.at_index (rows st) p = Some r ->
  setRowIncluded st p included
  = mk (year st) (weekNumber st) (columns st)
       (<[Z.to_nat p := mkRow (index r) (header r) included (tiles r)]> (rows st)).
Proof. intros Hr. unfold setRowIncluded. by rewrite Hr. Qed.

Lemma setRowHeader_count (st : t) (p : Z) (h : string) (c : Z) :
  countPracaInColumn (setRowHeader st p h) c = countPracaInColumn st c.
Proof.
  destruct (JS.at_index (rows st) p) as [r|] eqn:Hr.
  - rewrite (setRowHeader_valid st p h r Hr).
    apply at_index_Some in Hr as [_ Hr]. rewrite (count_insert st _ r _ c Hr).
    unfold Observe.contribution, Observe.countsFor. simpl. lia.
  - unfold setRowHeader. by rewrite Hr.
Qed.

Lemma setRowHeader_columns (st : t) (p : Z) (h : string) :
  columns (setRowHeader st p h) = columns st.
Proof. unfold setRowHeader. by destruct (JS.at_index (rows st) p). Qed.

Lemma setRowHeader_length (st : t) (p : Z) (h : string) :
  length (rows (setRowHeader st p h)) = length (rows st).
Proof.
  unfold setRowHeader. destruct (JS.at_index (rows st) p); [|done].
  simpl. apply length_insert.
Qed.

End RowEdits.

(** X4: [setRowHeader] changes nothing but the label: the work count and
    the validity of every column, the columns and the number of rows stay
    as they are, and at a valid position the row keeps its index, its
    inclusion flag and its tiles while the other rows are untouched. *)
Theorem setRowHeader_only_renames (st : BoardStateManager.t) (p : Z) (h : string) :
  (forall c : Z,
      BoardStateManager.countPracaInColumn (BoardStateManager.setRowHeader st p h) c
      = BoardStateManager.countPracaInColumn st c /\
      BoardStateManager.isColumnValid (BoardStateManager.setRowHeader st p h) c
      = BoardStateManager.isColumnValid st c) /\
  BoardStateManager.columns (BoardStateManager.setRowHeader st p h)
  = BoardStateManager.columns st /\
  (forall r : BoardStateManager.row,
      JS.at_index (BoardStateManager.rows st) p = Some r ->
      JS.at_index (BoardStateManager.rows (BoardStateManager.setRowHeader st p h)) p
      = Some (BoardStateManager.mkRow (BoardStateManager.index r) h
                (BoardStateManager.includedInCalculations r) (BoardStateManager.tiles r))) /\
  (forall q : Z,
      q <> p ->
      JS.at_index (BoardStateManager.rows (BoardStateManager.setRowHeader st p h)) q
      = JS.at_index (BoardStateManager.rows st) q).
Proof.
  split; [|split; [|split]].
  - intros c. pose proof (setRowHeader_count st p h c) as Hcount.
    split; [done|]. apply valid_congr; [apply setRowHeader_columns | done].
  - apply setRowHeader_columns.
  - intros r Hr. rewrite (setRowHeader_valid st p h r Hr). cbn [BoardStateManager.rows].
    by eapply at_index_insert.
  - intros q Hq. destruct (JS.at_index (BoardStateManager.rows st) p) as [r|] eqn:Hr.
    + rewrite (setRowHeader_valid st p h r Hr). cbn [BoardStateManager.rows].
      apply at_index_Some in Hr as [Hp _]. unfold JS.at_index.
      case_decide; [|done]. apply list_lookup_insert_ne. lia.
    + unfold BoardStateManager.setRowHeader. by rewrite Hr.
Qed.

Lemma setRowHeader_only_renames_witness :
  JS.at_index (BoardStateManager.rows
                 (BoardStateManager.setRowHeader (Observe.staffed 2 1) 1 "Ewa")) 1
  = Some (BoardStateManager.mkRow 1 "Ewa" true (Observe.weekOf 1 "Praca")) /\
  JS.at_index (BoardStateManager.rows
                 (BoardStateManager.setRowHeader (Observe.staffed 2 1) 1 "Ewa")) 0
  = JS.at_index (BoardStateManager.rows (Observe.staffed 2 1)) 0.
Proof.
  destruct (setRowHeader_only_renames (Observe.staffed 2 1) 1 "Ewa") as (_ & _ & Hat & Hother).
  split.
  - apply (Hat (BoardStateManager.mkRow 1 "" true (Observe.weekOf 1 "Praca"))). reflexivity.
  - apply Hother. lia.
Defined.

(** X5: [setRowIncluded] at a valid position changes the work count of a
    column by the difference of the row's contribution: excluding a row
    takes its contribution away, including it adds one exactly when its
    tile at that column is 'Praca'; off the board nothing changes. *)
Theorem setRowIncluded_moves_contribution (st : BoardStateManager.t) (p c : Z) :
  (forall r : BoardStateManager.row,
      JS.at_index (BoardStateManager.rows st) p = Some r ->
      BoardStateManager.countPracaInColumn (BoardStateManager.setRowIncluded st p false) c
      = (BoardStateManager.countPracaInColumn st c - Observe.contribution c r)%Z /\
      BoardStateManager.countPracaInColumn (BoardStateManager.setRowIncluded st p true) c
      = (BoardStateManager.countPracaInColumn st c - Observe.contribution c r
         + (if Observe.worksAt c r then 1 else 0))%Z /\
      BoardStateManager.setRowIncluded st p (BoardStateManager.includedInCalculations r)
      = st) /\
  (JS.at_index (BoardStateManager.rows st) p = None ->
   forall included, BoardStateManager.setRowIncluded st p included = st).
Proof.
  split.
  - intros r Hr. rewrite !(setRowIncluded_valid st p _ r Hr).
    pose proof Hr as [_ Hr']%at_index_Some.
    rewrite !(count_insert st _ r _ c Hr').
    unfold Observe.contribution at 2 4. unfold Observe.countsFor, Observe.worksAt. simpl.
    split; [lia|]. split; [done|].
    destruct st as [y w cs rs], r as [i h inc tls]. simpl in *. f_equal.
    by apply list_insert_id.
  - intros Hr included. unfold BoardStateManager.setRowIncluded. by rewrite Hr.
Qed.

Lemma setRowIncluded_moves_contribution_witness :
  BoardStateManager.countPracaInColumn
    (BoardStateManager.setRowIncluded (Observe.staffed 3 2) 1 false) 4
  = 2%Z.
Proof.
  destruct (setRowIncluded_moves_contribution (Observe.staffed 3 2) 1 4) as [Hvalid _].
  destruct (Hvalid (BoardStateManager.mkRow 1 "" true (Observe.weekOf 1 "Praca")) eq_refl)
    as (Hoff & _ & _).
  rewrite Hoff. reflexivity.
Defined.

Section CountsAddRemoveToggle.

Import BoardStateManager.

Lemma filter_length_delete {A : Type} (f : A -> bool) (l : list A) (p : nat) (r : A) :
  l !! p = Some r ->
  Z.of_nat (length (List.filter f (delete p l)))
  = (Z.of_nat (length (List.filter f l)) - (if f r then 1 else 0))%Z.
Proof.
  revert p. induction l as [|y l IH]; intros [|p] Hp; simpl in *; try done.
  - injection Hp as ->. destruct (f r); simpl; lia.
  - specialize (IH p Hp). destruct (f y); simpl; lia.
Qed.

Lemma filter_length_imap {A : Type} (f : A -> bool) (g : nat -> A -> A) (l : list A) :
  (forall i x, f (g i x) = f x) ->
  length (List.filter f (imap g l)) = length (List.filter f l).
Proof.
  revert g. induction l as [|y l IH]; intros g Hg; [done|].
  rewrite imap_cons. cbn [List.filter]. rewrite Hg.
  pose proof (IH (g ∘ S) (fun i x => Hg (S i) x)) as IH'.
  destruct (f y); simpl; by rewrite IH'.
Qed.

Lemma at_index_insert_ne {A : Type} (arr : list A) (i j : Z) (x : A) :
  (0 <= i)%Z -> j <> i -> JS.at_index (<[Z.to_nat i := x]> arr) j = JS.at_index arr j.
Proof.
  intros Hi Hne. unfold JS.at_index. case_decide; [|done].
  apply list_lookup_insert_ne. lia.
Qed.

Lemma removeRow_count (st : t) (p c : Z) (r : row) :
  JS.at_index (rows st) p = Some r ->
  countPracaInColumn (fst (removeRow st p)) c
  = (countPracaInColumn st c - Observe.contribution c r)%Z.
Proof.
  intros Hr. pose proof Hr as [Hp Hr']%at_index_Some.
  assert (Hin : (0 <= p < JS.length (rows st))%Z)
    by (apply at_index_is_Some; by eexists).
  rewrite (removeRow_valid st p Hin). cbn [fst].
  transitivity (countPracaInColumn
                  (mk (year st) (weekNumber st) (columns st)
                      (delete (Z.to_nat p) (rows st))) c).
  - apply count_congr. cbn [rows]. by rewrite reindex_content.
  - rewrite !countPracaInColumn_filter. cbn [rows].
    apply (filter_length_delete (Observe.countsFor c) _ _ r Hr').
Qed.

(** The row [addRow] appends counts for no column. *)
Lemma new_row_counts_nothing (n : Z) (h : string) (c : Z) :
  Observe.countsFor c
    (mkRow n h true
       (imap (fun (colIndex : nat) (_ : string) => mkTile n (Z.of_nat colIndex) TileState.A)
             DAYS_OF_WEEK))
  = false.
Proof.
  unfold Observe.countsFor. cbn [includedInCalculations tiles andb].
  destruct (JS.at_index _ c) as [tl|] eqn:Htl; [|done].
  apply at_index_Some in Htl as [_ Htl]. apply list_elem_of_lookup_2 in Htl.
  simpl in Htl. rewrite !elem_of_cons, elem_of_nil in Htl.
  by destruct Htl as [->|[->|[->|[->|[->|[->|[->|[]]]]]]]].
Qed.

Lemma addRow_count (st : t) (h : option string) (c : Z) :
  countPracaInColumn (fst (addRow st h)) c = countPracaInColumn st c.
Proof.
  rewrite !countPracaInColumn_filter. cbn [addRow fst rows]. unfold JS.push.
  rewrite List.filter_app. simpl. rewrite new_row_counts_nothing.
  by rewrite app_nil_r.
Qed.

Lemma toggle_contribution (c ci : Z) (r : row) (tl : tile) (next : string) :
  JS.at_index (tiles r) ci = Some tl ->
  Observe.contribution c
    (mkRow (index r) (header r) (includedInCalculations r)
           (<[Z.to_nat ci := mkTile (rowIndex tl) (columnIndex tl) next]> (tiles r)))
  = if decide (c = ci)
    then (if includedInCalculations r && bool_decide (next = TileState.PRACA)
          then 1 else 0)%Z
    else Observe.contribution c r.
Proof.
  intros Htl. unfold Observe.contribution, Observe.countsFor.
  cbn [includedInCalculations tiles]. destruct (decide (c = ci)) as [Hc|Hc].
  - subst c. by rewrite (at_index_insert _ _ _ _ Htl).
  - apply at_index_Some in Htl as [Hci _]. by rewrite at_index_insert_ne.
Qed.

End CountsAddRemoveToggle.

(** X6: a toggle at valid coordinates leaves the work count of every other
    column as it is; in its own column the count is the old one without
    the row's old contribution plus one when the row is included and the
    new state is 'Praca', so it moves by at most one; a toggle in an
    excluded row changes no count. *)
Theorem toggle_changes_one_count (st : BoardStateManager.t) (ri ci : Z)
    (r : BoardStateManager.row) (tl : BoardStateManager.tile) :
  JS.at_index (BoardStateManager.rows st) ri = Some r ->
  JS.at_index (BoardStateManager.tiles r) ci = Some tl ->
  let st' := fst (BoardStateManager.toggleTileState st ri ci) in
  let next := getNextTileState (BoardStateManager.state tl) in
  (forall c : Z,
      c <> ci ->
      BoardStateManager.countPracaInColumn st' c = BoardStateManager.countPracaInColumn st c) /\
  BoardStateManager.countPracaInColumn st' ci
  = (BoardStateManager.countPracaInColumn st ci - Observe.contribution ci r
     + (if BoardStateManager.includedInCalculations r
           && bool_decide (next = TileState.PRACA) then 1 else 0))%Z /\
  (BoardStateManager.countPracaInColumn st ci - 1
   <= BoardStateManager.countPracaInColumn st' ci
   <= BoardStateManager.countPracaInColumn st ci + 1)%Z /\
  (BoardStateManager.includedInCalculations r = false ->
   forall c : Z,
     BoardStateManager.countPracaInColumn st' c = BoardStateManager.countPracaInColumn st c) /\
  BoardStateManager.columns st' = BoardStateManager.columns st.
Proof.
  intros Hr Htl st' next. subst st'.
  rewrite (toggleTileState_valid st ri ci r tl Hr Htl). cbn [fst].
  pose proof Hr as [_ Hr']%at_index_Some.
  assert (Hcount : forall c,
    BoardStateManager.countPracaInColumn
      (BoardStateManager.mk (BoardStateManager.year st) (BoardStateManager.weekNumber st)
         (BoardStateManager.columns st)
         (<[Z.to_nat ri :=
              BoardStateManager.mkRow (BoardStateManager.index r) (BoardStateManager.header r)
                (BoardStateManager.includedInCalculations r)
                (<[Z.to_nat ci :=
                     BoardStateManager.mkTile (BoardStateManager.rowIndex tl)
                       (BoardStateManager.columnIndex tl) next]>
                   (BoardStateManager.tiles r))]> (BoardStateManager.rows st))) c
    = (BoardStateManager.countPracaInColumn st c - Observe.contribution c r
       + (if decide (c = ci)
          then (if BoardStateManager.includedInCalculations r
                   && bool_decide (next = TileState.PRACA) then 1 else 0)
          else Observe.contribution c r))%Z).
  { intros c. rewrite (count_insert st _ r _ c Hr').
    by rewrite (toggle_contribution c ci r tl next Htl). }
  split; [|split; [|split; [|split]]].
  - intros c Hc. rewrite Hcount. destruct (decide (c = ci)); [done | lia].
  - rewrite Hcount. destruct (decide (ci = ci)); [done | lia].
  - rewrite Hcount. destruct (decide (ci = ci)); [|done]. unfold Observe.contribution.
    destruct (Observe.countsFor ci r), (_ && _); lia.
  - intros Hinc c. rewrite Hcount. unfold Observe.contribution, Observe.countsFor.
    rewrite Hinc. simpl. destruct (decide (c = ci)); lia.
  - done.
Qed.

Lemma toggle_changes_one_count_witness :
  BoardStateManager.countPracaInColumn
    (fst (BoardStateManager.toggleTileState (Observe.staffed 3 2) 1 4)) 4 = 2%Z /\
  BoardStateManager.countPracaInColumn
    (fst (BoardStateManager.toggleTileState (Observe.staffed 3 2) 1 4)) 5 = 3%Z.
Proof.
  destruct (toggle_changes_one_count (Observe.staffed 3 2) 1 4
              (BoardStateManager.mkRow 1 "" true (Observe.weekOf 1 "Praca"))
              (BoardStateManager.mkTile 1 4 "Praca") eq_refl eq_refl)
    as (Hother & Hown & _).
  split.
  - rewrite Hown. reflexivity.
  - rewrite Hother by lia. reflexivity.
Defined.

Section BoardCounts.

Lemma rowCountsFor_updateIndex (c : Z) (r : Row.t) (i : Z) :
  Observe.rowCountsFor c (Row.updateIndex r i) = Observe.rowCountsFor c r.
Proof.
  unfold Observe.rowCountsFor, Row.getTile, Row.updateIndex.
  cbn [Row.includedInCalculations Row.tiles]. f_equal.
  unfold JS.at_index. case_decide; [|done].
  rewrite list_lookup_fmap. by destruct (Row.tiles r !! Z.to_nat c).
Qed.

Lemma Board_removeRow_count (b : Board.t) (p c : Z) (r : Row.t) :
  Board.getRow b p = Some r ->
  Board.countPracaInColumn (fst (Board.removeRow b p)) c
  = (Board.countPracaInColumn b c - Observe.rowContribution c r)%Z.
Proof.
  intros Hr. pose proof Hr as [Hp Hr']%at_index_Some.
  assert (Hin : (0 <= p < JS.length (Board.rows b))%Z)
    by (apply at_index_is_Some; by eexists).
  rewrite (Board_removeRow_valid b p Hin). cbn [fst].
  rewrite !Board_countPracaInColumn_filter. cbn [Board.rows]. unfold Board.reindex.
  rewrite filter_length_imap by (intros i x; apply rowCountsFor_updateIndex).
  apply (filter_length_delete (Observe.rowCountsFor c) _ _ r Hr').
Qed.

Lemma Board_new_row_counts_nothing (n : Z) (h : string) (c : Z) :
  Observe.rowCountsFor c (Row.new n (Some h) (Some true) None) = false.
Proof.
  unfold Observe.rowCountsFor, Row.getTile.
  cbn [Row.new Row.includedInCalculations Row.tiles default andb].
  destruct (JS.at_index _ c) as [tile|] eqn:Htile; [|done].
  apply at_index_Some in Htile as [_ Htile]. apply list_elem_of_lookup_2 in Htile.
  unfold Row._createDefaultTiles in Htile. simpl in Htile.
  rewrite !elem_of_cons, elem_of_nil in Htile.
  by destruct Htile as [->|[->|[->|[->|[->|[->|[->|[]]]]]]]].
Qed.

Lemma Board_addRow_count (b : Board.t) (h : option string) (c : Z) :
  Board.countPracaInColumn (fst (Board.addRow b h)) c = Board.countPracaInColumn b c.
Proof.
  rewrite !Board_countPracaInColumn_filter. cbn [Board.addRow fst Board.rows].
  unfold JS.push. rewrite List.filter_app. simpl.
  rewrite Board_new_row_counts_nothing. by rewrite app_nil_r.
Qed.

Lemma Board_valid_congr (b b' : Board.t) (c : Z) :
  Board.columns b' = Board.columns b ->
  Board.countPracaInColumn b' c = Board.countPracaInColumn b c ->
  Board.isColumnValid b' c = Board.isColumnValid b c.
Proof.
  intros Ecol Ecount. unfold Board.isColumnValid, Board.getColumn.
  by rewrite Ecol, Ecount.
Qed.

End BoardCounts.

(** X7: [addRow] appends one row and returns it: its index is the old row
    count, its header the given one (empty by default), it is included,
    and at that position the board reads seven tiles, all 'A', for the
    columns 0..6 and none beyond; the earlier rows, the work count and the
    validity of every column are as before.  The same holds, field by
    field, for [addRow] of the class model, which also keeps the columns. *)
Theorem addRow_appends_idle_row :
  (forall (st : BoardStateManager.t) (h : option string),
      let st' := fst (BoardStateManager.addRow st h) in
      let n := JS.length (BoardStateManager.rows st) in
      BoardStateManager.rows st'
      = BoardStateManager.rows st ++ [snd (BoardStateManager.addRow st h)] /\
      BoardStateManager.columns st' = BoardStateManager.columns st /\
      JS.at_index (BoardStateManager.rows st') n = Some (snd (BoardStateManager.addRow st h)) /\
      BoardStateManager.index (snd (BoardStateManager.addRow st h)) = n /\
      BoardStateManager.header (snd (BoardStateManager.addRow st h)) = default "" h /\
      BoardStateManager.includedInCalculations (snd (BoardStateManager.addRow st h)) = true /\
      (forall c : Z,
          Observe.tileAt st' n c
          = if decide (0 <= c < 7)%Z
            then Some (BoardStateManager.mkTile n c TileState.A) else None) /\
      (forall c : Z,
          BoardStateManager.countPracaInColumn st' c
          = BoardStateManager.countPracaInColumn st c /\
          BoardStateManager.isColumnValid st' c = BoardStateManager.isColumnValid st c)) /\
  (forall (b : Board.t) (h : option string),
      let b' := fst (Board.addRow b h) in
      let n := JS.length (Board.rows b) in
      Board.rows b' = Board.rows b ++ [snd (Board.addRow b h)] /\
      Board.columns b' = Board.columns b /\
      Board.getRow b' n = Some (snd (Board.addRow b h)) /\
      Row.index (snd (Board.addRow b h)) = n /\
      Row.header (snd (Board.addRow b h)) = default "" h /\
      Row.includedInCalculations (snd (Board.addRow b h)) = true /\
      (forall c : Z,
          Board.getTile b' n c
          = if decide (0 <= c < 7)%Z then Some (Tile.mk n c TileState.A) else None) /\
      (forall c : Z,
          Board.countPracaInColumn b' c = Board.countPracaInColumn b c /\
          Board.isColumnValid b' c = Board.isColumnValid b c)).
Proof.
  assert (Hlast : forall {A : Type} (l : list A) (x : A),
             JS.at_index (l ++ [x]) (JS.length l) = Some x).
  { intros A l x. unfold JS.length. rewrite at_index_of_nat.
    rewrite lookup_app_r by lia. by rewrite Nat.sub_diag. }
  assert (Hweek : forall c : Z,
             (0 <= c < 7)%Z ->
             c = 0%Z \/ c = 1%Z \/ c = 2%Z \/ c = 3%Z \/ c = 4%Z \/ c = 5%Z \/ c = 6%Z)
    by (intros c Hc; lia).
  split.
  - intros st h st' n. subst st' n. cbn [BoardStateManager.addRow fst snd].
    cbn [BoardStateManager.rows BoardStateManager.columns BoardStateManager.index
         BoardStateManager.header BoardStateManager.includedInCalculations].
    unfold JS.push.
    split; [done|]. split; [done|]. split; [apply Hlast|]. split; [done|]. split; [done|].
    split; [done|]. split.
    + intros c. unfold Observe.tileAt. cbn [BoardStateManager.rows].
      rewrite Hlast. cbn [mbind option_bind BoardStateManager.tiles].
      case_decide as Hc.
      * by destruct (Hweek c Hc) as [->|[->|[->|[->|[->|[->| ->]]]]]].
      * apply at_index_None. unfold JS.length. simpl. lia.
    + intros c. pose proof (addRow_count st h c) as Hcount.
      cbn [BoardStateManager.addRow fst] in Hcount. unfold JS.push in Hcount.
      split; [exact Hcount|]. by apply valid_congr.
  - intros b h b' n. subst b' n. cbn [Board.addRow fst snd Board.rows Board.columns].
    unfold JS.push.
    split; [done|]. split; [done|]. split; [apply Hlast|].
    split; [done|]. split; [done|]. split; [done|]. split.
    + intros c. unfold Board.getTile, Board.getRow. cbn [Board.rows].
      rewrite Hlast. cbn [mbind option_bind]. unfold Row.getTile.
      cbn [Row.new Row.tiles default]. case_decide as Hc.
      * by destruct (Hweek c Hc) as [->|[->|[->|[->|[->|[->| ->]]]]]].
      * apply at_index_None. unfold JS.length. simpl. lia.
    + intros c. pose proof (Board_addRow_count b h c) as Hcount.
      cbn [Board.addRow fst] in Hcount. unfold JS.push in Hcount.
      split; [exact Hcount|]. by apply Board_valid_congr.
Qed.

(** X8: a successful [removeRow] lowers the work count of every column by
    exactly the contribution of the removed row: by one when that row was
    included and held 'Praca' at the column, by nothing otherwise; in the
    state manager and in the class model. *)
Theorem removeRow_takes_contribution :
  (forall (st : BoardStateManager.t) (p c : Z) (r : BoardStateManager.row),
      JS.at_index (BoardStateManager.rows st) p = Some r ->
      BoardStateManager.countPracaInColumn (fst (BoardStateManager.removeRow st p)) c
      = (BoardStateManager.countPracaInColumn st c - Observe.contribution c r)%Z) /\
  (forall (b : Board.t) (p c : Z) (r : Row.t),
      Board.getRow b p = Some r ->
      Board.countPracaInColumn (fst (Board.removeRow b p)) c
      = (Board.countPracaInColumn b c - Observe.rowContribution c r)%Z).
Proof. split; [exact removeRow_count | exact Board_removeRow_count]. Qed.

Lemma removeRow_takes_contribution_witness :
  BoardStateManager.countPracaInColumn
    (fst (BoardStateManager.removeRow (Observe.staffed 3 2) 0)) 6 = 2%Z /\
  Board.countPracaInColumn (fst (Board.removeRow (Observe.staffedBoard 3 2) 2)) 0 = 2%Z.
Proof.
  destruct removeRow_takes_contribution as [Hplain Hclass].
  split.
  - rewrite (Hplain (Observe.staffed 3 2) 0%Z 6%Z
               (BoardStateManager.mkRow 0 "" true (Observe.weekOf 0 "Praca")) eq_refl).
    reflexivity.
  - erewrite (Hclass (Observe.staffedBoard 3 2) 2%Z 0%Z); [|reflexivity].
    reflexivity.
Defined.

(** ** The shape the application keeps: dense rows, seven positional
       columns, positive required counts *)

Section Healthy.

Import BoardStateManager.

Local Abbreviation wellIndexed := Observe.wellIndexed.

Lemma insert_wellIndexed (rs : list row) (p : nat) (r r' : row) :
  wellIndexed rs ->
  rs !! p = Some r ->
  index r' = index r ->
  rowIndex <$> tiles r' = rowIndex <$> tiles r ->
  columnIndex <$> tiles r' = columnIndex <$> tiles r ->
  wellIndexed (<[p := r']> rs).
Proof.
  intros Hw Hp Hi Hrow Hcol i x Hx.
  apply list_lookup_insert_Some in Hx as [(-> & <- & _)|[_ Hx]]; [|by apply Hw].
  destruct (Hw i r Hp) as (Hidx & Hback & Hweek).
  split; [congruence|]. split; [|congruence].
  intros tl Htl. apply (list_elem_of_fmap_2 rowIndex) in Htl.
  rewrite Hrow in Htl. apply list_elem_of_fmap_1 in Htl as (tl0 & -> & Htl0).
  by apply Hback.
Qed.

Lemma setRowHeader_wellIndexed (st : t) (p : Z) (h : string) :
  wellIndexed (rows st) -> wellIndexed (rows (setRowHeader st p h)).
Proof.
  intros Hw. destruct (JS.at_index (rows st) p) as [r|] eqn:Hr.
  - rewrite (setRowHeader_valid st p h r Hr). cbn [rows].
    apply at_index_Some in Hr as [_ Hr]. by eapply insert_wellIndexed.
  - unfold setRowHeader. by rewrite Hr.
Qed.

Lemma setRowIncluded_wellIndexed (st : t) (p : Z) (included : bool) :
  wellIndexed (rows st) -> wellIndexed (rows (setRowIncluded st p included)).
Proof.
  intros Hw. destruct (JS.at_index (rows st) p) as [r|] eqn:Hr.
  - rewrite (setRowIncluded_valid st p included r Hr). cbn [rows].
    apply at_index_Some in Hr as [_ Hr]. by eapply insert_wellIndexed.
  - unfold setRowIncluded. by rewrite Hr.
Qed.

Lemma toggleTileState_wellIndexed (st : t) (ri ci : Z) :
  wellIndexed (rows st) -> wellIndexed (rows (fst (toggleTileState st ri ci))).
Proof.
  intros Hw. destruct (JS.at_index (rows st) ri) as [r|] eqn:Hr.
  - destruct (JS.at_index (tiles r) ci) as [tl|] eqn:Htl.
    + rewrite (toggleTileState_valid st ri ci r tl Hr Htl). cbn [fst rows].
      apply at_index_Some in Hr as [_ Hr]. apply at_index_Some in Htl as [_ Htl].
      eapply insert_wellIndexed; [done | done | done | |]; cbn [tiles];
        rewrite list_fmap_insert; apply list_insert_id;
        rewrite list_lookup_fmap, Htl; done.
    + rewrite toggleTileState_invalid; [done|]. intros r0 Hr0. congruence.
  - rewrite toggleTileState_invalid; [done|]. intros r0 Hr0. congruence.
Qed.

Lemma toggleTileState_columns (st : t) (ri ci : Z) :
  columns (fst (toggleTileState st ri ci)) = columns st.
Proof.
  unfold toggleTileState. destruct (JS.at_index (rows st) ri) as [r|]; [|done].
  by destruct (JS.at_index (tiles r) ci).
Qed.

Lemma setRowIncluded_columns (st : t) (p : Z) (included : bool) :
  columns (setRowIncluded st p included) = columns st.
Proof. unfold setRowIncluded. by destruct (JS.at_index (rows st) p). Qed.

Lemma removeRow_state_columns (st : t) (p : Z) :
  columns (fst (removeRow st p)) = columns st.
Proof. unfold removeRow. by case_decide. Qed.

Lemma setColumnRequiredWorkers_rows (st : t) (c count : Z) :
  rows (setColumnRequiredWorkers st c count) = rows st.
Proof.
  unfold setColumnRequiredWorkers. destruct (JS.at_index (columns st) c); [|done].
  by case_decide.
Qed.

Lemma setColumnRequiredWorkers_shape (st : t) (c count : Z) :
  colIndex <$> columns (setColumnRequiredWorkers st c count) = colIndex <$> columns st /\
  (Forall (fun col => (0 < requiredWorkers col)%Z) (columns st) ->
   Forall (fun col => (0 < requiredWorkers col)%Z)
          (columns (setColumnRequiredWorkers st c count))).
Proof.
  destruct (JS.at_index (columns st) c) as [col|] eqn:Hcol.
  - destruct (decide (count > 0)%Z) as [Hpos|Hpos].
    + rewrite (setColumnRequiredWorkers_valid st c count col Hcol Hpos). cbn [columns].
      apply at_index_Some in Hcol as [_ Hcol]. split.
      * rewrite list_fmap_insert. apply list_insert_id.
        by rewrite list_lookup_fmap, Hcol.
      * intros Hall. apply Forall_insert; [done|]. simpl. lia.
    + rewrite setColumnRequiredWorkers_invalid by (right; lia). done.
  - rewrite setColumnRequiredWorkers_invalid by (by left). done.
Qed.

Lemma createEmptyState_healthy (y w : Z) : Observe.healthy (createEmptyState y w).
Proof.
  split; [|split].
  - intros i r Hi. simpl in Hi. by rewrite lookup_nil in Hi.
  - reflexivity.
  - simpl. repeat constructor.
Qed.

Lemma applyAction_healthy (st st' : t) (a : AppController.action) :
  Observe.healthy st -> AppController.applyAction st a = Some st' -> Observe.healthy st'.
Proof.
  intros (Hw & Hcols & Hpos) Ha.
  destruct a as [h|p|p v|p v|ri ci|ci v|p|p|y w|name]; simpl in Ha;
    try discriminate; injection Ha as <-.
  - split; [by apply addRow_wellIndexed | done].
  - split; [by apply removeRow_wellIndexed | by rewrite removeRow_state_columns].
  - split; [by apply setRowHeader_wellIndexed | by rewrite setRowHeader_columns].
  - split; [by apply setRowIncluded_wellIndexed | by rewrite setRowIncluded_columns].
  - split; [by apply toggleTileState_wellIndexed | by rewrite toggleTileState_columns].
  - destruct (setColumnRequiredWorkers_shape st ci v) as [Hc Hp].
    split; [by rewrite setColumnRequiredWorkers_rows|]. split; [by rewrite Hc | by apply Hp].
  - destruct (moveRowUp_content st p 0) as [_ Hc].
    split; [by apply moveRowUp_wellIndexed | by rewrite Hc].
  - destruct (moveRowDown_content st p 0) as [_ Hc].
    split; [by apply moveRowDown_wellIndexed | by rewrite Hc].
  - done.
Qed.

Lemma healthy_column (st : t) (c : Z) :
  Observe.healthy st -> (0 <= c < 7)%Z ->
  exists col, JS.at_index (columns st) c = Some col /\ colIndex col = c /\
              (0 < requiredWorkers col)%Z.
Proof.
  intros (_ & Hcols & Hpos) Hc.
  assert (Hlen : length (columns st) = 7).
  { rewrite <- (length_fmap colIndex), Hcols. by rewrite length_fmap, length_seq. }
  destruct (lookup_lt_is_Some_2 (columns st) (Z.to_nat c)) as [col Hcol]; [lia|].
  exists col. split; [apply at_index_Some; split; [lia | done]|]. split.
  - assert (H : (colIndex <$> columns st) !! Z.to_nat c = Some (colIndex col))
      by (by rewrite list_lookup_fmap, Hcol).
    rewrite Hcols, list_lookup_fmap, lookup_seq_lt in H by lia.
    simpl in H. injection H as H. lia.
  - rewrite Forall_lookup in Hpos. by eapply Hpos.
Qed.

End Healthy.

(** X9: the empty state of the state manager has dense rows, seven columns
    whose index is their position and positive required counts, and every
    intent the controller dispatches keeps all three; so on every state
    reached from the empty one each weekday position 0..6 holds a column
    with that index and a positive required count. *)
Theorem actions_keep_state_shape :
  (forall y w : Z, Observe.healthy (BoardStateManager.createEmptyState y w)) /\
  (forall (st st' : BoardStateManager.t) (a : AppController.action),
      Observe.healthy st -> AppController.applyAction st a = Some st' ->
      Observe.healthy st') /\
  (forall (st : BoardStateManager.t) (c : Z),
      Observe.healthy st -> (0 <= c < 7)%Z ->
      exists col,
        JS.at_index (BoardStateManager.columns st) c = Some col /\
        BoardStateManager.colIndex col = c /\
        (0 < BoardStateManager.requiredWorkers col)%Z).
Proof.
  split; [exact createEmptyState_healthy|].
  split; [exact applyAction_healthy | exact healthy_column].
Qed.

Lemma actions_keep_state_shape_witness :
  Observe.healthy
    (fst (BoardStateManager.toggleTileState
            (fst (BoardStateManager.addRow (BoardStateManager.createEmptyState 2026 45)
                                           (Some "Anna"))) 0 3)).
Proof.
  destruct actions_keep_state_shape as (Hempty & Hstep & _).
  apply (Hstep _ _ (AppController.ToggleTile 0 3)
           (Hstep _ _ (AppController.AddRow (Some "Anna")) (Hempty 2026%Z 45%Z) eq_refl)
           eq_refl).
Defined.

(** X10: [setYearAndWeek] stores the year as given and touches neither
    rows nor columns.  A week that is an integer is stored clamped into
    1..53: unchanged inside the range, 1 below it, 53 above it.  The clamp
    does not repair [NaN]: [Math.max(1, Math.min(53, NaN))] is [NaN], so
    the stored week is within 1..53 exactly when the week offered is not
    [NaN].  No other intent writes the year or the week; so a week within
    1..53 stays there under every intent the controller dispatches except
    [setYearAndWeek] with a [NaN] week, which replaces it by [NaN]. *)
Theorem setYearAndWeek_clamps (st : BoardStateManager.t) (y w : JS.number) :
  let st' := BoardStateManager.setYearAndWeek st y w in
  BoardStateManager.year st' = y /\
  (forall n : Z,
      w = JS.Int n ->
      ((1 <= n <= 53)%Z -> BoardStateManager.weekNumber st' = JS.Int n) /\
      ((n < 1)%Z -> BoardStateManager.weekNumber st' = JS.Int 1) /\
      ((53 < n)%Z -> BoardStateManager.weekNumber st' = JS.Int 53)) /\
  (w = JS.NaN -> BoardStateManager.weekNumber st' = JS.NaN) /\
  (Observe.weekInRange st' <-> w <> JS.NaN) /\
  BoardStateManager.rows st' = BoardStateManager.rows st /\
  BoardStateManager.columns st' = BoardStateManager.columns st /\
  (forall (a : AppController.action) (st2 : BoardStateManager.t),
      AppController.applyAction st a = Some st2 ->
      (forall y' w', a <> AppController.SetYearAndWeek y' w') ->
      BoardStateManager.year st2 = BoardStateManager.year st /\
      BoardStateManager.weekNumber st2 = BoardStateManager.weekNumber st) /\
  (forall (a : AppController.action) (st2 : BoardStateManager.t),
      Observe.weekInRange st ->
      AppController.applyAction st a = Some st2 ->
      (forall y', a <> AppController.SetYearAndWeek y' JS.NaN) ->
      Observe.weekInRange st2) /\
  (forall y' : JS.number,
      exists st2,
        AppController.applyAction st (AppController.SetYearAndWeek y' JS.NaN) = Some st2 /\
        ~ Observe.weekInRange st2).
Proof.
  assert (Hkeep : forall (a : AppController.action) (st2 : BoardStateManager.t),
             AppController.applyAction st a = Some st2 ->
             (forall y' w', a <> AppController.SetYearAndWeek y' w') ->
             BoardStateManager.year st2 = BoardStateManager.year st /\
             BoardStateManager.weekNumber st2 = BoardStateManager.weekNumber st).
  { intros a st2 Ha Hother.
    destruct a as [h|p|p v|p v|ri ci|ci v|p|p|y' w'|name]; simpl in Ha;
      try discriminate; injection Ha as <-.
    - done.
    - unfold BoardStateManager.removeRow. by case_decide.
    - unfold BoardStateManager.setRowHeader.
      by destruct (JS.at_index (BoardStateManager.rows st) p).
    - unfold BoardStateManager.setRowIncluded.
      by destruct (JS.at_index (BoardStateManager.rows st) p).
    - unfold BoardStateManager.toggleTileState.
      destruct (JS.at_index (BoardStateManager.rows st) ri) as [r|]; [|done].
      by destruct (JS.at_index (BoardStateManager.tiles r) ci).
    - unfold BoardStateManager.setColumnRequiredWorkers.
      destruct (JS.at_index (BoardStateManager.columns st) ci); [|done]. by case_decide.
    - destruct (decide (0 < p < JS.length (BoardStateManager.rows st))%Z) as [Hp|Hp].
      + by destruct (moveRowUp_valid st p Hp) as (r & above & _ & _ & ->).
      + by rewrite (moveRowUp_invalid st p Hp).
    - destruct (decide (0 <= p < JS.length (BoardStateManager.rows st) - 1)%Z) as [Hp|Hp].
      + by destruct (moveRowDown_valid st p Hp) as (r & below & _ & _ & ->).
      + by rewrite (moveRowDown_invalid st p Hp).
    - by destruct (Hother y' w'). }
  assert (Hclamped : forall (s : BoardStateManager.t) (y' : JS.number) (n : Z),
             Observe.weekInRange (BoardStateManager.setYearAndWeek s y' (JS.Int n))).
  { intros s y' n. exists (Z.max 1 (Z.min 53 n)). split; [reflexivity | lia]. }
  cbn zeta. split; [done|]. split.
  { intros n ->. cbn [BoardStateManager.setYearAndWeek BoardStateManager.weekNumber
                      JS.Math_max JS.Math_min].
    repeat split; intros Hn; f_equal; lia. }
  split; [by intros ->|]. split.
  { split.
    - intros (k & Hk & _) ->. discriminate Hk.
    - intros Hw. destruct w as [n|]; [apply Hclamped | done]. }
  split; [done|]. split; [done|]. split; [exact Hkeep|]. split.
  - intros a st2 Hweek Ha Hother.
    assert (Hcases : (exists y' w', a = AppController.SetYearAndWeek y' w')
                     \/ (forall y' w', a <> AppController.SetYearAndWeek y' w')).
    { destruct a; try (right; discriminate). left. by eexists _, _. }
    destruct Hcases as [(y' & w' & ->)|Hno].
    + injection Ha as <-. destruct w' as [n|]; [apply Hclamped | by destruct (Hother y')].
    + destruct (Hkeep a st2 Ha Hno) as [_ Hsame].
      destruct Hweek as (k & Hk & Hrange). exists k. by rewrite Hsame.
  - intros y'. eexists. split; [reflexivity|]. intros (k & Hk & _). discriminate Hk.
Qed.

Lemma setYearAndWeek_clamps_witness :
  BoardStateManager.weekNumber
    (BoardStateManager.setYearAndWeek (Observe.staffed 1 1) 2027 60) = JS.Int 53 /\
  BoardStateManager.weekNumber
    (BoardStateManager.setYearAndWeek (Observe.staffed 1 1) 2027 17) = JS.Int 17 /\
  BoardStateManager.weekNumber
    (BoardStateManager.setYearAndWeek (Observe.staffed 1 1) 2027 JS.NaN) = JS.NaN /\
  Observe.weekInRange
    (fst (BoardStateManager.addRow (Observe.staffed 1 1) (Some "Anna"))).
Proof.
  split; [|split; [|split]].
  - destruct (setYearAndWeek_clamps (Observe.staffed 1 1) 2027 60) as (_ & Hint & _).
    destruct (Hint 60%Z eq_refl) as (_ & _ & Habove). apply Habove. lia.
  - destruct (setYearAndWeek_clamps (Observe.staffed 1 1) 2027 17) as (_ & Hint & _).
    destruct (Hint 17%Z eq_refl) as (Hinside & _). apply Hinside. lia.
  - destruct (setYearAndWeek_clamps (Observe.staffed 1 1) 2027 JS.NaN) as (_ & _ & Hnan & _).
    by apply Hnan.
  - destruct (setYearAndWeek_clamps (Observe.staffed 1 1) 2027 17)
      as (_ & _ & _ & _ & _ & _ & _ & Hstays & _).
    apply (Hstays (AppController.AddRow (Some "Anna")) _).
    + exists 45%Z. split; [reflexivity | lia].
    + reflexivity.
    + discriminate.
Defined.

(** ** The status list shown to the user *)

Section ColumnsStatus.

Import BoardStateManager.

Lemma getColumnsStatus_lookup (st : t) (i : nat) :
  getColumnsStatus st !! i
  = (fun col =>
       mkStatus (Z.of_nat i) (JS.at_index DAYS_OF_WEEK (Z.of_nat i)) (requiredWorkers col)
         (countPracaInColumn st (Z.of_nat i))
         (isColumnValid st (Z.of_nat i))
         (bool_decide (Z.of_nat i = 6%Z))
         (negb (bool_decide (Z.of_nat i = 6%Z))
          && bool_decide (countPracaInColumn st (Z.of_nat i) = (requiredWorkers col + 1)%Z)))
      <$> columns st !! i.
Proof. unfold getColumnsStatus. by rewrite list_lookup_imap. Qed.

Lemma count_bounds (st : t) (c : Z) :
  (0 <= countPracaInColumn st c <= JS.length (rows st))%Z.
Proof.
  rewrite countPracaInColumn_filter. unfold JS.length.
  pose proof (List.filter_length_le (Observe.countsFor c) (rows st)). lia.
Qed.

End ColumnsStatus.

(** X11: [getColumnsStatus] has one entry per column, in order.  The entry
    at position [i] carries [i] as index, the required count of that
    column and its work count, which lies between 0 and the number of
    rows; it is flagged Sunday exactly at position 6; its validity is
    [isColumnValid i] and holds exactly when the work count equals the
    required count or the extra-one flag is set; the extra-one flag is
    never set on Sunday and means the count is the required count plus
    one. *)
Theorem getColumnsStatus_entries (st : BoardStateManager.t) :
  length (BoardStateManager.getColumnsStatus st) = length (BoardStateManager.columns st) /\
  (forall (i : nat) (s : BoardStateManager.columnStatus),
      BoardStateManager.getColumnsStatus st !! i = Some s ->
      exists col,
        BoardStateManager.columns st !! i = Some col /\
        BoardStateManager.statusIndex s = Z.of_nat i /\
        BoardStateManager.statusRequiredWorkers s = BoardStateManager.requiredWorkers col /\
        BoardStateManager.pracaCount s
        = BoardStateManager.countPracaInColumn st (Z.of_nat i) /\
        (0 <= BoardStateManager.pracaCount s
         <= JS.length (BoardStateManager.rows st))%Z /\
        (BoardStateManager.isSunday s = true <-> i = 6) /\
        BoardStateManager.isValid s = BoardStateManager.isColumnValid st (Z.of_nat i) /\
        (BoardStateManager.isValid s = true
         <-> BoardStateManager.pracaCount s = BoardStateManager.statusRequiredWorkers s
             \/ BoardStateManager.hasExtraOne s = true) /\
        (BoardStateManager.hasExtraOne s = true
         <-> i <> 6 /\
             BoardStateManager.pracaCount s
             = (BoardStateManager.statusRequiredWorkers s + 1)%Z)).
Proof.
  split; [unfold BoardStateManager.getColumnsStatus; apply length_imap|].
  intros i s Hs. rewrite getColumnsStatus_lookup in Hs.
  destruct (BoardStateManager.columns st !! i) as [col|] eqn:Hcol; [|done].
  simpl in Hs. injection Hs as <-. exists col. split; [done|].
  cbn [BoardStateManager.statusIndex BoardStateManager.statusRequiredWorkers
       BoardStateManager.pracaCount BoardStateManager.isSunday BoardStateManager.isValid
       BoardStateManager.hasExtraOne].
  assert (Hat : JS.at_index (BoardStateManager.columns st) (Z.of_nat i) = Some col)
    by (by rewrite at_index_of_nat).
  assert (Hextra :
    negb (bool_decide (Z.of_nat i = 6%Z))
    && bool_decide (BoardStateManager.countPracaInColumn st (Z.of_nat i)
                    = (BoardStateManager.requiredWorkers col + 1)%Z) = true
    <-> i <> 6 /\ BoardStateManager.countPracaInColumn st (Z.of_nat i)
                  = (BoardStateManager.requiredWorkers col + 1)%Z).
  { rewrite andb_true_iff, negb_true_iff, bool_decide_eq_false, bool_decide_eq_true. lia. }
  split; [done|]. split; [done|]. split; [done|]. split; [apply count_bounds|].
  split; [rewrite bool_decide_eq_true; lia|]. split; [done|]. split; [|exact Hextra].
  rewrite Hextra. destruct (decide (i = 6)) as [->|Hi].
  - rewrite (isColumnValid_sunday st col Hat). split; [by left|]. intros [?|[? _]]; done.
  - rewrite (isColumnValid_weekday st (Z.of_nat i) col Hat) by lia.
    split; [intros [?|?]; [by left | by right]|]. intros [?|[_ ?]]; [by left | by right].
Qed.

Lemma getColumnsStatus_entries_witness :
  exists col,
    BoardStateManager.columns (Observe.staffed 3 2) !! 4 = Some col /\
    BoardStateManager.requiredWorkers col = 2%Z.
Proof.
  destruct (getColumnsStatus_entries (Observe.staffed 3 2)) as [_ Hentry].
  destruct (Hentry 4 (BoardStateManager.mkStatus 4 (Some "Freitag") 2 3 true false true)
              eq_refl) as (col & Hcol & _ & Hreq & _).
  exists col. split; [exact Hcol|]. symmetry. exact Hreq.
Defined.

(** ** More on the history manager *)

Section HistoryMore.

Import HistoryManager.

Context {Snapshot JsonText : Type}.
Variable stringify : Snapshot -> JsonText.
Variable parse : JsonText -> option Snapshot.

Local Abbreviation hm := (HistoryManager.t JsonText).
Local Abbreviation pushState := (HistoryManager.pushState stringify).
Local Abbreviation undo := (HistoryManager.undo stringify parse).
Local Abbreviation redo := (HistoryManager.redo stringify parse).

Lemma canUndo_iff (h : hm) : canUndo h = true <-> undoStack h <> [].
Proof.
  unfold canUndo. rewrite bool_decide_eq_true.
  destruct (undoStack h); simpl; split; intros; try done; lia.
Qed.

Lemma canRedo_iff (h : hm) : canRedo h = true <-> redoStack h <> [].
Proof.
  unfold canRedo. rewrite bool_decide_eq_true.
  destruct (redoStack h); simpl; split; intros; try done; lia.
Qed.

Lemma getStatus_after_move (u r : list JsonText) (x y : JsonText) (m : nat) :
  getStatus (mk u (r ++ [y]) m)
  = (bool_decide (1 < length (u ++ [x])), true, length (u ++ [x]) - 1, length r + 1).
Proof.
  unfold getStatus, canUndo, canRedo. cbn [undoStack redoStack].
  rewrite !length_app. simpl. repeat f_equal; try lia.
  - apply bool_decide_ext. lia.
  - apply bool_decide_eq_true. lia.
Qed.

(** X13: [canUndo] tells exactly whether [undo] does anything.  When it is
    false, [undo] returns null and leaves the manager as it is.  When it is
    true, [undo] takes the newest entry off the undo stack and puts the
    text of the current state on the redo stack, whatever [JSON.parse]
    then makes of the entry taken; so [canUndo] is true exactly when the
    call changes the manager.  The same for [canRedo] and [redo].
    Directly after [clear] both calls return null and change nothing.  The
    status reported after an [undo] follows from the one before: with
    [canUndo] set, the undo count falls by one, the redo count rises by
    one and [canRedo] is set; otherwise the status is the same. *)
Theorem canUndo_canRedo_exact :
  (forall (h : hm) (cur : Snapshot),
      (canUndo h = false -> undo h cur = (h, Return None)) /\
      (canUndo h = true ->
       exists older top,
         undoStack h = older ++ [top] /\
         fst (undo h cur) = mk older (redoStack h ++ [stringify cur]) (maxHistorySize h)) /\
      (canUndo h = true <-> fst (undo h cur) <> h)) /\
  (forall (h : hm) (cur : Snapshot),
      (canRedo h = false -> redo h cur = (h, Return None)) /\
      (canRedo h = true ->
       exists older top,
         redoStack h = older ++ [top] /\
         fst (redo h cur) = mk (undoStack h ++ [stringify cur]) older (maxHistorySize h)) /\
      (canRedo h = true <-> fst (redo h cur) <> h)) /\
  (forall (h : hm) (cur : Snapshot),
      undo (clear h) cur = (clear h, Return None) /\
      redo (clear h) cur = (clear h, Return None)) /\
  (forall (h : hm) (cur : Snapshot),
      getStatus (fst (undo h cur))
      = (if canUndo h
         then (bool_decide (1 < length (undoStack h)), true,
               length (undoStack h) - 1, length (redoStack h) + 1)
         else getStatus h) /\
      getStatus (fst (redo h cur))
      = (if canRedo h
         then (true, bool_decide (1 < length (redoStack h)),
               length (undoStack h) + 1, length (redoStack h) - 1)
         else getStatus h)).
Proof.
  assert (Hshorter : forall (older : list JsonText) (top : JsonText),
             older <> older ++ [top]).
  { intros older top E. apply (f_equal length) in E.
    rewrite length_app in E. simpl in E. lia. }
  split; [|split; [|split]].
  - intros h cur. destruct (snoc_cases (undoStack h)) as [E|(older & top & E)].
    + assert (Hcan : canUndo h = false) by (unfold canUndo; by rewrite E).
      rewrite (undo_empty stringify parse h cur E), Hcan.
      split; [done|]. split; [done|]. split; [done | intros H; by destruct H].
    + assert (Hcan : canUndo h = true).
      { apply canUndo_iff. rewrite E. by destruct older. }
      rewrite (undo_snoc stringify parse h cur older top E), Hcan. cbn [fst].
      split; [done|]. split; [intros _; by exists older, top|].
      split; [|done]. intros _ Hsame. apply (Hshorter older top).
      rewrite <- E, <- Hsame. reflexivity.
  - intros h cur. destruct (snoc_cases (redoStack h)) as [E|(older & top & E)].
    + assert (Hcan : canRedo h = false) by (unfold canRedo; by rewrite E).
      rewrite (redo_empty stringify parse h cur E), Hcan.
      split; [done|]. split; [done|]. split; [done | intros H; by destruct H].
    + assert (Hcan : canRedo h = true).
      { apply canRedo_iff. rewrite E. by destruct older. }
      rewrite (redo_snoc stringify parse h cur older top E), Hcan. cbn [fst].
      split; [done|]. split; [intros _; by exists older, top|].
      split; [|done]. intros _ Hsame. apply (Hshorter older top).
      rewrite <- E, <- Hsame. reflexivity.
  - intros h cur. split.
    + by apply (undo_empty stringify parse).
    + by apply (redo_empty stringify parse).
  - intros h cur. split.
    + destruct (snoc_cases (undoStack h)) as [E|(older & top & E)].
      * assert (Hcan : canUndo h = false) by (unfold canUndo; by rewrite E).
        by rewrite (undo_empty stringify parse h cur E), Hcan.
      * assert (Hcan : canUndo h = true).
        { apply canUndo_iff. rewrite E. by destruct older. }
        rewrite (undo_snoc stringify parse h cur older top E), Hcan, E. cbn [fst].
        apply getStatus_after_move.
    + destruct (snoc_cases (redoStack h)) as [E|(older & top & E)].
      * assert (Hcan : canRedo h = false) by (unfold canRedo; by rewrite E).
        by rewrite (redo_empty stringify parse h cur E), Hcan.
      * assert (Hcan : canRedo h = true).
        { apply canRedo_iff. rewrite E. by destruct older. }
        rewrite (redo_snoc stringify parse h cur older top E), Hcan, E. cbn [fst].
        unfold getStatus, canUndo, canRedo. cbn [undoStack redoStack].
        rewrite !length_app. simpl. repeat f_equal; try lia.
        -- apply bool_decide_eq_true. lia.
        -- apply bool_decide_ext. lia.
Qed.

(** X14: undo and redo are inverse to each other: when [undo] returns the
    snapshot [s], a [redo] that is handed [s] restores both stacks to what
    they were and returns the state that was handed to [undo]; and the
    other way round. *)
Theorem undo_redo_inverse :
  (forall s, parse (stringify s) = Some s) ->
  (forall (h : hm) (cur s : Snapshot) (older : list JsonText),
      undoStack h = older ++ [stringify s] ->
      snd (undo h cur) = Return (Some s) /\
      redo (fst (undo h cur)) s = (h, Return (Some cur))) /\
  (forall (h : hm) (cur s : Snapshot) (older : list JsonText),
      redoStack h = older ++ [stringify s] ->
      snd (redo h cur) = Return (Some s) /\
      undo (fst (redo h cur)) s = (h, Return (Some cur))).
Proof.
  intros Hrt. split; intros h cur s older E.
  - rewrite (undo_snoc stringify parse h cur older _ E). cbn [fst snd].
    unfold JSON_parse at 1. simpl. rewrite Hrt. split; [done|].
    rewrite (redo_snoc stringify parse
               (mk older (redoStack h ++ [stringify cur]) (maxHistorySize h))
               s (redoStack h) (stringify cur) eq_refl).
    cbn [undoStack maxHistorySize]. unfold JSON_parse. simpl. rewrite Hrt, <- E.
    by destruct h.
  - rewrite (redo_snoc stringify parse h cur older _ E). cbn [fst snd].
    unfold JSON_parse at 1. simpl. rewrite Hrt. split; [done|].
    rewrite (undo_snoc stringify parse
               (mk (undoStack h ++ [stringify cur]) older (maxHistorySize h))
               s (undoStack h) (stringify cur) eq_refl).
    cbn [redoStack maxHistorySize]. unfold JSON_parse. simpl. rewrite Hrt, <- E.
    by destruct h.
Qed.

Lemma pushState_top (h : hm) (s : Snapshot) :
  0 < maxHistorySize h ->
  exists older, undoStack (pushState h s) = older ++ [stringify s].
Proof.
  intros Hmax. destruct (pushState_stacks stringify h s) as (-> & _ & _).
  case_decide as Hfull; [|by eexists].
  rewrite length_app in Hfull. simpl in Hfull.
  destruct (undoStack h) as [|j u]; simpl in *; [lia|]. by exists u.
Qed.

(** X15: with a positive capacity the checkpoint just pushed is the one
    the next [undo] returns, and that [undo] leaves exactly the current
    state on the redo stack; with capacity 0 a checkpoint on an empty
    manager stores nothing, so the next [undo] answers null. *)
Theorem pushState_then_undo :
  (forall (h : hm) (s cur : Snapshot),
      (forall x, parse (stringify x) = Some x) ->
      0 < maxHistorySize h ->
      snd (undo (pushState h s) cur) = Return (Some s) /\
      redoStack (fst (undo (pushState h s) cur)) = [stringify cur] /\
      canUndo (pushState h s) = true) /\
  (forall (h : hm) (s cur : Snapshot),
      maxHistorySize h = 0 -> undoStack h = [] ->
      undoStack (pushState h s) = [] /\
      canUndo (pushState h s) = false /\
      snd (undo (pushState h s) cur) = Return None).
Proof.
  split.
  - intros h s cur Hrt Hmax. destruct (pushState_top h s Hmax) as [older E].
    rewrite (undo_snoc stringify parse _ cur older _ E). cbn [fst snd redoStack].
    unfold JSON_parse. simpl. rewrite Hrt. split; [done|]. split.
    + by destruct (pushState_stacks stringify h s) as (_ & -> & _).
    + apply canUndo_iff. rewrite E. by destruct older.
  - intros h s cur Hmax Hu.
    assert (E : undoStack (pushState h s) = []).
    { destruct (pushState_stacks stringify h s) as (-> & _ & _).
      rewrite Hu, Hmax. cbn [app length]. case_decide; [done | lia]. }
    split; [done|]. split.
    + unfold canUndo. by rewrite E.
    + by rewrite (undo_empty stringify parse _ cur E).
Qed.

End HistoryMore.

Lemma undo_redo_inverse_witness :
  HistoryManager.redo Observe.numeral Observe.readNumeral
    (fst (HistoryManager.undo Observe.numeral Observe.readNumeral
            (HistoryManager.mk ["1"; "2"] ["8"] 5) 7%N)) 2%N
  = (HistoryManager.mk ["1"; "2"] ["8"] 5, HistoryManager.Return (Some 7%N)).
Proof.
  destruct (undo_redo_inverse Observe.numeral Observe.readNumeral readNumeral_numeral)
    as [Hundo _].
  apply (Hundo (HistoryManager.mk ["1"; "2"] ["8"] 5) 7%N 2%N ["1"] eq_refl).
Defined.

Lemma pushState_then_undo_witness :
  snd (HistoryManager.undo Observe.numeral Observe.readNumeral
         (HistoryManager.pushState Observe.numeral (HistoryManager.new (Some 1)) 4%N) 5%N)
  = HistoryManager.Return (Some 4%N) /\
  snd (HistoryManager.undo Observe.numeral Observe.readNumeral
         (HistoryManager.pushState Observe.numeral (HistoryManager.new (Some 0)) 4%N) 5%N)
  = HistoryManager.Return None.
Proof.
  destruct (pushState_then_undo Observe.numeral Observe.readNumeral) as [Hpos Hzero].
  split.
  - apply (Hpos (HistoryManager.new (Some 1)) 4%N 5%N readNumeral_numeral). simpl. lia.
  - apply (Hzero (HistoryManager.new (Some 0)) 4%N 5%N); reflexivity.
Defined.

Lemma canUndo_canRedo_exact_witness :
  HistoryManager.undo Observe.numeral Observe.readNumeral
    (HistoryManager.mk [] ["2"] 3) 9%N
  = (HistoryManager.mk [] ["2"] 3, HistoryManager.Return None) /\
  fst (HistoryManager.undo Observe.numeral Observe.readNumeral
         (HistoryManager.mk ["1"] ["2"] 3) 9%N)
  <> HistoryManager.mk ["1"] ["2"] 3.
Proof.
  destruct (canUndo_canRedo_exact Observe.numeral Observe.readNumeral) as (Hundo & _).
  split.
  - destruct (Hundo (HistoryManager.mk [] ["2"] 3) 9%N) as (Hnull & _).
    apply Hnull. reflexivity.
  - destruct (Hundo (HistoryManager.mk ["1"] ["2"] 3) 9%N) as (_ & _ & Hmoves).
    apply Hmoves. reflexivity.
Defined.

(** ** The controller: checkpoints, undo and redo *)

Section Controller.

Import AppController.

Context {JsonText : Type}.
Variable stringify : BoardStateManager.t -> JsonText.
Variable parse : JsonText -> option BoardStateManager.t.
Hypothesis roundtrip : forall st, parse (stringify st) = Some st.

Local Abbreviation ctl := (AppController.t JsonText).
Local Abbreviation handleStateChange := (AppController.handleStateChange stringify parse).
Local Abbreviation undo := (AppController.undo stringify parse).
Local Abbreviation redo := (AppController.redo stringify parse).

Lemma copy_roundtrip (st : BoardStateManager.t) :
  AppController.copy stringify parse st = HistoryManager.Return st.
Proof using roundtrip. unfold AppController.copy. by rewrite roundtrip. Qed.

Lemma handleStateChange_recognised (c : ctl) (a : action) (st' : BoardStateManager.t) :
  isLoading c = false ->
  applyAction (boardManager c) a = Some st' ->
  handleStateChange c a
  = (mk st' (HistoryManager.pushState stringify (historyManager c) (boardManager c)) false,
     HistoryManager.Return tt).
Proof using roundtrip.
  intros Hload Ha. unfold AppController.handleStateChange, getState.
  by rewrite Hload, copy_roundtrip, Ha.
Qed.




(** *** The shape is kept through checkpoints, undo and redo *)

Local Abbreviation shaped := (Observe.controllerHealthy parse).
Local Abbreviation goodEntry :=
  (fun j : JsonText => exists st, parse j = Some st /\ Observe.healthy st).

Lemma goodEntry_stringify (st : BoardStateManager.t) :
  Observe.healthy st -> goodEntry (stringify st).
Proof using roundtrip. intros Hst. exists st. by rewrite roundtrip. Qed.

Lemma handleStateChange_shaped (c : ctl) (a : action) :
  shaped c ->
  shaped (fst (handleStateChange c a)) /\
  snd (handleStateChange c a) = HistoryManager.Return tt.
Proof using roundtrip.
  intros [Hboard [Hu Hr]]. unfold AppController.handleStateChange, getState.
  destruct (isLoading c); [done|]. rewrite copy_roundtrip.
  destruct (applyAction (boardManager c) a) as [st'|] eqn:Ha; [|done].
  cbn [fst snd]. split; [|done]. split; [by eapply applyAction_healthy|].
  unfold Observe.snapshotsHealthy. cbn [historyManager].
  destruct (pushState_stacks stringify (historyManager c) (boardManager c))
    as (-> & -> & _).
  split; [|constructor].
  assert (Forall goodEntry (HistoryManager.undoStack (historyManager c)
                            ++ [stringify (boardManager c)])).
  { apply Forall_app. split; [done|]. apply Forall_singleton.
    by apply goodEntry_stringify. }
  case_decide; [by apply Forall_tail | done].
Qed.

Lemma undo_shaped (c : ctl) :
  shaped c -> shaped (fst (undo c)) /\ snd (undo c) = HistoryManager.Return tt.
Proof using roundtrip.
  intros [Hboard [Hu Hr]]. unfold AppController.undo, getState. rewrite copy_roundtrip.
  destruct (snoc_cases (HistoryManager.undoStack (historyManager c)))
    as [E|(older & top & E)].
  - rewrite (undo_empty stringify parse _ _ E). cbn [restore fst snd]. by destruct c.
  - rewrite (undo_snoc stringify parse _ _ older top E). rewrite E in Hu.
    apply Forall_app in Hu as [Holder Htop].
    apply Forall_singleton in Htop as (st & Hparse & Hst).
    unfold restore, HistoryManager.JSON_parse. simpl. rewrite Hparse.
    unfold setState. rewrite copy_roundtrip. cbn [fst snd]. split; [|done].
    split; [done|]. split; [done|]. cbn [historyManager HistoryManager.redoStack].
    apply Forall_app. split; [done|]. apply Forall_singleton.
    by apply goodEntry_stringify.
Qed.

Lemma redo_shaped (c : ctl) :
  shaped c -> shaped (fst (redo c)) /\ snd (redo c) = HistoryManager.Return tt.
Proof using roundtrip.
  intros [Hboard [Hu Hr]]. unfold AppController.redo, getState. rewrite copy_roundtrip.
  destruct (snoc_cases (HistoryManager.redoStack (historyManager c)))
    as [E|(older & top & E)].
  - rewrite (redo_empty stringify parse _ _ E). cbn [restore fst snd]. by destruct c.
  - rewrite (redo_snoc stringify parse _ _ older top E). rewrite E in Hr.
    apply Forall_app in Hr as [Holder Htop].
    apply Forall_singleton in Htop as (st & Hparse & Hst).
    unfold restore, HistoryManager.JSON_parse. simpl. rewrite Hparse.
    unfold setState. rewrite copy_roundtrip. cbn [fst snd]. split; [|done].
    split; [done|]. split; [|done]. cbn [historyManager HistoryManager.undoStack].
    apply Forall_app. split; [done|]. apply Forall_singleton.
    by apply goodEntry_stringify.
Qed.

Lemma initialize_shaped (y w : Z) (saved : option BoardStateManager.t) :
  (forall st, saved = Some st -> Observe.healthy st) ->
  shaped (AppController.initialize stringify parse (AppController.new y w) saved).
Proof using roundtrip.
  intros Hsaved. unfold AppController.initialize, setState. split.
  - cbn [boardManager]. destruct saved as [st|].
    + rewrite copy_roundtrip. by apply Hsaved.
    + apply createEmptyState_healthy.
  - split; constructor.
Qed.

Lemma handle_all_shaped (c : ctl) (events : list event) :
  shaped c -> shaped (foldl (AppController.handle stringify parse) c events).
Proof using roundtrip.
  revert c. induction events as [|e events IH]; intros c Hc; [done|].
  simpl. apply IH. destruct e as [a| |]; simpl.
  - by apply handleStateChange_shaped.
  - by apply undo_shaped.
  - by apply redo_shaped.
Qed.

End Controller.



(** X17: while the loading flag is set, as it is from construction until
    [initialize] has run, [handleStateChange] changes nothing; an unknown
    action name changes neither the board nor the history.  A recognised
    intent is checkpointed even when its mutation fails: [removeRow] off
    the board leaves the board as it is, yet the previous state is pushed
    and the redo stack is emptied. *)
Theorem ignored_and_failed_changes {JsonText : Type}
    (stringify : BoardStateManager.t -> JsonText)
    (parse : JsonText -> option BoardStateManager.t) :
  (forall (c : AppController.t JsonText) (a : AppController.action),
      AppController.isLoading c = true ->
      AppController.handleStateChange stringify parse c a = (c, HistoryManager.Return tt)) /\
  (forall (y w : Z) (a : AppController.action),
      AppController.handleStateChange stringify parse (AppController.new y w) a
      = (AppController.new y w, HistoryManager.Return tt)) /\
  (forall (c : AppController.t JsonText) (name : string),
      fst (AppController.handleStateChange stringify parse c (AppController.Unknown name))
      = c) /\
  (forall (c : AppController.t JsonText) (p : Z),
      (forall st, parse (stringify st) = Some st) ->
      AppController.isLoading c = false ->
      ~ (0 <= p < JS.length (BoardStateManager.rows (AppController.boardManager c)))%Z ->
      let c1 := fst (AppController.handleStateChange stringify parse c
                       (AppController.RemoveRow p)) in
      AppController.boardManager c1 = AppController.boardManager c /\
      AppController.historyManager c1
      = HistoryManager.pushState stringify (AppController.historyManager c)
          (AppController.boardManager c) /\
      HistoryManager.redoStack (AppController.historyManager c1) = []).
Proof.
  split; [|split; [|split]].
  - intros c a Hload. unfold AppController.handleStateChange. by rewrite Hload.
  - intros y w a. reflexivity.
  - intros c name. unfold AppController.handleStateChange.
    destruct (AppController.isLoading c); [done|].
    by destruct (AppController.getState stringify parse (AppController.boardManager c)).
  - intros c p Hrt Hload Hp c1. subst c1.
    rewrite (handleStateChange_recognised stringify parse Hrt c (AppController.RemoveRow p)
               (AppController.boardManager c) Hload).
    + cbn [fst AppController.boardManager AppController.historyManager].
      split; [done|]. split; [done|]. apply pushState_stacks.
    + simpl. by rewrite (removeRow_invalid _ p Hp).
Qed.

Lemma ignored_and_failed_changes_witness :
  HistoryManager.redoStack
    (AppController.historyManager
       (fst (AppController.handleStateChange (fun st => st) Some
               (AppController.mk (Observe.staffed 2 1)
                  (HistoryManager.mk [] [Observe.staffed 3 1] 100) false)
               (AppController.RemoveRow 7))))
  = [] /\
  AppController.handleStateChange (fun st => st) Some
    (AppController.mk (Observe.staffed 2 1) (HistoryManager.new None) true)
    (AppController.RemoveRow 0)
  = (AppController.mk (Observe.staffed 2 1) (HistoryManager.new None) true,
     HistoryManager.Return tt).
Proof.
  destruct (ignored_and_failed_changes (fun st : BoardStateManager.t => st) Some)
    as (Hloading & _ & _ & Hfailed).
  split.
  - apply (Hfailed (AppController.mk (Observe.staffed 2 1)
                      (HistoryManager.mk [] [Observe.staffed 3 1] 100) false) 7%Z).
    + reflexivity.
    + reflexivity.
    + unfold JS.length. simpl. lia.
  - apply Hloading. reflexivity.
Defined.

(** X18: the controller keeps the shape of the board through every
    sequence of intents, undo and redo: once the loaded state (or the empty
    one) has dense rows, seven positional columns and positive required
    counts, the live board and every checkpoint on both stacks have them
    after any sequence of events, and no call throws.  (JSON.parse is
    assumed to invert JSON.stringify on states.) *)
Theorem controller_keeps_shape {JsonText : Type}
    (stringify : BoardStateManager.t -> JsonText)
    (parse : JsonText -> option BoardStateManager.t) :
  (forall st, parse (stringify st) = Some st) ->
  (forall (y w : Z) (saved : option BoardStateManager.t),
      (forall st, saved = Some st -> Observe.healthy st) ->
      Observe.controllerHealthy parse
        (AppController.initialize stringify parse (AppController.new y w) saved)) /\
  (forall (c : AppController.t JsonText) (events : list AppController.event),
      Observe.controllerHealthy parse c ->
      Observe.controllerHealthy parse
        (foldl (AppController.handle stringify parse) c events)) /\
  (forall (c : AppController.t JsonText),
      Observe.controllerHealthy parse c ->
      (forall a, snd (AppController.handleStateChange stringify parse c a)
                 = HistoryManager.Return tt) /\
      snd (AppController.undo stringify parse c) = HistoryManager.Return tt /\
      snd (AppController.redo stringify parse c) = HistoryManager.Return tt).
Proof.
  intros Hrt. split; [|split].
  - intros y w saved. by apply initialize_shaped.
  - intros c events. by apply handle_all_shaped.
  - intros c Hc. split; [|split].
    + intros a. by apply handleStateChange_shaped.
    + by apply undo_shaped.
    + by apply redo_shaped.
Qed.

Lemma controller_keeps_shape_witness :
  Observe.controllerHealthy Some
    (foldl (AppController.handle (fun st => st) Some)
       (AppController.initialize (fun st => st) Some (AppController.new 2026 45) None)
       [AppController.Change (AppController.AddRow None);
        AppController.Change (AppController.ToggleTile 0 2);
        AppController.UndoEvent; AppController.RedoEvent;
        AppController.Change (AppController.RemoveRow 0)]).
Proof.
  destruct (controller_keeps_shape (fun st : BoardStateManager.t => st) Some)
    as (Hinit & Hrun & _); [done|].
  apply Hrun, Hinit. intros st Hst. discriminate.
Defined.

(** ** The spreadsheet export *)

Section ExcelExport.

Import ExcelGenerator.

Lemma employeeWrites_elem (i : nat) (r : BoardStateManager.row) (w : write) :
  w ∈ employeeWrites i r
  <-> w = mkWrite (Observe.sectionRow i) 1 (BoardStateManager.header r)
      \/ exists (d : nat) (tl : BoardStateManager.tile),
           BoardStateManager.tiles r !! d = Some tl /\
           w = mkWrite (Observe.sectionRow i) (3 + Z.of_nat d)
                       (getTileValue (BoardStateManager.state tl)).
Proof.
  unfold employeeWrites, Observe.sectionRow, FIRST_SECTION_START_ROW, SECTION_HEIGHT,
    NAME_COLUMN, DAYS_START_COLUMN.
  replace (4 + Z.of_nat i * 3)%Z with (4 + 3 * Z.of_nat i)%Z by lia.
  rewrite elem_of_cons, list_elem_of_lookup. split.
  - intros [->|[d Hd]]; [by left|]. right. rewrite list_lookup_imap in Hd.
    destruct (BoardStateManager.tiles r !! d) as [tl|] eqn:Htl; [|done].
    simpl in Hd. injection Hd as <-. by exists d, tl.
  - intros [->|(d & tl & Htl & ->)]; [by left|]. right. exists d.
    by rewrite list_lookup_imap, Htl.
Qed.

Lemma fill_snoc (rows : list BoardStateManager.row) (r : BoardStateManager.row) :
  fillEmployeeSections (rows ++ [r])
  = fillEmployeeSections rows ++ employeeWrites (length rows) r.
Proof.
  unfold fillEmployeeSections. rewrite imap_app, concat_app. simpl.
  by rewrite app_nil_r, Nat.add_0_r.
Qed.

Lemma fill_elem (rows : list BoardStateManager.row) (w : write) :
  w ∈ fillEmployeeSections rows
  <-> exists (i : nat) (r : BoardStateManager.row),
        rows !! i = Some r /\ w ∈ employeeWrites i r.
Proof.
  induction rows as [|r rows IH] using rev_ind.
  - split; [intros H; by apply elem_of_nil in H|].
    intros (i & r & Hi & _). by rewrite lookup_nil in Hi.
  - rewrite fill_snoc, elem_of_app, IH. split.
    + intros [(i & r0 & Hi & Hw)|Hw].
      * exists i, r0. split; [|done]. apply lookup_app_l_Some, Hi.
      * exists (length rows), r. split; [|done]. by rewrite list_lookup_middle.
    + intros (i & r0 & Hi & Hw). apply lookup_snoc_Some in Hi as [[_ Hi]|[-> ->]].
      * left. by exists i, r0.
      * by right.
Qed.

Lemma employeeWrites_cells_NoDup (i : nat) (r : BoardStateManager.row) :
  NoDup (Observe.cell <$> employeeWrites i r).
Proof.
  apply NoDup_alt. intros a b x Ha Hb.
  rewrite list_lookup_fmap in Ha, Hb.
  unfold employeeWrites in Ha, Hb.
  destruct a as [|a], b as [|b]; simpl in Ha, Hb; [done| | |].
  - injection Ha as <-. rewrite list_lookup_imap in Hb.
    destruct (BoardStateManager.tiles r !! b); simpl in Hb; [|done].
    injection Hb as Hb. unfold DAYS_START_COLUMN, NAME_COLUMN in Hb. lia.
  - injection Hb as <-. rewrite list_lookup_imap in Ha.
    destruct (BoardStateManager.tiles r !! a); simpl in Ha; [|done].
    injection Ha as Ha. unfold DAYS_START_COLUMN, NAME_COLUMN in Ha. lia.
  - rewrite list_lookup_imap in Ha, Hb.
    destruct (BoardStateManager.tiles r !! a); simpl in Ha; [|done].
    destruct (BoardStateManager.tiles r !! b); simpl in Hb; [|done].
    injection Ha as <-. injection Hb as Hb. lia.
Qed.

Lemma employeeWrites_row (i : nat) (r : BoardStateManager.row) (w : write) :
  w ∈ employeeWrites i r ->
  cellRow w = Observe.sectionRow i /\ (cellColumn w = 1 \/ 3 <= cellColumn w)%Z.
Proof.
  intros [->|(d & tl & _ & ->)]%employeeWrites_elem; simpl; split; try done; lia.
Qed.

Lemma fill_cells_NoDup (rows : list BoardStateManager.row) :
  NoDup (Observe.cell <$> fillEmployeeSections rows).
Proof.
  induction rows as [|r rows IH] using rev_ind; [constructor|].
  rewrite fill_snoc, fmap_app. apply NoDup_app. split; [done|]. split.
  - intros x (w & -> & Hw)%list_elem_of_fmap_1 (w' & Hc & Hw')%list_elem_of_fmap_1.
    apply fill_elem in Hw as (i & r0 & Hi & Hw).
    apply employeeWrites_row in Hw as [Hrow _].
    apply employeeWrites_row in Hw' as [Hrow' _].
    apply lookup_lt_Some in Hi. unfold Observe.cell in Hc.
    injection Hc as Hc _. unfold Observe.sectionRow in *. lia.
  - apply employeeWrites_cells_NoDup.
Qed.

End ExcelExport.

(** X19: [fillEmployeeSections] assigns, for the employee at position [i],
    the header to column 1 of line [4 + 3 i] and, for each tile [d] of the
    employee, the text of its state to column [3 + d] of the same line,
    and nothing else.  No cell is assigned twice, so no value is
    overwritten; every assignment is on the first line of a section, never
    above line 4 and never in column 2. *)
Theorem export_writes :
  (forall (rows : list BoardStateManager.row) (w : ExcelGenerator.write),
      w ∈ ExcelGenerator.fillEmployeeSections rows
      <-> exists (i : nat) (r : BoardStateManager.row),
            rows !! i = Some r /\
            (w = ExcelGenerator.mkWrite (Observe.sectionRow i) 1 (BoardStateManager.header r)
             \/ exists (d : nat) (tl : BoardStateManager.tile),
                  BoardStateManager.tiles r !! d = Some tl /\
                  w = ExcelGenerator.mkWrite (Observe.sectionRow i) (3 + Z.of_nat d)
                        (ExcelGenerator.getTileValue (BoardStateManager.state tl)))) /\
  (forall rows : list BoardStateManager.row,
      NoDup (Observe.cell <$> ExcelGenerator.fillEmployeeSections rows)) /\
  (forall (rows : list BoardStateManager.row) (w : ExcelGenerator.write),
      w ∈ ExcelGenerator.fillEmployeeSections rows ->
      (4 <= ExcelGenerator.cellRow w)%Z /\
      ((ExcelGenerator.cellRow w - 4) mod 3 = 0)%Z /\
      (ExcelGenerator.cellColumn w = 1 \/ 3 <= ExcelGenerator.cellColumn w)%Z).
Proof.
  split; [|split].
  - intros rows w. rewrite fill_elem. split.
    + intros (i & r & Hi & Hw). exists i, r. split; [done|]. by apply employeeWrites_elem.
    + intros (i & r & Hi & Hw). exists i, r. split; [done|]. by apply employeeWrites_elem.
  - exact fill_cells_NoDup.
  - intros rows w (i & r & _ & Hw)%fill_elem.
    apply employeeWrites_row in Hw as [-> Hcol]. unfold Observe.sectionRow.
    split; [lia|]. split; [|done].
    replace (4 + 3 * Z.of_nat i - 4)%Z with (Z.of_nat i * 3)%Z by lia.
    apply Z.mod_mul. lia.
Qed.

Lemma export_writes_witness :
  (4 <= ExcelGenerator.cellRow (ExcelGenerator.mkWrite 7 5 "9.00-17.30"))%Z.
Proof.
  destruct export_writes as (_ & _ & Hwhere).
  apply (Hwhere (BoardStateManager.rows (Observe.staffed 2 1))).
  apply list_elem_of_In. vm_compute.
  repeat (first [left; reflexivity | right]).
Defined.

(** X20: the export text of a state is empty exactly for a state outside
    the enumeration, and a state of the enumeration shares its text with no
    other string: the export tells the three states apart from each other
    and from every unknown value. *)
Theorem getTileValue_distinguishes :
  (forall s : string, ExcelGenerator.getTileValue s = "" <-> s ∉ TILE_STATE_ORDER) /\
  (forall s1 s2 : string,
      s1 ∈ TILE_STATE_ORDER ->
      ExcelGenerator.getTileValue s1 = ExcelGenerator.getTileValue s2 -> s1 = s2).
Proof.
  assert (Hcases : forall s,
    (s = "A" /\ ExcelGenerator.getTileValue s = "A")
    \/ (s = "Praca" /\ ExcelGenerator.getTileValue s = "9.00-17.30")
    \/ (s = "U" /\ ExcelGenerator.getTileValue s = "U")
    \/ ((s ∉ TILE_STATE_ORDER) /\ ExcelGenerator.getTileValue s = "")).
  { intros s. unfold ExcelGenerator.getTileValue.
    destruct (decide (s = "A")) as [->|HA]; [by left|].
    destruct (decide (s = "Praca")) as [->|HP]; [right; by left|].
    destruct (decide (s = "U")) as [->|HU]; [do 2 right; by left|].
    do 3 right. split; [|done]. unfold TILE_STATE_ORDER.
    rewrite !not_elem_of_cons. repeat split; try done. apply not_elem_of_nil. }
  assert (Hknown : forall s, s ∈ TILE_STATE_ORDER -> s = "A" \/ s = "Praca" \/ s = "U")
    by exact known_state_cases.
  split.
  - intros s. destruct (Hcases s) as [[-> E]|[[-> E]|[[-> E]|[Hs E]]]]; rewrite E.
    + split; [done|]. intros H. exfalso. apply H.
      unfold TILE_STATE_ORDER. rewrite !elem_of_cons. tauto.
    + split; [done|]. intros H. exfalso. apply H.
      unfold TILE_STATE_ORDER. rewrite !elem_of_cons. tauto.
    + split; [done|]. intros H. exfalso. apply H.
      unfold TILE_STATE_ORDER. rewrite !elem_of_cons. tauto.
    + done.
  - intros s1 s2 Hs1 E.
    destruct (Hcases s2) as [[-> E2]|[[-> E2]|[[-> E2]|[Hs2 E2]]]]; rewrite E2 in E;
      destruct (Hknown s1 Hs1) as [->|[->| ->]]; try done; discriminate.
Qed.

Lemma getTileValue_distinguishes_witness :
  ExcelGenerator.getTileValue "praca" = "".
Proof.
  destruct getTileValue_distinguishes as [Hempty _].
  apply Hempty. unfold TILE_STATE_ORDER. rewrite !not_elem_of_cons.
  repeat split; try discriminate. apply not_elem_of_nil.
Defined.

(** ** Deserialization: missing keys and empty arrays *)

Section FromJSONDefaults.

Lemma prop_Obj (props : list (string * JS.value)) (k : string) :
  JS.prop (JS.Obj props) k = Some (default JS.Undefined (JS.assoc k props)).
Proof. reflexivity. Qed.

Lemma Board_fromJSON_lengths (data : JS.value) (b : Board.t) :
  Board.fromJSON data = Some b ->
  exists cs rs,
    JS.prop data "columns" = Some (JS.Arr cs) /\
    JS.prop data "rows" = Some (JS.Arr rs) /\
    length (Board.columns b) = length cs /\
    length (Board.rows b) = length rs.
Proof.
  unfold Board.fromJSON. intros H.
  destruct (JS.prop data "columns") as [vc|] eqn:Ec; [|done].
  destruct vc as [| | | | |cs|]; try done. simpl in H.
  destruct (mapM Column.fromJSON cs) as [cols|] eqn:Hcols; [|done]. simpl in H.
  destruct (JS.prop data "rows") as [vr|] eqn:Er; [|done].
  destruct vr as [| | | | |rs|]; try done. simpl in H.
  destruct (mapM Row.fromJSON rs) as [rows|] eqn:Hrows; [|done]. simpl in H.
  injection H as <-. exists cs, rs. split; [done|]. split; [done|].
  cbn [Board.new Board.columns Board.rows default].
  split; symmetry; by eapply length_mapM.
Qed.

End FromJSONDefaults.

(** X21: [fromJSON] fills in the constructor defaults for keys that are
    missing, whatever the order of the keys: a tile without [state] is
    'A', a column without [requiredWorkers] requires 1, a row without
    [header] and [includedInCalculations] has the empty header and is
    included, while a row without [tiles] is rejected.  Arrays are taken
    as they are: a board read back has exactly as many columns and rows as
    the data, so empty [columns] stay empty and are never replaced by the
    seven default columns. *)
Theorem fromJSON_defaults :
  (forall (props : list (string * JS.value)) (r c : Z),
      JS.assoc "rowIndex" props = Some (JS.Num r) ->
      JS.assoc "columnIndex" props = Some (JS.Num c) ->
      JS.assoc "state" props = None ->
      Tile.fromJSON (JS.Obj props) = Some (Tile.mk r c TileState.A)) /\
  (forall (props : list (string * JS.value)) (i : Z),
      JS.assoc "index" props = Some (JS.Num i) ->
      JS.assoc "requiredWorkers" props = None ->
      Column.fromJSON (JS.Obj props)
      = Some (Column.mk i (JS.at_index Column.DAYS_OF_WEEK i) 1)) /\
  (forall (props : list (string * JS.value)) (i : Z) (items : list JS.value)
          (tiles : list Tile.t),
      JS.assoc "tiles" props = Some (JS.Arr items) ->
      mapM Tile.fromJSON items = Some tiles ->
      JS.assoc "index" props = Some (JS.Num i) ->
      JS.assoc "header" props = None ->
      JS.assoc "includedInCalculations" props = None ->
      Row.fromJSON (JS.Obj props) = Some (Row.mk i "" true tiles)) /\
  (forall props : list (string * JS.value),
      JS.assoc "tiles" props = None -> Row.fromJSON (JS.Obj props) = None) /\
  (forall (data : JS.value) (b : Board.t),
      Board.fromJSON data = Some b ->
      exists cs rs,
        JS.prop data "columns" = Some (JS.Arr cs) /\
        JS.prop data "rows" = Some (JS.Arr rs) /\
        length (Board.columns b) = length cs /\
        length (Board.rows b) = length rs).
Proof.
  split; [|split; [|split; [|split]]].
  - intros props r c Hr Hc Hs. unfold Tile.fromJSON.
    rewrite !prop_Obj, Hr, Hc, Hs. reflexivity.
  - intros props i Hi Hr. unfold Column.fromJSON.
    rewrite !prop_Obj, Hi, Hr. reflexivity.
  - intros props i items tiles Ht Hm Hi Hh Hinc. unfold Row.fromJSON.
    rewrite !prop_Obj, Ht, Hi, Hh, Hinc.
    cbn [default from_option id mbind option_bind JS.map_arr].
    rewrite Hm. reflexivity.
  - intros props Ht. unfold Row.fromJSON. rewrite !prop_Obj, Ht. reflexivity.
  - exact Board_fromJSON_lengths.
Qed.

Lemma fromJSON_defaults_witness :
  Tile.fromJSON (JS.Obj [("columnIndex", JS.Num 3); ("rowIndex", JS.Num 1)])
  = Some (Tile.mk 1 3 "A") /\
  Column.fromJSON (JS.Obj [("index", JS.Num 6)]) = Some (Column.mk 6 (Some "Niedziela") 1) /\
  Row.fromJSON (JS.Obj [("index", JS.Num 0); ("header", JS.Str "Anna")]) = None /\
  (exists cs rs,
     JS.prop (JS.Obj [("rows", JS.Arr []); ("columns", JS.Arr [])]) "columns"
     = Some (JS.Arr cs) /\
     JS.prop (JS.Obj [("rows", JS.Arr []); ("columns", JS.Arr [])]) "rows"
     = Some (JS.Arr rs) /\
     length (Board.columns (Board.mk [] [])) = length cs /\
     length (Board.rows (Board.mk [] [])) = length rs).
Proof.
  destruct fromJSON_defaults as (Htile & Hcol & _ & Hrow & Hboard).
  split; [apply Htile; reflexivity|].
  split; [apply (Hcol _ 6%Z); reflexivity|].
  split; [apply Hrow; reflexivity|].
  apply (Hboard (JS.Obj [("rows", JS.Arr []); ("columns", JS.Arr [])])). reflexivity.
Defined.

(** X22: serialization loses nothing: two tiles, or two rows, with the
    same [toJSON] are equal, and so are two boards whose columns carry the
    names their indices derive. *)
Theorem toJSON_injective :
  (forall t1 t2 : Tile.t, Tile.toJSON t1 = Tile.toJSON t2 -> t1 = t2) /\
  (forall r1 r2 : Row.t, Row.toJSON r1 = Row.toJSON r2 -> r1 = r2) /\
  (forall b1 b2 : Board.t,
      Observe.namesDerived b1 -> Observe.namesDerived b2 ->
      Board.toJSON b1 = Board.toJSON b2 -> b1 = b2).
Proof.
  split; [|split].
  - intros t1 t2 E. apply (f_equal Tile.fromJSON) in E.
    rewrite !Tile_roundtrip in E. by injection E.
  - intros r1 r2 E. apply (f_equal Row.fromJSON) in E.
    rewrite !Row_roundtrip in E. by injection E.
  - intros b1 b2 H1 H2 E. apply (f_equal Board.fromJSON) in E.
    rewrite !Board_roundtrip in E by done. by injection E.
Qed.

Lemma toJSON_injective_witness :
  Board.new None None = Board.new None (Some []).
Proof.
  destruct toJSON_injective as (_ & _ & Hboard).
  apply Hboard; [apply new_namesDerived | apply new_namesDerived | reflexivity].
Defined.

(** X12: [getColumnsStatus] of the class model has one entry per column;
    the entry at position [i] carries the name and the Sunday flag of the
    column stored there and the work count of position [i], which lies
    between 0 and the number of rows, and it is valid exactly when the
    count equals the required count or, unless the column is Sunday, the
    required count plus one. *)
Theorem Board_getColumnsStatus_entries (b : Board.t) :
  length (Board.getColumnsStatus b) = length (Board.columns b) /\
  (forall (i : nat) (s : Board.columnStatus),
      Board.getColumnsStatus b !! i = Some s ->
      exists col,
        Board.columns b !! i = Some col /\
        Board.statusIndex s = Z.of_nat i /\
        Board.statusName s = Column.name col /\
        Board.statusRequiredWorkers s = Column.requiredWorkers col /\
        Board.isSunday s = Column.isSunday col /\
        Board.pracaCount s = Board.countPracaInColumn b (Z.of_nat i) /\
        (0 <= Board.pracaCount s <= JS.length (Board.rows b))%Z /\
        (Board.isValid s = true
         <-> Board.pracaCount s = Board.statusRequiredWorkers s
             \/ (Board.isSunday s = false /\
                 Board.pracaCount s = (Board.statusRequiredWorkers s + 1)%Z))).
Proof.
  split; [unfold Board.getColumnsStatus; apply length_imap|].
  intros i s Hs. unfold Board.getColumnsStatus in Hs. rewrite list_lookup_imap in Hs.
  destruct (Board.columns b !! i) as [col|] eqn:Hcol; [|done].
  simpl in Hs. injection Hs as <-. exists col. split; [done|].
  cbn [Board.statusIndex Board.statusName Board.statusRequiredWorkers Board.isSunday
       Board.pracaCount Board.isValid].
  do 5 (split; [done|]). split.
  - rewrite Board_countPracaInColumn_filter. unfold JS.length.
    pose proof (List.filter_length_le (Observe.rowCountsFor (Z.of_nat i)) (Board.rows b)).
    lia.
  - assert (Hat : Board.getColumn b (Z.of_nat i) = Some col)
      by (unfold Board.getColumn; by rewrite at_index_of_nat).
    rewrite (Board_isColumnValid_iff b (Z.of_nat i) col Hat).
    destruct (Column.isSunday col).
    + split; [by left|]. intros [?|[? _]]; done.
    + split; [intros [?|?]; [by left | by right]|]. intros [?|[_ ?]]; [by left | by right].
Qed.

Lemma Board_getColumnsStatus_entries_witness :
  exists col,
    Board.columns (Observe.staffedBoard 3 2) !! 6 = Some col /\
    Board.isSunday (Board.mkStatus 6 (Some "Niedziela") 2 3 false true)
    = Column.isSunday col.
Proof.
  destruct (Board_getColumnsStatus_entries (Observe.staffedBoard 3 2)) as [_ Hentry].
  destruct (Hentry 6 (Board.mkStatus 6 (Some "Niedziela") 2 3 false true) eq_refl)
    as (col & Hcol & _ & _ & _ & Hsun & _).
  by exists col.
Defined.

(** ** The required count of a column *)

(** X23: [Column.setRequiredWorkers] follows a last-good-value policy:
    after any sequence of calls the required count is the last positive
    count that was offered, or the original one when none was positive;
    index and name never change, and a positive count stays positive. *)
Theorem setRequiredWorkers_last_good (col : Column.t) (counts : list Z) :
  let col' := foldl Column.setRequiredWorkers col counts in
  Column.requiredWorkers col'
  = default (Column.requiredWorkers col)
            (last (List.filter (fun count => bool_decide (count > 0)%Z) counts)) /\
  Column.index col' = Column.index col /\
  Column.name col' = Column.name col /\
  ((0 < Column.requiredWorkers col)%Z -> (0 < Column.requiredWorkers col')%Z).
Proof.
  induction counts as [|count counts IH] using rev_ind; [done|].
  cbv zeta in *. rewrite foldl_app, List.filter_app. simpl.
  destruct IH as (Hreq & Hidx & Hname & Hpos).
  set (col1 := foldl Column.setRequiredWorkers col counts) in *.
  unfold Column.setRequiredWorkers. destruct (decide (count > 0)%Z) as [Hc|Hc].
  - rewrite bool_decide_eq_true_2 by done. rewrite last_snoc. simpl.
    split; [done|]. split; [done|]. split; [done|]. lia.
  - rewrite bool_decide_eq_false_2 by done. rewrite app_nil_r. done.
Qed.

Lemma setRequiredWorkers_last_good_witness :
  (0 < Column.requiredWorkers
         (foldl Column.setRequiredWorkers (Column.new 2 None) [3; 0; 5; -1])%Z)%Z.
Proof.
  apply (setRequiredWorkers_last_good (Column.new 2 None) [3; 0; 5; -1]%Z).
  simpl. lia.
Defined.
